(** * KIS +1% strategy client: streaming dispatcher, wait primitives,
      IOC loops and the session loop.

    A shallow embedding of [kis/ws.py], [kis/strategy.py] and
    [kis/session.py].

    Conventions of the embedding.
    - Python [str] values are [string]s (one [ascii] per code point below
      256); [int] is [Z]; [float] is [pyfloat]: the rational that a finite
      double stands for, or one of the IEEE specials.  The arithmetic on
      floats is that of binary64: every operation rounds its exact result
      to the nearest double, ties to even ([Binary64]).
    - [dict]s are [gmap]s, an [asyncio.Queue] is the list of its pending
      items (head = next item out), an [asyncio.Event] is its flag.
    - The builtins whose grammar lives outside this repository
      ([int(str)], [float(str)], [json.loads], the AES/base64 decryption)
      are section variables; [Builtins] below gives a concrete instance on
      plain decimal numerals for the examples.
    - Coroutines are modelled at their suspension points: what the rest of
      the world does while a coroutine is suspended is an explicit
      argument (a schedule, or an environment oracle). *)

From Stdlib Require Import ZArith QArith Qround Qabs Ascii String.
From Stdlib Require Floats.
From stdpp Require Import gmap strings list.

Local Open Scope string_scope.
Local Open Scope Z_scope.
Local Open Scope list_scope.

(* ===================================================================== *)
(** * Python strings                                                      *)
(* ===================================================================== *)

Module PyStr.

(** [str.isspace] on code points below 256. *)
Definition is_space (c : ascii) : bool :=
  let n := nat_of_ascii c in
  ((9 <=? n) && (n <=? 13))%nat || ((28 <=? n) && (n <=? 32))%nat
  || (n =? 133)%nat || (n =? 160)%nat.

Fixpoint lstrip (s : string) : string :=
  match s with
  | String c s' => if is_space c then lstrip s' else s
  | EmptyString => EmptyString
  end.

Fixpoint rstrip (s : string) : string :=
  match s with
  | String c s' =>
      match rstrip s' with
      | EmptyString => if is_space c then EmptyString else String c EmptyString
      | r => String c r
      end
  | EmptyString => EmptyString
  end.

(** [s.strip()] *)
Definition strip (s : string) : string := rstrip (lstrip s).

(** [str.upper] on one character: [a]..[z] go to [A]..[Z].  The code
    points 128..255 are left alone; under Python they upper-case to
    themselves, to a non-ASCII character or to ["SS"], never to a letter
    of ["Y"], ["T"], ["TRUE"]. *)
Definition upper_char (c : ascii) : ascii :=
  let n := nat_of_ascii c in
  if ((97 <=? n) && (n <=? 122))%nat then ascii_of_nat (n - 32) else c.

Fixpoint upper (s : string) : string :=
  match s with
  | String c s' => String (upper_char c) (upper s')
  | EmptyString => EmptyString
  end.

(** [s.split(sep)] for a one-character separator: never empty. *)
Fixpoint split (sep : ascii) (s : string) : list string :=
  match s with
  | EmptyString => [EmptyString]
  | String c s' =>
      if Ascii.eqb c sep then EmptyString :: split sep s'
      else match split sep s' with
           | w :: ws => String c w :: ws
           | [] => [String c EmptyString]
           end
  end.

(** [s.split(sep, maxsplit)]: at most [maxsplit] cuts, the rest of the
    text stays in the last part. *)
Fixpoint split_max (sep : ascii) (maxsplit : nat) (s : string) : list string :=
  match maxsplit with
  | O => [s]
  | S k =>
      match s with
      | EmptyString => [EmptyString]
      | String c s' =>
          if Ascii.eqb c sep then EmptyString :: split_max sep k s'
          else match split_max sep maxsplit s' with
               | w :: ws => String c w :: ws
               | [] => [String c EmptyString]
               end
      end
  end.

(** [sub in s] for a one-character [sub]. *)
Fixpoint contains (c : ascii) (s : string) : bool :=
  match s with
  | EmptyString => false
  | String c' s' => Ascii.eqb c c' || contains c s'
  end.

(** [s.startswith(c)] for a one-character prefix. *)
Definition startswith (c : ascii) (s : string) : bool :=
  match s with
  | String c' _ => Ascii.eqb c c'
  | EmptyString => false
  end.

(** Truth value of a string: non-empty. *)
Definition truthy (s : string) : bool :=
  match s with EmptyString => false | _ => true end.

(** [a or b] on strings. *)
Definition or_ (a b : string) : string := if truthy a then a else b.

End PyStr.

(* ===================================================================== *)
(** * Python floats                                                       *)
(* ===================================================================== *)

Inductive pyfloat :=
| PFin (q : Q)
| PInf (negative : bool)
| PNaN.

(** [a <= b]; every comparison with a NaN is false. *)
Definition pyfloat_le (a b : pyfloat) : bool :=
  match a, b with
  | PNaN, _ | _, PNaN => false
  | PInf true, _ => true
  | _, PInf false => true
  | PInf false, _ => false
  | _, PInf true => false
  | PFin x, PFin y => if Qle_bool x y then true else false
  end.

(** [int(f)]: truncation toward zero; [OverflowError] on an infinity and
    [ValueError] on a NaN are [None]. *)
Definition int_of_pyfloat (f : pyfloat) : option Z :=
  match f with
  | PFin q => Some (Z.quot (Qnum q) (Z.pos (Qden q)))
  | _ => None
  end.

(** [math.ceil(f)] *)
Definition ceil_of_pyfloat (f : pyfloat) : option Z :=
  match f with
  | PFin q => Some (Qceiling q)
  | _ => None
  end.

(** ** Binary64

    A finite double is [m * 2 ^ e] for integers [|m| <= 2 ^ 53] and
    [-1074 <= e <= 971]; it is held as the rational it stands for, in
    lowest terms.  The two zeros are one value here: the code compares,
    truncates, takes ceilings of and divides by its floats, and none of
    these tells [-0.0] from [0.0]. *)
Module Binary64.

(** The integer nearest to [n / d] for a positive [d], a tie going to the
    even one. *)
Definition nearest_even (n d : Z) : Z :=
  let q := n / d in
  let r := n mod d in
  if 2 * r <? d then q
  else if d <? 2 * r then q + 1
  else if Z.even q then q else q + 1.

(** [floor (log2 (n / d))] for positive [n] and [d]. *)
Definition log2_floor (n d : Z) : Z :=
  let k := Z.log2 n - Z.log2 d in
  if (if 0 <=? k then d * 2 ^ k <=? n else d <=? n * 2 ^ (- k)) then k else k - 1.

(** [2 ^ k <= n / d], with a negative power moved to the other side. *)
Definition above_pow2 (n d k : Z) : Prop := d * 2 ^ Z.max k 0 <= n * 2 ^ Z.max (- k) 0.

(** The exponent of the last place of the doubles around [x]: 52 binary
    places below the leading one, and never below that of the subnormal
    doubles. *)
Definition exponent (x : Q) : Z :=
  Z.max (log2_floor (Z.abs (Qnum x)) (Z.pos (Qden x)) - 52) (-1074).

(** [x / 2 ^ e], rounded to an integer. *)
Definition mantissa (x : Q) (e : Z) : Z :=
  if 0 <=? e then nearest_even (Qnum x) (Z.pos (Qden x) * 2 ^ e)
  else nearest_even (Qnum x * 2 ^ (- e)) (Z.pos (Qden x)).

(** [m * 2 ^ e] *)
Definition scale (m e : Z) : Q :=
  if 0 <=? e then inject_Z (m * 2 ^ e) else Qmake m (Z.to_pos (2 ^ (- e))).

(** [2 ^ e] *)
Definition pow2 (e : Z) : Q := scale 1 e.

(** The double nearest to [x], ties to even; an infinity when that
    double would reach [2 ^ 1024]. *)
Definition round (x : Q) : pyfloat :=
  let x := Qred x in
  if Qnum x =? 0 then PFin 0
  else
    let e := exponent x in
    let m := mantissa x e in
    if 2 ^ 1024 <=? Z.abs m * 2 ^ Z.max e 0 then PInf (Qnum x <? 0)
    else PFin (Qred (scale m e)).

(** The value of a decimal literal of the source, such as [1.01]. *)
Definition literal (x : Q) : Q :=
  match round x with
  | PFin q => q
  | _ => 0
  end.

(** [f(a)] for an operation that rounds on the finite doubles and keeps
    an infinity or a NaN as it is: subtracting a finite double, or
    multiplying by a positive one. *)
Definition on_finite (f : Q -> Q) (a : pyfloat) : pyfloat :=
  match a with
  | PFin x => round (f x)
  | _ => a
  end.

End Binary64.

(* ===================================================================== *)
(** * Exceptions and JSON values                                          *)
(* ===================================================================== *)

(** The exceptions that travel through the modelled code.  All of them
    are subclasses of [Exception], so [except Exception] catches each one;
    [except asyncio.TimeoutError] catches [TimeoutError] only. *)
Inductive exn :=
| TimeoutError (msg : string)
| ConnectionClosed
| RuntimeError (msg : string)
| UnboundLocalError (var : string)
| AttributeError (msg : string)
| ZeroDivisionError
| OverflowError.

Definition is_timeout (e : exn) : bool :=
  match e with TimeoutError _ => true | _ => false end.

(** What a call gives back: a value, or a raised exception. *)
Inductive result (A : Type) :=
| Ok (a : A)
| Raise (e : exn).
Arguments Ok {A} a.
Arguments Raise {A} e.

#[local] Unset Elimination Schemes.
Inductive json :=
| JNull
| JBool (b : bool)
| JNum (q : Q)
| JStr (s : string)
| JArr (l : list json)
| JObj (fields : list (string * json)).
#[local] Set Elimination Schemes.

Module Json.

(** Truth value of a decoded JSON value. *)
Definition truthy (j : json) : bool :=
  match j with
  | JNull => false
  | JBool b => b
  | JNum q => negb (Qeq_bool q 0)
  | JStr s => PyStr.truthy s
  | JArr l => match l with [] => false | _ => true end
  | JObj f => match f with [] => false | _ => true end
  end.

Fixpoint assoc (k : string) (f : list (string * json)) : json :=
  match f with
  | [] => JNull
  | (k', v) :: f' => if String.eqb k k' then v else assoc k f'
  end.

(** [j.get(k)]: [None] is the [AttributeError] of a value that is no
    dict; a missing key reads as [JNull] (Python's [None]). *)
Definition get (j : json) (k : string) : option json :=
  match j with
  | JObj f => Some (assoc k f)
  | _ => None
  end.

(** [v or {}] *)
Definition or_empty (v : json) : json := if truthy v then v else JObj [].

(** [v == "Y"] *)
Definition eq_str (v : json) (s : string) : bool :=
  match v with JStr s' => String.eqb s' s | _ => false end.

End Json.

(* ===================================================================== *)
(** * kis/ws.py: the stream dispatcher                                    *)
(* ===================================================================== *)

(** [@dataclass ExecFill] *)
Record ExecFill := {
  order_no : string;
  pdno : string;
  qty : Z;
  price : Z;
  raw_fields : list string;
}.

Inductive log_entry :=
| WS_subscribe (tr_id tr_key : string)
| WS_unsubscribe (tr_id tr_key : string)
| WS_encrypt_set (tr_id : json)
| EXEC_FILL (order code : string) (q p : Z) (rej exec acc : string)
| EXEC_NONFILL (order code : string) (q p : Z) (rej exec acc : string)
| EXEC_NOTIFY_failed.

(** The state of an [asyncio.Task]. *)
Inductive task_state :=
| TaskPending
| TaskRaised (e : exn)
| TaskCancelled.

(** The tables of a [KISWebSocket] object, as [__init__] lays them out;
    [log] collects what the object writes to its logger. *)
Record KISWebSocket := {
  _aes_key : gmap string json;
  _aes_iv : gmap string json;
  _orderbook : gmap string (Z * Z * Z * Z);
  _orderbook_seq : gmap string Z;
  _orderbook_event : gmap string bool;
  _trade_price : gmap string Z;
  _trade_seq : gmap string Z;
  _trade_event : gmap string bool;
  _fills_by_order : gmap string (list ExecFill);
  _recv_task : option task_state;
  log : list log_entry;
}.

Definition init_ws : KISWebSocket :=
  {| _aes_key := ∅; _aes_iv := ∅;
     _orderbook := ∅; _orderbook_seq := ∅; _orderbook_event := ∅;
     _trade_price := ∅; _trade_seq := ∅; _trade_event := ∅;
     _fills_by_order := ∅; _recv_task := None; log := [] |}.

(** A frame as [ws.recv()] hands it over. *)
Inductive ws_message :=
| Text (s : string)
| Binary.

(** [_bump_seq]: [d[key] = d.get(key, 0) + 1] *)
Definition _bump_seq (d : gmap string Z) (key : string) : gmap string Z :=
  <[key := default 0 (d !! key) + 1]> d.

(** [_ensure_event(d, key).set()] *)
Definition set_event (d : gmap string bool) (key : string) : gmap string bool :=
  <[key := true]> d.

(** [_ensure_event(d, key)] followed by [evt.clear()] *)
Definition clear_event (d : gmap string bool) (key : string) : gmap string bool :=
  <[key := false]> d.

(** [_get_order_queue]: the pending items of the queue of [order_no],
    created empty on first use. *)
Definition _get_order_queue (st : KISWebSocket) (order_no : string) : list ExecFill :=
  default [] (_fills_by_order st !! order_no).

Definition ensure_order_queue (st : KISWebSocket) (order_no : string) : KISWebSocket :=
  match _fills_by_order st !! order_no with
  | Some _ => st
  | None =>
      {| _aes_key := _aes_key st; _aes_iv := _aes_iv st;
         _orderbook := _orderbook st; _orderbook_seq := _orderbook_seq st;
         _orderbook_event := _orderbook_event st;
         _trade_price := _trade_price st; _trade_seq := _trade_seq st;
         _trade_event := _trade_event st;
         _fills_by_order := <[order_no := []]> (_fills_by_order st);
         _recv_task := _recv_task st; log := log st |}
  end.

Definition set_fills (st : KISWebSocket) (m : gmap string (list ExecFill)) : KISWebSocket :=
  {| _aes_key := _aes_key st; _aes_iv := _aes_iv st;
     _orderbook := _orderbook st; _orderbook_seq := _orderbook_seq st;
     _orderbook_event := _orderbook_event st;
     _trade_price := _trade_price st; _trade_seq := _trade_seq st;
     _trade_event := _trade_event st;
     _fills_by_order := m;
     _recv_task := _recv_task st; log := log st |}.

Definition add_log (st : KISWebSocket) (e : log_entry) : KISWebSocket :=
  {| _aes_key := _aes_key st; _aes_iv := _aes_iv st;
     _orderbook := _orderbook st; _orderbook_seq := _orderbook_seq st;
     _orderbook_event := _orderbook_event st;
     _trade_price := _trade_price st; _trade_seq := _trade_seq st;
     _trade_event := _trade_event st;
     _fills_by_order := _fills_by_order st;
     _recv_task := _recv_task st; log := log st ++ [e] |}.

Definition set_task (st : KISWebSocket) (t : option task_state) : KISWebSocket :=
  {| _aes_key := _aes_key st; _aes_iv := _aes_iv st;
     _orderbook := _orderbook st; _orderbook_seq := _orderbook_seq st;
     _orderbook_event := _orderbook_event st;
     _trade_price := _trade_price st; _trade_seq := _trade_seq st;
     _trade_event := _trade_event st;
     _fills_by_order := _fills_by_order st;
     _recv_task := t; log := log st |}.

(** [q.put_nowait(fill)] on the queue of [order_no]. *)
Definition put_nowait (st : KISWebSocket) (order_no : string) (f : ExecFill) : KISWebSocket :=
  set_fills st (<[order_no := _get_order_queue st order_no ++ [f]]> (_fills_by_order st)).

(** [_is_truthy] *)
Definition _is_truthy (v : string) : bool :=
  let v := PyStr.upper (PyStr.strip (PyStr.or_ v "")) in
  bool_decide (v ∈ ["Y"; "1"; "T"; "TRUE"]).

Section Dispatcher.

(** [float(s)] and [int(s)] on a string; [None] is [ValueError]. *)
Variable py_float : string -> option pyfloat.
Variable py_int : string -> option Z.
(** [json.loads]; [None] is a decoding error. *)
Variable json_loads : string -> option json.
(** [aes_cbc_base64_decrypt cipher_b64 key iv]; [None] is any failure of
    the base64 decoding, the cipher set-up, the unpadding or the UTF-8
    decoding. *)
Variable aes_cbc_base64_decrypt : string -> string -> string -> option string.
(** [cfg.exec_tr_id] *)
Variable exec_tr_id : string.

(** [_safe_int] *)
Definition _safe_int (v : string) (default : Z) : Z :=
  match py_float (PyStr.strip (PyStr.or_ v "")) ≫= int_of_pyfloat with
  | Some n => n
  | None => default
  end.

(** [fields[i] if len(fields) > i else dflt] *)
Definition field (fields : list string) (i : nat) (dflt : string) : string :=
  default dflt (fields !! i).

(** Lines 184-198: a JSON frame; [None] is an exception, swallowed by
    the [except Exception: pass] of the caller. *)
Definition control_frame (st : KISWebSocket) (msg : string) : option KISWebSocket :=
  j ← json_loads msg;
  hv ← Json.get j "header";
  let h := Json.or_empty hv in
  tr_id ← Json.get h "tr_id";
  encrypt ← Json.get h "encrypt";
  if Json.eq_str encrypt "Y" then
    bv ← Json.get j "body";
    ov ← Json.get (Json.or_empty bv) "output";
    let out := Json.or_empty ov in
    iv ← Json.get out "iv";
    key ← Json.get out "key";
    if Json.truthy tr_id && Json.truthy iv && Json.truthy key then
      match tr_id with
      | JStr t =>
          Some (add_log
                  {| _aes_key := <[t := key]> (_aes_key st);
                     _aes_iv := <[t := iv]> (_aes_iv st);
                     _orderbook := _orderbook st; _orderbook_seq := _orderbook_seq st;
                     _orderbook_event := _orderbook_event st;
                     _trade_price := _trade_price st; _trade_seq := _trade_seq st;
                     _trade_event := _trade_event st;
                     _fills_by_order := _fills_by_order st;
                     _recv_task := _recv_task st; log := log st |}
                  (WS_encrypt_set tr_id))
      | JNum _ | JBool _ =>
          (* a hashable key that no later string lookup can hit *)
          Some (add_log st (WS_encrypt_set tr_id))
      | _ => None (* unhashable key: TypeError *)
      end
    else Some st
  else Some st.

(** Lines 211-222: an order-book payload; [None] is an exception
    ([IndexError] or [ValueError]) raised before any table is touched. *)
Definition orderbook_frame (st : KISWebSocket) (data : string) : option KISWebSocket :=
  let vals := PyStr.split "^" data in
  code ← vals !! 0%nat;
  ask1 ← vals !! 3%nat ≫= py_int;
  bid1 ← vals !! 13%nat ≫= py_int;
  askq1 ← vals !! 23%nat ≫= py_int;
  bidq1 ← vals !! 33%nat ≫= py_int;
  Some {| _aes_key := _aes_key st; _aes_iv := _aes_iv st;
          _orderbook := <[code := (ask1, askq1, bid1, bidq1)]> (_orderbook st);
          _orderbook_seq := _bump_seq (_orderbook_seq st) code;
          _orderbook_event := set_event (_orderbook_event st) code;
          _trade_price := _trade_price st; _trade_seq := _trade_seq st;
          _trade_event := _trade_event st;
          _fills_by_order := _fills_by_order st;
          _recv_task := _recv_task st; log := log st |}.

(** Lines 227-235: a trade-tick payload. *)
Definition trade_frame (st : KISWebSocket) (data : string) : option KISWebSocket :=
  let vals := PyStr.split "^" data in
  code ← vals !! 0%nat;
  p ← vals !! 2%nat ≫= py_int;
  Some {| _aes_key := _aes_key st; _aes_iv := _aes_iv st;
          _orderbook := _orderbook st; _orderbook_seq := _orderbook_seq st;
          _orderbook_event := _orderbook_event st;
          _trade_price := <[code := p]> (_trade_price st);
          _trade_seq := _bump_seq (_trade_seq st) code;
          _trade_event := set_event (_trade_event st) code;
          _fills_by_order := _fills_by_order st;
          _recv_task := _recv_task st; log := log st |}.

(** Line 267: [is_fill] of a decrypted notification. *)
Definition is_fill (fields : list string) : bool :=
  let q := _safe_int (field fields 9 "0") 0 in
  let p := _safe_int (field fields 10 "0") 0 in
  negb (_is_truthy (field fields 12 "")) && (0 <? q)%Z && (0 <? p)%Z.

(** Lines 247-282: what the dispatcher does with the decrypted text of a
    private-channel message. *)
Definition exec_notice (st : KISWebSocket) (plain : string) : KISWebSocket :=
  let fields := PyStr.split "^" plain in
  let order_no := field fields 2 "" in
  let pdno := field fields 8 "" in
  let q := _safe_int (field fields 9 "0") 0 in
  let p := _safe_int (field fields 10 "0") 0 in
  let reject_flag := field fields 12 "" in
  let exec_flag := field fields 13 "" in
  let accept_flag := field fields 14 "" in
  let is_reject := _is_truthy reject_flag in
  if negb is_reject && (0 <? q)%Z && (0 <? p)%Z then
    let fill := {| order_no := order_no; pdno := pdno; qty := q; price := p;
                   raw_fields := fields |} in
    add_log (put_nowait st order_no fill)
            (EXEC_FILL order_no pdno q p reject_flag exec_flag accept_flag)
  else
    add_log st (EXEC_NONFILL order_no pdno q p reject_flag exec_flag accept_flag).

(** Lines 239-286: a frame of the private channel. *)
Definition exec_frame (st : KISWebSocket) (tr_id data : string) : KISWebSocket :=
  match _aes_key st !! tr_id, _aes_iv st !! tr_id with
  | Some key, Some iv =>
      if Json.truthy key && Json.truthy iv then
        match key, iv with
        | JStr k, JStr i =>
            match aes_cbc_base64_decrypt data k i with
            | Some plain => exec_notice st plain
            | None => add_log st EXEC_NOTIFY_failed
            end
        | _, _ => add_log st EXEC_NOTIFY_failed (* no [encode] on a non-string *)
        end
      else st
  | _, _ => st
  end.

(** The body of the [while True] of [_recv_loop] for one received frame. *)
Definition handle_message (st : KISWebSocket) (msg : ws_message) : KISWebSocket :=
  match msg with
  | Binary => st
  | Text m =>
      if PyStr.startswith "{" m then default st (control_frame st m)
      else if negb (PyStr.contains "|" m) then st
      else
        match PyStr.split_max "|" 3 m with
        | [data_type; tr_id; third; data] =>
            if String.eqb tr_id "H0STASP0" then default st (orderbook_frame st data)
            else if String.eqb tr_id "H0STCNT0" then default st (trade_frame st data)
            else if String.eqb tr_id exec_tr_id && String.eqb data_type "1"
                 then exec_frame st tr_id data
            else st
        | _ => st
        end
  end.



End Dispatcher.

(* ===================================================================== *)
(** * kis/ws.py: the wait primitives                                      *)
(* ===================================================================== *)

(** Times are integers: ticks of the event-loop clock for the relative
    timeouts, microseconds of the wall clock for [kst_now()].

    A waiter suspended in [asyncio.wait_for] sees the rest of the world
    through a timeline: the frames the dispatcher will handle, each with
    the time at which it is handled, in order. *)
Definition timeline := list (Z * ws_message).

Section Waiters.

Variable py_float : string -> option pyfloat.
Variable py_int : string -> option Z.
Variable json_loads : string -> option json.
Variable aes_cbc_base64_decrypt : string -> string -> string -> option string.
Variable exec_tr_id : string.

Definition dispatch : KISWebSocket -> ws_message -> KISWebSocket :=
  handle_message py_float py_int json_loads aes_cbc_base64_decrypt exec_tr_id.

Definition set_orderbook_event (st : KISWebSocket) (m : gmap string bool) : KISWebSocket :=
  {| _aes_key := _aes_key st; _aes_iv := _aes_iv st;
     _orderbook := _orderbook st; _orderbook_seq := _orderbook_seq st;
     _orderbook_event := m;
     _trade_price := _trade_price st; _trade_seq := _trade_seq st;
     _trade_event := _trade_event st;
     _fills_by_order := _fills_by_order st;
     _recv_task := _recv_task st; log := log st |}.

Definition set_trade_event (st : KISWebSocket) (m : gmap string bool) : KISWebSocket :=
  {| _aes_key := _aes_key st; _aes_iv := _aes_iv st;
     _orderbook := _orderbook st; _orderbook_seq := _orderbook_seq st;
     _orderbook_event := _orderbook_event st;
     _trade_price := _trade_price st; _trade_seq := _trade_seq st;
     _trade_event := m;
     _fills_by_order := _fills_by_order st;
     _recv_task := _recv_task st; log := log st |}.

(** [evt.is_set()] *)
Definition is_set (d : gmap string bool) (key : string) : bool :=
  default false (d !! key).

(** Lines 122-125 of [wait_next_orderbook]: the test made at each turn of
    the loop. *)
Definition orderbook_ready (st : KISWebSocket) (code : string) (last_seq : Z)
  : option (Z * Z * Z * Z * Z) :=
  let cur := default 0 (_orderbook_seq st !! code) in
  match _orderbook st !! code with
  | Some (ask1, askq1, bid1, bidq1) =>
      if last_seq <? cur then Some (cur, ask1, askq1, bid1, bidq1) else None
  | None => None
  end.

(** [wait_next_orderbook] from the point where the waiter has cleared the
    event and is suspended in [wait_for(evt.wait(), end - now)].  Frames
    handled before [end_] run the dispatcher; the first one that sets the
    event of [code] resumes the waiter, which goes round the loop: test
    the clock, test the sequence, clear and suspend again.  When no frame
    sets the event before [end_], [wait_for] times out, the loop breaks
    and the function raises. *)
Fixpoint wait_next_orderbook_suspended
    (code : string) (last_seq end_ : Z) (st : KISWebSocket) (now : Z) (tl : timeline)
  : result (Z * Z * Z * Z * Z) * KISWebSocket * Z * timeline :=
  match tl with
  | [] => (Raise (TimeoutError "orderbook timeout"), st, Z.max now end_, [])
  | (t, msg) :: tl' =>
      if t <? end_ then
        let st' := dispatch st msg in
        if is_set (_orderbook_event st') code then
          let now' := Z.max now t in
          if now' <? end_ then
            match orderbook_ready st' code last_seq with
            | Some r => (Ok r, st', now', tl')
            | None =>
                wait_next_orderbook_suspended code last_seq end_
                  (set_orderbook_event st' (clear_event (_orderbook_event st') code))
                  now' tl'
            end
          else (Raise (TimeoutError "orderbook timeout"), st', now', tl')
        else wait_next_orderbook_suspended code last_seq end_ st' now tl'
      else (Raise (TimeoutError "orderbook timeout"), st, Z.max now end_, tl)
  end.

(** [wait_next_orderbook(code, last_seq, timeout)] called at time [now]. *)
Definition wait_next_orderbook
    (code : string) (last_seq timeout : Z) (st : KISWebSocket) (now : Z) (tl : timeline)
  : result (Z * Z * Z * Z * Z) * KISWebSocket * Z * timeline :=
  let st := match _orderbook_event st !! code with
            | Some _ => st
            | None => set_orderbook_event st (<[code := false]> (_orderbook_event st))
            end in
  let end_ := now + timeout in
  if now <? end_ then
    match orderbook_ready st code last_seq with
    | Some r => (Ok r, st, now, tl)
    | None =>
        wait_next_orderbook_suspended code last_seq end_
          (set_orderbook_event st (clear_event (_orderbook_event st) code)) now tl
    end
  else (Raise (TimeoutError "orderbook timeout"), st, now, tl).

(** Lines 136-138 of [wait_trade_reach]. *)
Definition trade_reached (st : KISWebSocket) (code : string) (target_price : Z) : option Z :=
  match _trade_price st !! code with
  | Some p => if target_price <=? p then Some p else None
  | None => None
  end.

(** [await asyncio.wait_for(evt.wait(), timeout)] on the trade event of
    [code], suspended at [now]: the frames handled before the timeout,
    up to the first one that sets the event. *)
Fixpoint wait_trade_event (code : string) (deadline : Z) (st : KISWebSocket) (now : Z)
    (tl : timeline) : bool * KISWebSocket * Z * timeline :=
  match tl with
  | [] => (false, st, Z.max now deadline, [])
  | (t, msg) :: tl' =>
      if t <? deadline then
        let st' := dispatch st msg in
        if is_set (_trade_event st') code then (true, st', Z.max now t, tl')
        else wait_trade_event code deadline st' now tl'
      else (false, st, Z.max now deadline, tl)
  end.

(** [wait_trade_reach(code, target_price, session_end=..., poll_max_wait=...)];
    [kst_now()] reads the same clock as the timeline.  One unit of [fuel]
    is one turn of the [while]; [None] is a loop still running when the
    fuel is spent. *)
Fixpoint wait_trade_reach_loop (fuel : nat)
    (code : string) (target_price session_end poll_max_wait : Z)
    (st : KISWebSocket) (now : Z) (tl : timeline)
  : option (result Z * KISWebSocket * Z * timeline) :=
  match fuel with
  | O => None
  | S fuel' =>
      if now <? session_end then
        match trade_reached st code target_price with
        | Some p => Some (Ok p, st, now, tl)
        | None =>
            let st := set_trade_event st (clear_event (_trade_event st) code) in
            let remain := session_end - now in
            if remain <=? 0 then
              Some (Raise (TimeoutError "trade reach timeout (session ended)"), st, now, tl)
            else
              let timeout := Z.min poll_max_wait remain in
              let '(_, st', now', tl') :=
                if 0 <? timeout then wait_trade_event code (now + timeout) st now tl
                else (false, st, now, tl) in
              (* woken or timed out ([continue]): back to the [while] *)
              wait_trade_reach_loop fuel' code target_price session_end poll_max_wait
                st' now' tl'
        end
      else Some (Raise (TimeoutError "trade reach timeout (session ended)"), st, now, tl)
  end.

Definition wait_trade_reach (fuel : nat)
    (code : string) (target_price session_end poll_max_wait : Z)
    (st : KISWebSocket) (now : Z) (tl : timeline) :=
  let st := match _trade_event st !! code with
            | Some _ => st
            | None => set_trade_event st (<[code := false]> (_trade_event st))
            end in
  wait_trade_reach_loop fuel code target_price session_end poll_max_wait st now tl.

End Waiters.

(** ** [wait_order_fills]

    The queue of one order id is seen through its feed: the fills the
    dispatcher puts on it, each with the time from which a [q.get()] can
    take it (a fill already pending has a time in the past). *)
Definition feed := list (Z * ExecFill).

(** [await asyncio.wait_for(q.get(), timeout)] started at [now]: the head
    of the feed when it is there before the timeout, [None] for
    [asyncio.TimeoutError].  A non-positive timeout always times out. *)
Definition wait_for_get (timeout now : Z) (q : feed) : option ExecFill * Z * feed :=
  match q with
  | (t, f) :: q' =>
      if (0 <? timeout) && (t <? now + timeout) then (Some f, Z.max now t, q')
      else (None, now + Z.max 0 timeout, q)
  | [] => (None, now + Z.max 0 timeout, [])
  end.

(** Lines 167-173: the [while True] that drains the queue. *)
Fixpoint drain_fills (idle_timeout : Z) (filled_qty filled_value now : Z) (q : feed)
  : Z * Z * Z * feed :=
  match q with
  | (t, nxt) :: q' =>
      if (0 <? idle_timeout) && (t <? now + idle_timeout) then
        drain_fills idle_timeout (filled_qty + qty nxt) (filled_value + qty nxt * price nxt)
          (Z.max now t) q'
      else (filled_qty, filled_value, now + Z.max 0 idle_timeout, q)
  | [] => (filled_qty, filled_value, now + Z.max 0 idle_timeout, [])
  end.

(** [wait_order_fills(order_no, total_timeout=..., idle_timeout=...)] on
    the feed of the queue of [order_no]: the pair it returns, the time
    of return and what is left on the feed. *)
Definition wait_order_fills (total_timeout idle_timeout : Z) (now : Z) (q : feed)
  : Z * Z * Z * feed :=
  match wait_for_get total_timeout now q with
  | (None, now', q') => (0, 0, now', q')
  | (Some first, now', q') =>
      drain_fills idle_timeout (0 + qty first) (0 + qty first * price first) now' q'
  end.

(* ===================================================================== *)
(** * A state and exception monad for the coroutines of the strategy      *)
(* ===================================================================== *)

(** How a run ends: a value, a raised exception, or a loop still running
    when its fuel is spent. *)
Inductive outcome (A : Type) :=
| Done (a : A)
| Raised (e : exn)
| OutOfFuel.
Arguments Done {A} a.
Arguments Raised {A} e.
Arguments OutOfFuel {A}.

(** A computation over a state [S].  The state survives an exception:
    Python locals and the objects reachable from them keep the values
    they had when the exception was raised. *)
Definition M (S A : Type) : Type := S -> outcome A * S.

Definition ret {S A} (a : A) : M S A := fun s => (Done a, s).

Definition bind {S A B} (m : M S A) (k : A -> M S B) : M S B :=
  fun s => match m s with
           | (Done a, s') => k a s'
           | (Raised e, s') => (Raised e, s')
           | (OutOfFuel, s') => (OutOfFuel, s')
           end.

Definition raise {S A} (e : exn) : M S A := fun s => (Raised e, s).

(** An expression that gives a value or raises, inside a computation. *)
Definition lift {S A} (r : result A) : M S A :=
  fun s => (match r with Ok a => Done a | Raise e => Raised e end, s).
Definition out_of_fuel {S A} : M S A := fun s => (OutOfFuel, s).
Definition get {S} : M S S := fun s => (Done s, s).
Definition modify {S} (f : S -> S) : M S unit := fun s => (Done tt, f s).

Declare Scope monad_scope.
Delimit Scope monad_scope with monad.
Notation "x <- y ;; z" := (bind y (fun x => z))
  (at level 20, y at level 99, z at level 200, only parsing) : monad_scope.
Notation "' p <- y ;; z" := (bind y (fun x => let 'p := x in z))
  (at level 20, p pattern, y at level 99, z at level 200, only parsing) : monad_scope.
Notation "y ;; z" := (bind y (fun _ => z))
  (at level 100, z at level 200, only parsing, right associativity) : monad_scope.
Local Open Scope monad_scope.

(** [try: m  except <class>: h] for the exceptions selected by [catches]. *)
Definition try_except {S A} (catches : exn -> bool) (m : M S A) (h : exn -> M S A) : M S A :=
  fun s => match m s with
           | (Raised e, s') => if catches e then h e s' else (Raised e, s')
           | r => r
           end.

(** [try: m  finally: f].  An exception of [f] replaces the outcome of
    [m]. *)
Definition try_finally {S A} (m : M S A) (f : M S unit) : M S A :=
  fun s => match m s with
           | (OutOfFuel, s') => (OutOfFuel, s')
           | (o, s') =>
               match f s' with
               | (Done _, s'') => (o, s'')
               | (Raised e, s'') => (Raised e, s'')
               | (OutOfFuel, s'') => (OutOfFuel, s'')
               end
           end.

(** [except Exception]: every modelled exception. *)
Definition any_exception (e : exn) : bool := true.

(** What the body of a [for] or [while] asks for when it ends: go on with
    the next turn ([continue] or the end of the body) or leave the
    loop. *)
Inductive ctl := Next | Break.

(** [for i in range(first, first + n): body i] *)
Fixpoint for_range {St} (n : nat) (first : Z) (body : Z -> M St ctl) : M St unit :=
  match n with
  | O => ret tt
  | S n' =>
      c <- body first ;;
      match c with
      | Break => ret tt
      | Next => for_range n' (first + 1) body
      end
  end.

(** Run a callee that has locals of its own: it starts from [init] and
    its locals are dropped when it returns or raises. *)
Definition with_locals {L W A} (init : L) (m : M (L * W) A) : M W A :=
  fun w => let '(o, (_, w')) := m (init, w) in (o, w').

(** Call, from a frame with locals [L], a function that sees the world
    only. *)
Definition call {L W A} (m : M W A) : M (L * W) A :=
  fun s => let '(o, w') := m (snd s) in (o, (fst s, w')).

Definition get_locals {L W} : M (L * W) L := fun s => (Done (fst s), s).
Definition set_locals {L W} (f : L -> L) : M (L * W) unit :=
  fun s => (Done tt, (f (fst s), snd s)).

(* ===================================================================== *)
(** * The collaborators of the strategy                                   *)
(* ===================================================================== *)

Inductive side := Buy | Sell.

(** What [strategy.py] and [session.py] write to the logger or print. *)
Inductive strategy_log :=
| Log_conversion_float_error
| Log_print_res (res : json)
| Log_candidate_picked (code : string)
| Log_no_more_cash (psbl_cash ask1 : Z)
| Log_BUY (attempt max_attempts ask1 psbl_cash ord_qty : Z)
| Log_BUY_no_fill (odno : string)
| Log_SELL (attempt max_attempts bid1 remain : Z)
| Log_SELL_no_fill (odno : string)
| Log_target (target : Z) (avg_buy : Q)
| Log_reached_target (last_price target : Z)
| Log_session_end_before_target
| Log_traceback (e : exn)
| Log_weekend
| Log_no_candidate
| Log_buy_failed
| Log_sell_failed (code : string) (buy_qty : Z)
| Log_trade_done (code : string) (sold_qty : Z) (avg_buy avg_sell : Q) (pnl_pct : pyfloat)
    (target_hit : bool)
| Log_progress (done : Z)
| Log_force_liquidation (code : string) (q : Z)
| Log_liquidated (code : string) (sold_qty : Z) (avg_sell : Q) (pnl_pct : pyfloat)
| Log_liquidation_failed (code : string) (q : Z).

(** One interaction of the strategy with a collaborator, with the answer
    it got. *)
Inductive event :=
| EApprovalKey (r : result string)
| EConnect (r : result unit)
| ERecvTaskCreated
| EClose (r : result unit)
| ESubscribe (tr_id tr_key approval_key : string) (r : result unit)
| EUnsubscribe (tr_id tr_key approval_key : string) (r : result unit)
| ENow (t : Z)
| EOrderbookSeq (code : string) (n : Z)
| ENextOrderbook (code : string) (last_seq : Z) (r : result (Z * Z * Z * Z * Z))
| EPsblCash (code : string) (ord_unpr : Z) (r : result Z)
| EOrderCash (s : side) (code : string) (ord_qty unpr : Z) (r : result string)
| EOrderFills (odno : string) (r : Z * Z)
| ETradeReach (code : string) (target : Z) (r : result Z)
| ERanking (r : result json)
| ESleep
| ELog (l : strategy_log).

Inductive kind :=
| KApprovalKey | KConnect | KRecvTaskCreated | KClose | KSend | KNow | KOrderbookSeq
| KNextOrderbook | KPsblCash | KOrderCash | KOrderFills | KTradeReach | KRanking
| KSleep | KLog.

Definition kind_of (e : event) : kind :=
  match e with
  | EApprovalKey _ => KApprovalKey
  | EConnect _ => KConnect
  | ERecvTaskCreated => KRecvTaskCreated
  | EClose _ => KClose
  | ESubscribe _ _ _ _ | EUnsubscribe _ _ _ _ => KSend
  | ENow _ => KNow
  | EOrderbookSeq _ _ => KOrderbookSeq
  | ENextOrderbook _ _ _ => KNextOrderbook
  | EPsblCash _ _ _ => KPsblCash
  | EOrderCash _ _ _ _ _ => KOrderCash
  | EOrderFills _ _ => KOrderFills
  | ETradeReach _ _ _ => KTradeReach
  | ERanking _ => KRanking
  | ESleep => KSleep
  | ELog _ => KLog
  end.

Definition kind_eqb (a b : kind) : bool :=
  match a, b with
  | KApprovalKey, KApprovalKey | KConnect, KConnect
  | KRecvTaskCreated, KRecvTaskCreated | KClose, KClose | KSend, KSend
  | KNow, KNow | KOrderbookSeq, KOrderbookSeq | KNextOrderbook, KNextOrderbook
  | KPsblCash, KPsblCash | KOrderCash, KOrderCash | KOrderFills, KOrderFills
  | KTradeReach, KTradeReach | KRanking, KRanking | KSleep, KSleep
  | KLog, KLog => true
  | _, _ => false
  end.

(** The environment: for each kind of call, the answer to its n-th
    occurrence.  [env_send] answers the [ws.send] of the subscribe and
    unsubscribe calls alike. *)
Record Env := {
  env_approval_key : nat -> result string;
  env_connect : nat -> result unit;
  env_close : nat -> result unit;
  env_send : nat -> result unit;
  env_now : nat -> Z;
  env_orderbook_seq : nat -> Z;
  env_next_orderbook : nat -> result (Z * Z * Z * Z * Z);
  env_psbl_cash : nat -> result Z;
  env_order_cash : nat -> result string;
  env_order_fills : nat -> Z * Z;
  env_trade_reach : nat -> result Z;
  env_ranking : nat -> result json;
}.

(** The world of a session: the interactions so far and the cool-down
    table, a dict shared with the caller. *)
Record World := {
  trace : list event;
  cooldowns : gmap string Z;
}.

(** How many calls of kind [k] have been made. *)
Definition calls (k : kind) (w : World) : nat :=
  length (filter (fun e => kind_eqb (kind_of e) k = true) (trace w)).

Definition record (e : event) (w : World) : World :=
  {| trace := trace w ++ [e]; cooldowns := cooldowns w |}.

Definition of_result {A} (r : result A) : outcome A :=
  match r with Ok a => Done a | Raise e => Raised e end.

(* ===================================================================== *)
(** * kis/strategy.py                                                     *)
(* ===================================================================== *)

(** [timedelta(minutes=20)], in microseconds. *)
Definition cooldown_window : Z := 20 * 60 * 1000000.

(** [a / b] on two ints: the double nearest to the quotient.  A zero
    divisor raises, and so does a quotient too large for a double. *)
Definition true_div (a b : Z) : result Q :=
  if b =? 0 then Raise ZeroDivisionError
  else
    match Binary64.round (inject_Z a / inject_Z b) with
    | PFin q => Ok q
    | _ => Raise OverflowError
    end.

(** [float(n)] for an int, as the arithmetic does it to an int operand;
    an int too large for a double raises. *)
Definition float_of_int (n : Z) : result Q :=
  match Binary64.round (inject_Z n) with
  | PFin q => Ok q
  | _ => Raise OverflowError
  end.

(** [int(x * r)] for an int [x] and a float [r]: [x] becomes a double, the
    product is rounded, and [int] truncates it; a product that rounds
    to an infinity raises. *)
Definition int_of_scaled (x : Z) (r : Q) : result Z :=
  match float_of_int x with
  | Raise e => Raise e
  | Ok fx =>
      match int_of_pyfloat (Binary64.round (fx * r)) with
      | Some n => Ok n
      | None => Raise OverflowError
      end
  end.

(** The default of [cash_use_ratio], the literal [0.98]. *)
Definition default_cash_use_ratio : Q := Binary64.literal (98 # 100).

Section Strategy.

Variable E : Env.
Variable py_float : string -> option pyfloat.
(** [str(v)] for a number, a list or a dict. *)
Variable py_repr : json -> string.

(** [str(v)] *)
Definition py_str (v : json) : string :=
  match v with
  | JStr s => s
  | JNull => "None"
  | JBool true => "True"
  | JBool false => "False"
  | _ => py_repr v
  end.

(** ** The calls to the collaborators: each one takes the next answer of
    its kind from the environment and records the interaction. *)

Definition emit {L} (e : event) : M (L * World) unit :=
  fun s => (Done tt, (fst s, record e (snd s))).

Definition log_ {L} (l : strategy_log) : M (L * World) unit := emit (ELog l).

Definition ask {L A B} (k : kind) (answer : Env -> nat -> A) (ev : A -> event)
    (out : A -> outcome B) : M (L * World) B :=
  fun s => let a := answer E (calls k (snd s)) in
           (out a, (fst s, record (ev a) (snd s))).

(** [await rest.get_approval_key()] *)
Definition get_approval_key {L} : M (L * World) string :=
  ask KApprovalKey env_approval_key EApprovalKey of_result.

(** [await ws.subscribe(tr_id, tr_key, approval_key=...)] *)
Definition subscribe {L} (tr_id tr_key approval_key : string) : M (L * World) unit :=
  ask KSend env_send (ESubscribe tr_id tr_key approval_key) of_result.

(** [await ws.unsubscribe(tr_id, tr_key, approval_key=...)] *)
Definition unsubscribe {L} (tr_id tr_key approval_key : string) : M (L * World) unit :=
  ask KSend env_send (EUnsubscribe tr_id tr_key approval_key) of_result.

(** [kst_now()] *)
Definition kst_now {L} : M (L * World) Z := ask KNow env_now ENow Done.

(** [ws._orderbook_seq.get(code, 0)] *)
Definition orderbook_seq {L} (code : string) : M (L * World) Z :=
  ask KOrderbookSeq env_orderbook_seq (EOrderbookSeq code) Done.

(** [await ws.wait_next_orderbook(code, last_seq, timeout=5.0)] *)
Definition next_orderbook {L} (code : string) (last_seq : Z)
  : M (L * World) (Z * Z * Z * Z * Z) :=
  ask KNextOrderbook env_next_orderbook (ENextOrderbook code last_seq) of_result.

(** [await rest.inquire_psbl_cash(code, ord_unpr=..., ord_dvsn="00")] *)
Definition inquire_psbl_cash {L} (code : string) (ord_unpr : Z) : M (L * World) Z :=
  ask KPsblCash env_psbl_cash (EPsblCash code ord_unpr) of_result.

(** [await rest.order_cash(side, code, qty, unpr, ord_dvsn="11")] *)
Definition order_cash {L} (s : side) (code : string) (ord_qty unpr : Z)
  : M (L * World) string :=
  ask KOrderCash env_order_cash (EOrderCash s code ord_qty unpr) of_result.

(** [await ws.wait_order_fills(odno, total_timeout=3.0, idle_timeout=0.5)];
    it never raises. *)
Definition order_fills {L} (odno : string) : M (L * World) (Z * Z) :=
  ask KOrderFills env_order_fills (EOrderFills odno) Done.

(** [await ws.wait_trade_reach(code, target, session_end=session_end)] *)
Definition trade_reach {L} (code : string) (target : Z) : M (L * World) Z :=
  ask KTradeReach env_trade_reach (ETradeReach code target) of_result.

(** [await rest.get_ranking_fluctuation(20, 28)] *)
Definition get_ranking_fluctuation {L} : M (L * World) json :=
  ask KRanking env_ranking ERanking of_result.

(** [await asyncio.sleep(poll_interval)] *)
Definition sleep {L} : M (L * World) unit := emit ESleep.

(** [cooldowns[code] = t] *)
Definition set_cooldown {L} (code : string) (t : Z) : M (L * World) unit :=
  fun s => (Done tt, (fst s, {| trace := trace (snd s);
                                 cooldowns := <[code := t]> (cooldowns (snd s)) |})).

Definition get_cooldown {L} (code : string) : M (L * World) (option Z) :=
  fun s => (Done (cooldowns (snd s) !! code), s).

(** ** [pick_code_from_ranking_item] *)

(** [v1 or v2 or ... or last]: the first truthy operand, else the last
    one whatever it is. *)
Fixpoint py_or (vs : list json) (last : json) : json :=
  match vs with
  | [] => last
  | v :: vs' => if Json.truthy v then v else py_or vs' last
  end.

(** The local [rate_f] is bound by a successful conversion only. *)
Definition pick_code_from_ranking_item {L} (item : list (string * json))
  : M (L * World) (option string) :=
  let get k := Json.assoc k item in
  match py_or [get "stck_shrn_iscd"; get "mksc_shrn_iscd"; get "code"] (JStr "") with
  | JStr c =>
      let code := PyStr.strip c in
      let rate := py_or [get "prdy_ctrt"; get "prdy_ctrt_1"; get "fluc_rt"] (get "rate") in
      rate_f <- match py_float (py_str rate) with
                | Some f => ret (Some f)
                | None => log_ Log_conversion_float_error ;; ret None
                end ;;
      match rate_f with
      | None => raise (UnboundLocalError "rate_f")
      | Some f =>
          if pyfloat_le (PFin 20) f && pyfloat_le f (PFin 28) && PyStr.truthy code
          then ret (Some code)
          else ret None
      end
  | _ => raise (AttributeError "strip")
  end.

(** ** [find_candidate] *)

(** Lines 38-43: the first of the four keys that holds a list. *)
Fixpoint ranking_items (res : list (string * json)) (keys : list string) : list json :=
  match keys with
  | [] => []
  | k :: keys' =>
      match Json.assoc k res with
      | JArr v => v
      | _ => ranking_items res keys'
      end
  end.

(** Lines 46-58: the [for it in items]; [None] when no item is picked. *)
Fixpoint scan_items {L} (now : Z) (items : list json) : M (L * World) (option string) :=
  match items with
  | [] => ret None
  | it :: items' =>
      match it with
      | JObj d =>
          code <- pick_code_from_ranking_item d ;;
          match code with
          | None => scan_items now items'
          | Some c =>
              if negb (PyStr.truthy c) then scan_items now items'
              else
                last <- get_cooldown c ;;
                match last with
                | Some l =>
                    if now - l <? cooldown_window then scan_items now items'
                    else log_ (Log_candidate_picked c) ;; ret (Some c)
                | None => log_ (Log_candidate_picked c) ;; ret (Some c)
                end
          end
      | _ => scan_items now items'
      end
  end.

(** One unit of [fuel] is one turn of the [while]. *)
Fixpoint find_candidate_loop {L} (fuel : nat) (session_end try_cnt : Z)
  : M (L * World) (option string) :=
  match fuel with
  | O => out_of_fuel
  | S fuel' =>
      t <- kst_now ;;
      if t <? session_end then
        res <- get_ranking_fluctuation ;;
        (if try_cnt <? 10 then log_ (Log_print_res res) else ret tt) ;;
        match res with
        | JObj d =>
            let items := ranking_items d ["output"; "output1"; "Output"; "Output1"] in
            now <- kst_now ;;
            picked <- scan_items now items ;;
            match picked with
            | Some c => ret (Some c)
            | None => sleep ;; find_candidate_loop fuel' session_end (try_cnt + 1)
            end
        | _ => raise (AttributeError "get")
        end
      else ret None
  end.

Definition find_candidate {L} (fuel : nat) (session_end : Z) : M (L * World) (option string) :=
  find_candidate_loop fuel session_end 0.

(** ** [ioc_buy_with_ws] *)

Record buy_locals := {
  total_qty : Z;
  total_value : Z;
  buy_last_seq : Z;
}.

(** Lines 88-115: the body of the [for attempt]. *)
Definition buy_attempt (code : string) (session_end max_attempts : Z) (cash_use_ratio : Q)
    (attempt : Z) : M (buy_locals * World) ctl :=
  t <- kst_now ;;
  if session_end <=? t then ret Break
  else
    l <- get_locals ;;
    '(seq, ask1, askq1, bid1, bidq1) <- next_orderbook code (buy_last_seq l) ;;
    set_locals (fun l => {| total_qty := total_qty l; total_value := total_value l;
                            buy_last_seq := seq |}) ;;
    if ask1 <=? 0 then ret Next
    else
      psbl_cash <- inquire_psbl_cash code ask1 ;;
      psbl_cash <- lift (int_of_scaled psbl_cash cash_use_ratio) ;;
      let affordable := psbl_cash / ask1 in
      if affordable <=? 0 then log_ (Log_no_more_cash psbl_cash ask1) ;; ret Break
      else
        let ord_qty := affordable in
        log_ (Log_BUY attempt max_attempts ask1 psbl_cash ord_qty) ;;
        odno <- order_cash Buy code ord_qty ask1 ;;
        '(filled_qty, filled_value) <- order_fills odno ;;
        if filled_qty <=? 0 then log_ (Log_BUY_no_fill odno) ;; ret Next
        else
          set_locals (fun l => {| total_qty := total_qty l + filled_qty;
                                  total_value := total_value l + filled_value;
                                  buy_last_seq := buy_last_seq l |}) ;;
          ret Next.

(** Lines 122-124. *)
Definition buy_result {S} (l : buy_locals) : M S (Z * Q) :=
  if total_qty l <=? 0 then ret (0, 0%Q)
  else
    avg <- lift (true_div (total_value l) (total_qty l)) ;;
    ret (total_qty l, avg).

Definition ioc_buy_with_ws (code : string) (session_end max_attempts : Z) (cash_use_ratio : Q)
  : M World (Z * Q) :=
  with_locals {| total_qty := 0; total_value := 0; buy_last_seq := 0 |}
    (approval_key <- get_approval_key ;;
     subscribe "H0STASP0" code approval_key ;;
     last_seq <- orderbook_seq code ;;
     set_locals (fun _ => {| total_qty := 0; total_value := 0; buy_last_seq := last_seq |}) ;;
     try_finally
       (try_except any_exception
          (for_range (Z.to_nat max_attempts) 1
             (buy_attempt code session_end max_attempts cash_use_ratio))
          (fun e => log_ (Log_traceback e)))
       (unsubscribe "H0STASP0" code approval_key) ;;
     l <- get_locals ;;
     buy_result l).

(** ** [ioc_sell_with_ws] *)

Record sell_locals := {
  remain : Z;
  sold_qty : Z;
  sold_value : Z;
  sell_last_seq : Z;
}.

(** Lines 147-168: the body of the [for attempt]. *)
Definition sell_attempt (code : string) (max_attempts : Z) (attempt : Z)
  : M (sell_locals * World) ctl :=
  l <- get_locals ;;
  if remain l <=? 0 then ret Break
  else
    '(seq, ask1, askq1, bid1, bidq1) <- next_orderbook code (sell_last_seq l) ;;
    set_locals (fun l => {| remain := remain l; sold_qty := sold_qty l;
                            sold_value := sold_value l; sell_last_seq := seq |}) ;;
    if bid1 <=? 0 then ret Next
    else
      let ord_qty := remain l in
      log_ (Log_SELL attempt max_attempts bid1 (remain l)) ;;
      odno <- order_cash Sell code ord_qty bid1 ;;
      '(filled_qty, filled_value) <- order_fills odno ;;
      if filled_qty <=? 0 then log_ (Log_SELL_no_fill odno) ;; ret Next
      else
        set_locals (fun l => {| remain := remain l - filled_qty;
                                sold_qty := sold_qty l + filled_qty;
                                sold_value := sold_value l + filled_value;
                                sell_last_seq := sell_last_seq l |}) ;;
        ret Next.

Definition ioc_sell_with_ws (code : string) (qty_to_sell : Z) (max_attempts : Z)
  : M World (Z * Z) :=
  with_locals {| remain := qty_to_sell; sold_qty := 0; sold_value := 0; sell_last_seq := 0 |}
    (approval_key <- get_approval_key ;;
     subscribe "H0STASP0" code approval_key ;;
     last_seq <- orderbook_seq code ;;
     set_locals (fun _ => {| remain := qty_to_sell; sold_qty := 0; sold_value := 0;
                             sell_last_seq := last_seq |}) ;;
     try_finally
       (try_except any_exception
          (for_range (Z.to_nat max_attempts) 1 (sell_attempt code max_attempts))
          (fun e => log_ (Log_traceback e)))
       (unsubscribe "H0STASP0" code approval_key) ;;
     l <- get_locals ;;
     ret (sold_qty l, sold_value l)).

(** ** [wait_for_1pct_then_sell] *)

(** [math.ceil(avg_buy * 1.01)]: the product is rounded to a double
    before the ceiling is taken; a product that rounds to an infinity
    raises. *)
Definition target_price (avg_buy : Q) : result Z :=
  match ceil_of_pyfloat (Binary64.round (avg_buy * Binary64.literal (101 # 100))) with
  | Some target => Ok target
  | None => Raise OverflowError
  end.

Definition wait_for_1pct_then_sell (code : string) (buy_qty : Z) (avg_buy : Q)
  : M World (Z * Z * bool) :=
  with_locals false (* target_hit *)
    (approval_key <- get_approval_key ;;
     subscribe "H0STCNT0" code approval_key ;;
     target <- lift (target_price avg_buy) ;;
     log_ (Log_target target avg_buy) ;;
     try_finally
       (try_except any_exception
          (try_except is_timeout
             (last_price <- trade_reach code target ;;
              log_ (Log_reached_target last_price target) ;;
              set_locals (fun _ => true))
             (fun _ => log_ Log_session_end_before_target))
          (fun e => log_ (Log_traceback e)))
       (unsubscribe "H0STCNT0" code approval_key) ;;
     '(sold_qty, sold_value) <- call (ioc_sell_with_ws code buy_qty 30) ;;
     target_hit <- get_locals ;;
     ret (sold_qty, sold_value, target_hit)).

End Strategy.

(* ===================================================================== *)
(** * kis/session.py                                                      *)
(* ===================================================================== *)

Record session_locals := {
  open_position : option (string * Z * Q);  (* (code, qty, avg_buy) *)
  done : Z;
}.

(** [(avg_sell / avg_buy - 1.0) * 100.0], each operation rounded; a zero
    [avg_buy] raises. *)
Definition pnl_pct {L W} (avg_sell avg_buy : Q) : M (L * W) pyfloat :=
  if Qeq_bool avg_buy 0 then raise ZeroDivisionError
  else
    let ratio := Binary64.round (avg_sell / avg_buy) in
    let gain := Binary64.on_finite (fun x => x - 1)%Q ratio in
    ret (Binary64.on_finite (fun x => x * 100)%Q gain).

Section Session.

Variable E : Env.
Variable py_float : string -> option pyfloat.
Variable py_repr : json -> string.

Definition set_open_position (p : option (string * Z * Q)) : M (session_locals * World) unit :=
  set_locals (fun l => {| open_position := p; done := done l |}).

(** Lines 35-67: the [while done < 5 and kst_now() < session_end]; one
    unit of [fuel] is one turn. *)
Fixpoint session_loop (fuel : nat) (session_end : Z) : M (session_locals * World) unit :=
  match fuel with
  | O => out_of_fuel
  | S fuel' =>
      l <- get_locals ;;
      if done l <? 5 then
        t <- kst_now E ;;
        if t <? session_end then
          code <- find_candidate E py_float py_repr fuel' session_end ;;
          match code with
          | None => log_ Log_no_candidate ;; ret tt
          | Some code =>
              if negb (PyStr.truthy code) then log_ Log_no_candidate ;; ret tt
              else
                '(buy_qty, avg_buy) <-
                   call (ioc_buy_with_ws E code session_end 20 default_cash_use_ratio) ;;
                now <- kst_now E ;;
                set_cooldown code now ;;
                if buy_qty <=? 0 then
                  log_ Log_buy_failed ;; session_loop fuel' session_end
                else
                  set_open_position (Some (code, buy_qty, avg_buy)) ;;
                  '(sold_qty, sold_value, target_hit) <-
                     call (wait_for_1pct_then_sell E code buy_qty avg_buy) ;;
                  now <- kst_now E ;;
                  set_cooldown code now ;;
                  (if sold_qty <=? 0 then
                     log_ (Log_sell_failed code buy_qty) ;;
                     set_open_position (Some (code, buy_qty, avg_buy))
                   else
                     avg_sell <- lift (true_div sold_value sold_qty) ;;
                     pnl <- pnl_pct avg_sell avg_buy ;;
                     log_ (Log_trade_done code sold_qty avg_buy avg_sell pnl target_hit) ;;
                     set_open_position None ;;
                     set_locals (fun l => {| open_position := open_position l;
                                             done := done l + 1 |}) ;;
                     l <- get_locals ;;
                     log_ (Log_progress (done l))) ;;
                  session_loop fuel' session_end
          end
        else ret tt
      else ret tt
  end.

(** Lines 69-78: the forced liquidation after the loop. *)
Definition force_liquidate (session_end : Z) : M (session_locals * World) unit :=
  l <- get_locals ;;
  match open_position l with
  | None => ret tt
  | Some (code, q, avg_buy) =>
      t <- kst_now E ;;
      if session_end <=? t then
        log_ (Log_force_liquidation code q) ;;
        '(sold_qty, sold_value) <- call (ioc_sell_with_ws E code q 30) ;;
        if 0 <? sold_qty then
          avg_sell <- lift (true_div sold_value sold_qty) ;;
          pnl <- pnl_pct avg_sell avg_buy ;;
          log_ (Log_liquidated code sold_qty avg_sell pnl)
        else log_ (Log_liquidation_failed code q)
      else ret tt
  end.

(** [await ws.connect()]: the approval key, the connection, the
    subscription to the private channel of [hts_id], then the receive
    task. *)
Definition ws_connect {L} (exec_tr_id hts_id : string) : M (L * World) unit :=
  approval_key <- get_approval_key E ;;
  ask E KConnect env_connect EConnect of_result ;;
  subscribe E exec_tr_id hts_id approval_key ;;
  emit ERecvTaskCreated.

(** [await ws.close()]: cancels the receive task and closes the
    connection. *)
Definition ws_close {L} : M (L * World) unit :=
  ask E KClose env_close EClose of_result.

(** The body of the [try] of [run_trading_session]. *)
Definition session_body (fuel : nat) (session_end : Z) : M (session_locals * World) unit :=
  session_loop fuel session_end ;;
  force_liquidate session_end.

(** [run_trading_session]; [weekend] is [is_weekend(session_start)].  It
    gives back the locals it ends with, for the statements below. *)
Definition run_trading_session (fuel : nat) (weekend : bool)
    (exec_tr_id hts_id : string) (session_end : Z) (w : World)
  : outcome unit * (session_locals * World) :=
  let l0 := {| open_position := None; done := 0 |} in
  if weekend then log_ Log_weekend (l0, w)
  else
    (ws_connect exec_tr_id hts_id ;;
     try_finally (session_body fuel session_end) ws_close) (l0, w).

End Session.



(* ===================================================================== *)
(** * A concrete instance of the builtins, for the examples               *)
(* ===================================================================== *)

Module Builtins.

Definition digit (c : ascii) : option Z :=
  let n := nat_of_ascii c in
  if ((48 <=? n) && (n <=? 57))%nat then Some (Z.of_nat n - 48) else None.

(** A non-empty run of decimal digits: its value and its length. *)
Fixpoint digits (s : string) (acc : Z) (len : nat) : option (Z * nat) :=
  match s with
  | EmptyString => match len with O => None | _ => Some (acc, len) end
  | String c s' =>
      match digit c with
      | Some d => digits s' (10 * acc + d) (S len)
      | None => None
      end
  end.

Definition signed (s : string) : bool * string :=
  match s with
  | String "-" s' => (true, s')
  | String "+" s' => (false, s')
  | _ => (false, s)
  end.

(** [int(s)] on an optionally signed run of digits, blanks around it
    allowed; every other text is rejected. *)
Definition py_int (s : string) : option Z :=
  let '(neg, body) := signed (PyStr.strip s) in
  match digits body 0 0 with
  | Some (n, _) => Some (if neg then - n else n)
  | None => None
  end.

(** [float(s)] on an optionally signed numeral [ddd] or [ddd.ddd]: the
    double nearest to it; every other text (exponents, [inf], [nan],
    digit separators) is rejected. *)
Definition py_float (s : string) : option pyfloat :=
  let '(neg, body) := signed (PyStr.strip s) in
  match PyStr.split "." body with
  | [i] =>
      match digits i 0 0 with
      | Some (n, _) => Some (Binary64.round (Qmake (if neg then - n else n) 1))
      | None => None
      end
  | [i; f] =>
      match digits i 0 0, digits f 0 0 with
      | Some (n, _), Some (m, k) =>
          let num := n * 10 ^ Z.of_nat k + m in
          Some (Binary64.round
                  (Qmake (if neg then - num else num) (Z.to_pos (10 ^ Z.of_nat k))))
      | _, _ => None
      end
  | _ => None
  end.

(** No JSON text and no cipher text is accepted. *)
Definition json_loads (s : string) : option json := None.
Definition aes_cbc_base64_decrypt (c k i : string) : option string := None.
Definition py_repr (j : json) : string := "".

End Builtins.

(* ===================================================================== *)
(** * kis/time_utils.py and the schedule of main.py                       *)
(* ===================================================================== *)

(** A [datetime] in the fixed zone KST is the number of microseconds of
    local wall-clock time since a local midnight taken as origin; the
    zone has no daylight saving, so field arithmetic and elapsed time
    agree.  The origin is the midnight that begins a Monday. *)
Module TimeUtils.

Definition usec : Z := 1000000.
Definition usec_per_day : Z := 86400 * usec.

(** [timedelta(hours=h, minutes=m)] *)
Definition hm (h m : Z) : Z := (h * 3600 + m * 60) * usec.

(** The time of day of [t], and the midnight that begins its day. *)
Definition time_of_day (t : Z) : Z := t mod usec_per_day.
Definition midnight (t : Z) : Z := t / usec_per_day * usec_per_day.

(** [t.replace(hour=h, minute=m, second=0, microsecond=0)]; [None] is the
    [ValueError] of an hour outside 0..23 or a minute outside 0..59. *)
Definition replace_hm (t h m : Z) : option Z :=
  if (0 <=? h) && (h <? 24) && (0 <=? m) && (m <? 60)
  then Some (midnight t + hm h m)
  else None.

(** [next_kst_datetime(hour, minute, base=base)]: [base or kst_now()] is
    [base] when it is given, a [datetime] being always truthy. *)
Definition next_kst_datetime (hour minute : Z) (base : option Z) (kst_now : Z) : option Z :=
  let base := default kst_now base in
  candidate ← replace_hm base hour minute;
  Some (if candidate <=? base then candidate + usec_per_day else candidate).

(** [sleep_until(dt)].  [asyncio.sleep(d)] suspends for [d] and a lag
    that the event loop adds, [lag n] at the [n]-th sleep; reading the
    clock takes no time.  One unit of [fuel] is one turn of the [while];
    the result is the time of return and the sleeps asked for. *)
Fixpoint sleep_until (fuel : nat) (lag : nat -> Z) (n : nat) (dt now : Z)
  : option (Z * list Z) :=
  match fuel with
  | O => None
  | S fuel' =>
      let sec := dt - now in
      if sec <=? 0 then Some (now, [])
      else
        let d := Z.min sec (60 * usec) in
        '(t, sleeps) ← sleep_until fuel' lag (S n) dt (now + d + lag n);
        Some (t, d :: sleeps)
  end.

(** [is_weekend(dt)]: [dt.weekday() >= 5], Monday being 0. *)
Definition weekday (t : Z) : Z := (t / usec_per_day) mod 7.
Definition is_weekend (t : Z) : bool := 5 <=? weekday t.

End TimeUtils.

(** ** main.py: the times [daily_scheduler] computes from the clock *)
Module Scheduler.

Import TimeUtils.

(** Lines 31-35: when the tokens are refreshed, for the clock reading
    [now]. *)
Definition refresh_at (now : Z) : option Z :=
  today_0830 ← replace_hm now 8 30;
  if (today_0830 <=? now) && (now <? today_0830 + hm 1 0) then Some now
  else next_kst_datetime 8 30 (Some now) now.

(** Lines 45-55: the session to run, for the clock reading [now] taken
    after the refresh; [None] is "Market session already ended today". *)
Definition session_window (now : Z) : option (option (Z * Z)) :=
  session_start ← replace_hm now 9 20;
  let session_start := if session_start <? now then now else session_start in
  session_end ← replace_hm now 15 0;
  Some (if session_end <=? session_start then None
        else Some (session_start, session_end)).

End Scheduler.

(* ===================================================================== *)
(** * kis/config.py                                                       *)
(* ===================================================================== *)

Module Config.

(** [str.lower] on one character, for code points below 256: [A]..[Z]
    and the capital letters of Latin-1 (192..222 but the multiplication
    sign 215) go 32 up. *)
Definition lower_char (c : ascii) : ascii :=
  let n := nat_of_ascii c in
  if ((65 <=? n) && (n <=? 90))%nat
     || ((192 <=? n) && (n <=? 222) && negb (n =? 215))%nat
  then ascii_of_nat (n + 32) else c.

Fixpoint lower (s : string) : string :=
  match s with
  | String c s' => String (lower_char c) (lower s')
  | EmptyString => EmptyString
  end.

(** [@dataclass(frozen=True) class Config] *)
Record t := {
  env : string;
  app_key : string;
  app_secret : string;
  cano : string;
  acnt_prdt_cd : string;
  hts_id : string;
  custtype : string;
}.

Definition rest_base (cfg : t) : string :=
  if String.eqb (env cfg) "vts" then "https://openapivts.koreainvestment.com:29443"
  else "https://openapi.koreainvestment.com:9443".

Definition ws_url (cfg : t) : string :=
  if String.eqb (env cfg) "vts" then "ws://ops.koreainvestment.com:31000"
  else "ws://ops.koreainvestment.com:21000".

Definition exec_tr_id (cfg : t) : string :=
  if String.eqb (env cfg) "vts" then "H0STCNI9" else "H0STCNI0".

(** The two [RuntimeError]s of [load_config]: the names of the variables
    that are missing, and a [KIS_ENV] that is neither prod nor vts. *)
Inductive error :=
| Missing (names : list string)
| BadEnv.

(** [os.getenv(k, dflt)] in the environment [environ]. *)
Definition getenv (environ : gmap string string) (k dflt : string) : string :=
  default dflt (environ !! k).

(** [[k for k, v in {...}.items() if not v]] *)
Fixpoint missing_of (kvs : list (string * string)) : list string :=
  match kvs with
  | [] => []
  | (k, v) :: kvs' => if PyStr.truthy v then missing_of kvs' else k :: missing_of kvs'
  end.

Definition load_config (environ : gmap string string) : error + t :=
  let env := lower (PyStr.strip (getenv environ "KIS_ENV" "prod")) in
  let cfg :=
    {| env := env;
       app_key := PyStr.strip (getenv environ "KIS_APP_KEY" "");
       app_secret := PyStr.strip (getenv environ "KIS_APP_SECRET" "");
       cano := PyStr.strip (getenv environ "KIS_CANO" "");
       acnt_prdt_cd := PyStr.strip (getenv environ "KIS_ACNT_PRDT_CD" "01");
       hts_id := PyStr.strip (getenv environ "KIS_HTS_ID" "");
       custtype := PyStr.or_ (PyStr.strip (getenv environ "KIS_CUSTTYPE" "P")) "P" |} in
  let missing :=
    missing_of [("KIS_APP_KEY", app_key cfg); ("KIS_APP_SECRET", app_secret cfg);
                ("KIS_CANO", cano cfg); ("KIS_ACNT_PRDT_CD", acnt_prdt_cd cfg);
                ("KIS_HTS_ID", hts_id cfg)] in
  match missing with
  | _ :: _ => inl (Missing missing)
  | [] =>
      if bool_decide (env ∈ ["prod"; "vts"]) then inr cfg else inl BadEnv
  end.

End Config.

(* ===================================================================== *)
(** * kis/rest.py                                                         *)
(* ===================================================================== *)

Module Rest.

(** What one [session.request(...)] with [resp.text()] gives: a status
    and a body, or an exception of the transport. *)
Inductive http_answer :=
| HttpResp (status : Z) (txt : string)
| HttpFails.

(** The exceptions of [rest.py], with what their messages are built
    from. *)
#[local] Unset Elimination Schemes.
Inductive error :=
| HttpStatus (status : Z) (txt : string)      (* RuntimeError: HTTP status: body *)
| TransportError                              (* raised by aiohttp *)
| JSONDecodeError
| RequestFailed (method path : string) (last_err : option error)
| NotADict                                    (* AttributeError or TypeError on a value that is no dict *)
| BadNumber                                   (* TypeError or ValueError of int(...) or float(...) *)
| TokenFailed (res : json)
| ApprovalFailed (res : json)
| HashkeyFailed (res : json)
| CashParseFailed (res : json)
| NoOdno (res : json)
| OrderFailed (last_err : option error).
#[local] Set Elimination Schemes.

(** A request as the transport sees it: method, path, the [tr_id]
    header (empty when there is none) and the parameters or the JSON
    body; the other headers (content type, keys, bearer token) are left
    out. *)
Record request := {
  req_method : string;
  req_path : string;
  req_tr_id : string;
  req_payload : list (string * string);
}.

(** What the functions run against: the configuration, the builtins of
    the language, the answers of the server (the n-th request gets
    [http n]) and the readings of [time.time()]. *)
Record context := {
  cfg : Config.t;
  json_loads : string -> option json;
  py_int : string -> option Z;
  py_float : string -> option pyfloat;
  py_repr : json -> string;
  str_of_int : Z -> string;
  http : nat -> http_answer;
  clock : nat -> Q;
}.

(** The fields of a [KISRest] object ([None] is [JNull]) and the trace
    of what it did. *)
Record state := {
  _access_token : json;
  _token_expire_at : Q;
  _approval_key : json;
  sent : list request;
  slept : nat;
  clock_reads : nat;
}.

Definition init : state :=
  {| _access_token := JNull; _token_expire_at := 0; _approval_key := JNull;
     sent := []; slept := 0; clock_reads := 0 |}.

(** State and exception monad of the coroutines of [KISRest]. *)
Definition R (A : Type) : Type := state -> (error + A) * state.

Definition ret {A} (a : A) : R A := fun s => (inr a, s).
Definition fail {A} (e : error) : R A := fun s => (inl e, s).
Definition bind {A B} (m : R A) (k : A -> R B) : R B :=
  fun s => match m s with
           | (inr a, s') => k a s'
           | (inl e, s') => (inl e, s')
           end.

Declare Scope rest_scope.
Delimit Scope rest_scope with rest.
Notation "x <- y ;; z" := (bind y (fun x => z))
  (at level 20, y at level 99, z at level 200, only parsing) : rest_scope.
Notation "y ;; z" := (bind y (fun _ => z))
  (at level 100, z at level 200, only parsing, right associativity) : rest_scope.

(** An optional value or the exception raised in its place. *)
Definition of_option {A} (e : error) (o : option A) : R A :=
  match o with Some a => ret a | None => fail e end.

(** [d.get(k, dflt)] on a dict. *)
Fixpoint lookup (k : string) (f : list (string * json)) : option json :=
  match f with
  | [] => None
  | (k', v) :: f' => if String.eqb k k' then Some v else lookup k f'
  end.

(** [res.get(k)] for whatever [json.loads] returned. *)
Definition get (res : json) (k : string) : R json :=
  of_option NotADict (Json.get res k).

(** [int(v)] and [float(v)] for a decoded JSON value. *)
Definition int_of_json (py_int : string -> option Z) (v : json) : option Z :=
  match v with
  | JNum q => Some (Z.quot (Qnum q) (Z.pos (Qden q)))
  | JStr s => py_int s
  | JBool b => Some (if b then 1 else 0)
  | _ => None
  end.

Definition float_of_json (py_float : string -> option pyfloat) (v : json) : option pyfloat :=
  match v with
  | JNum q => Some (PFin q)
  | JStr s => py_float s
  | JBool b => Some (PFin (if b then 1 else 0))
  | _ => None
  end.

(** [sub in s] for two strings. *)
Fixpoint is_substring (sub s : string) : bool :=
  String.prefix sub s
  || match s with
     | String _ s' => is_substring sub s'
     | EmptyString => false
     end.

(** [k in l] for a string [k] and a decoded list. *)
Definition in_list (k : string) (l : list json) : bool :=
  existsb (fun v => Json.eq_str v k) l.

Local Open Scope rest_scope.

Section WithContext.

Variable X : context.

(** [time.time()] *)
Definition time : R Q :=
  fun s => (inr (clock X (clock_reads s)),
            {| _access_token := _access_token s; _token_expire_at := _token_expire_at s;
               _approval_key := _approval_key s; sent := sent s; slept := slept s;
               clock_reads := S (clock_reads s) |}).

(** One [session.request] with [resp.text()]: the next answer of the
    server. *)
Definition send (req : request) : R http_answer :=
  fun s => (inr (http X (length (sent s))),
            {| _access_token := _access_token s; _token_expire_at := _token_expire_at s;
               _approval_key := _approval_key s; sent := sent s ++ [req]; slept := slept s;
               clock_reads := clock_reads s |}).

(** [await asyncio.sleep(0.2)] *)
Definition sleep : R unit :=
  fun s => (inr tt,
            {| _access_token := _access_token s; _token_expire_at := _token_expire_at s;
               _approval_key := _approval_key s; sent := sent s; slept := S (slept s);
               clock_reads := clock_reads s |}).

Definition set_token (token : json) (expire_at : Q) : R unit :=
  fun s => (inr tt,
            {| _access_token := token; _token_expire_at := expire_at;
               _approval_key := _approval_key s; sent := sent s; slept := slept s;
               clock_reads := clock_reads s |}).

Definition set_approval_key (key : json) : R unit :=
  fun s => (inr tt,
            {| _access_token := _access_token s; _token_expire_at := _token_expire_at s;
               _approval_key := key; sent := sent s; slept := slept s;
               clock_reads := clock_reads s |}).

Definition get_state : R state := fun s => (inr s, s).

(** What the body of the [try] of [_request] makes of an answer. *)
Definition decode (a : http_answer) : error + json :=
  match a with
  | HttpFails => inl TransportError
  | HttpResp status txt =>
      if 400 <=? status then inl (HttpStatus status txt)
      else if negb (PyStr.truthy txt) then inr (JObj [])
      else match json_loads X txt with
           | Some j => inr j
           | None => inl JSONDecodeError
           end
  end.

(** The [for _ in range(retry + 1)] of [_request], [n] turns left. *)
Fixpoint _request_loop (n : nat) (req : request) (last_err : option error) : R json :=
  match n with
  | O => fail (RequestFailed (req_method req) (req_path req) last_err)
  | S n' =>
      a <- send req ;;
      match decode a with
      | inr j => ret j
      | inl e => sleep ;; _request_loop n' req (Some e)
      end
  end.

Definition _request (req : request) (retry : Z) : R json :=
  _request_loop (Z.to_nat (retry + 1)) req None.

(** The requests of the module, with the default [retry=2]. *)
Definition token_request : request :=
  {| req_method := "POST"; req_path := "/oauth2/tokenP"; req_tr_id := "";
     req_payload := [("grant_type", "client_credentials");
                     ("appkey", Config.app_key (cfg X));
                     ("appsecret", Config.app_secret (cfg X))] |}.

Definition approval_request : request :=
  {| req_method := "POST"; req_path := "/oauth2/Approval"; req_tr_id := "";
     req_payload := [("grant_type", "client_credentials");
                     ("appkey", Config.app_key (cfg X));
                     ("secretkey", Config.app_secret (cfg X));
                     ("appsecret", Config.app_secret (cfg X))] |}.

(** [get_access_token] *)
Definition get_access_token : R json :=
  now <- time ;;
  s <- get_state ;;
  if Json.truthy (_access_token s) && negb (Qle_bool (_token_expire_at s - 30) now)
  then ret (_access_token s)
  else
    res <- _request token_request 2 ;;
    token <- get res "access_token" ;;
    d <- of_option NotADict (match res with JObj f => Some f | _ => None end) ;;
    expires_in <- of_option BadNumber
                    (int_of_json (py_int X) (default (JNum 0) (lookup "expires_in" d))) ;;
    if negb (Json.truthy token) then fail (TokenFailed res)
    else
      t <- time ;;
      set_token token (t + inject_Z (Z.max 60 expires_in)) ;;
      ret token.

(** [get_approval_key] *)
Definition get_approval_key : R json :=
  s <- get_state ;;
  if Json.truthy (_approval_key s) then ret (_approval_key s)
  else
    res <- _request approval_request 2 ;;
    key <- get res "approval_key" ;;
    if negb (Json.truthy key) then fail (ApprovalFailed res)
    else set_approval_key key ;; ret key.

(** [force_refresh_tokens] *)
Definition force_refresh_tokens : R unit :=
  set_token JNull 0 ;;
  set_approval_key JNull ;;
  get_access_token ;;
  get_approval_key ;;
  ret tt.

(** [hashkey(data_obj)] *)
Definition hashkey (data_obj : list (string * string)) : R json :=
  res <- _request {| req_method := "POST"; req_path := "/uapi/hashkey"; req_tr_id := "";
                     req_payload := data_obj |} 2 ;;
  h <- get res "HASH" ;;
  if negb (Json.truthy h) then fail (HashkeyFailed res) else ret h.

(** The two pairs (buy, sell) of transaction ids that [order_cash]
    tries, in order. *)
Definition candidates : list (string * string) :=
  if String.eqb (Config.env (cfg X)) "vts"
  then [("VTTC0012U", "VTTC0011U"); ("VTTC0802U", "VTTC0801U")]
  else [("TTTC0012U", "TTTC0011U"); ("TTTC0802U", "TTTC0801U")].

Definition order_path : string := "/uapi/domestic-stock/v1/trading/order-cash".

Definition order_request (tr_id : string) (body : list (string * string)) : request :=
  {| req_method := "POST"; req_path := order_path; req_tr_id := tr_id; req_payload := body |}.

(** [str(v)] *)
Definition py_str (v : json) : string :=
  match v with
  | JStr s => s
  | JNull => "None"
  | JBool true => "True"
  | JBool false => "False"
  | _ => py_repr X v
  end.

(** The body of the [try] of [order_cash] for one transaction id. *)
Definition try_order (tr_id : string) (body : list (string * string)) : R string :=
  res <- _request (order_request tr_id body) 2 ;;
  o <- get res "output" ;;
  let out := Json.or_empty o in
  a <- get out "ODNO" ;;
  odno <- (if Json.truthy a then ret a else get out "odno") ;;
  if negb (Json.truthy odno) then fail (NoOdno res) else ret (py_str odno).

(** The [for buy_tr, sell_tr in candidates] of [order_cash]. *)
Fixpoint order_loop (side : string) (body : list (string * string))
    (cands : list (string * string)) (last_err : option error) : R string :=
  match cands with
  | [] => fail (OrderFailed last_err)
  | (buy_tr, sell_tr) :: cands' =>
      let tr_id := if String.eqb side "buy" then buy_tr else sell_tr in
      fun s => match try_order tr_id body s with
               | (inr odno, s') => (inr odno, s')
               | (inl e, s') => order_loop side body cands' (Some e) s'
               end
  end.

(** [order_cash(side, pdno, qty, unpr, ord_dvsn)] *)
Definition order_cash (side pdno : string) (qty unpr : Z) (ord_dvsn : string) : R string :=
  token <- get_access_token ;;
  let body := [("CANO", Config.cano (cfg X));
               ("ACNT_PRDT_CD", Config.acnt_prdt_cd (cfg X));
               ("PDNO", pdno); ("ORD_DVSN", ord_dvsn);
               ("ORD_QTY", str_of_int X qty); ("ORD_UNPR", str_of_int X unpr)] in
  hk <- hashkey body ;;
  order_loop side body candidates None.

(** [get_ranking_fluctuation(min_rate, max_rate)] *)
Definition get_ranking_fluctuation (min_rate max_rate : Z) : R json :=
  token <- get_access_token ;;
  _request {| req_method := "GET";
              req_path := "/uapi/domestic-stock/v1/ranking/fluctuation";
              req_tr_id := "FHPST01700000";
              req_payload := [("fid_rsfl_rate1", str_of_int X min_rate);
                              ("fid_rsfl_rate2", str_of_int X max_rate);
                              ("fid_cond_mrkt_div_code", "J");
                              ("fid_cond_scr_div_code", "20170");
                              ("fid_input_iscd", "0000");
                              ("fid_rank_sort_cls_code", "0");
                              ("fid_input_cnt_1", "0");
                              ("fid_prc_cls_code", "0");
                              ("fid_input_price_1", "");
                              ("fid_input_price_2", "");
                              ("fid_vol_cnt", "");
                              ("fid_trgt_cls_code", "0");
                              ("fid_trgt_exls_cls_code", "0")] |} 2.

(** [inquire_psbl_cash(pdno, ord_unpr, ord_dvsn)].  On an output that is
    a string or a list, [k in out] is the substring or the membership
    test and [out[k]] raises [TypeError]; on a number the test itself
    raises. *)
Definition inquire_psbl_cash (pdno : string) (ord_unpr : Z) (ord_dvsn : string) : R Z :=
  token <- get_access_token ;;
  let tr_id := if String.eqb (Config.env (cfg X)) "vts" then "VTTC8908R" else "TTTC8908R" in
  res <- _request {| req_method := "GET";
                     req_path := "/uapi/domestic-stock/v1/trading/inquire-psbl-order";
                     req_tr_id := tr_id;
                     req_payload := [("CANO", Config.cano (cfg X));
                                     ("ACNT_PRDT_CD", Config.acnt_prdt_cd (cfg X));
                                     ("PDNO", pdno); ("ORD_UNPR", str_of_int X ord_unpr);
                                     ("ORD_DVSN", ord_dvsn);
                                     ("CMA_EVLU_AMT_ICLD_YN", "Y");
                                     ("OVRS_ICLD_YN", "Y")] |} 2 ;;
  o <- get res "output" ;;
  match Json.or_empty o with
  | JObj out =>
      match lookup "ord_psbl_cash" out, lookup "ORD_PSBL_CASH" out with
      | Some v, _ | None, Some v =>
          of_option BadNumber (float_of_json (py_float X) v ≫= int_of_pyfloat)
      | None, None => fail (CashParseFailed res)
      end
  | JStr out =>
      if is_substring "ord_psbl_cash" out || is_substring "ORD_PSBL_CASH" out
      then fail NotADict else fail (CashParseFailed res)
  | JArr out =>
      if in_list "ord_psbl_cash" out || in_list "ORD_PSBL_CASH" out
      then fail NotADict else fail (CashParseFailed res)
  | _ => fail NotADict
  end.

End WithContext.

End Rest.

(* ===================================================================== *)
(** * The words of the specification, and the scenarios of the examples   *)
(* ===================================================================== *)

(** "A flag is truthy iff it case-insensitively equals one of Y, 1, T,
    TRUE": equality of the upper-cased texts. *)
Definition eq_nocase (a b : string) : bool := String.eqb (PyStr.upper a) (PyStr.upper b).

Definition spec_truthy (v : string) : bool :=
  existsb (eq_nocase v) ["Y"; "1"; "T"; "TRUE"].

(** "Real fill iff the reject flag is not truthy and filled quantity > 0
    and fill price > 0", for a notion [truthy] of truthiness; quantity
    and price are the integers [_safe_int] recovers from fields 9 and
    10. *)
Definition spec_real_fill (py_float : string -> option pyfloat) (truthy : string -> bool)
    (fields : list string) : bool :=
  negb (truthy (field fields 12 ""))
  && (0 <? _safe_int py_float (field fields 9 "0") 0)
  && (0 <? _safe_int py_float (field fields 10 "0") 0).

(** The [ExecFill] the dispatcher builds from the fields. *)
Definition fill_of (py_float : string -> option pyfloat) (fields : list string) : ExecFill :=
  {| order_no := field fields 2 ""; pdno := field fields 8 "";
     qty := _safe_int py_float (field fields 9 "0") 0;
     price := _safe_int py_float (field fields 10 "0") 0;
     raw_fields := fields |}.

(** A notification of 5 shares at 1000 whose reject flag is " Y". *)
Definition padded_reject_notice : string :=
  "0^1^ORD1^3^4^5^6^7^005930^5^1000^11^ Y^2^1".

(** A notification of 5 shares at 1000 with the reject flag "N". *)
Definition accepted_notice : string :=
  "0^1^ORD1^3^4^5^6^7^005930^5^1000^11^N^2^1".

(** The sequence number of [code], as [wait_next_orderbook] reads it. *)
Definition seq_of (st : KISWebSocket) (code : string) : Z :=
  default 0 (_orderbook_seq st !! code).

(** An order-book frame for 005930: ask 1000 x 7, bid 995 x 9. *)
Definition orderbook_frame_005930 : ws_message :=
  Text "0|H0STASP0|001|005930^1^2^1000^4^5^6^7^8^9^10^11^12^995^14^15^16^17^18^19^20^21^22^7^24^25^26^27^28^29^30^31^32^9".

(** The dispatcher and the waiters on the concrete builtins, with the
    private channel of the production environment. *)
Definition dispatch0 : KISWebSocket -> ws_message -> KISWebSocket :=
  dispatch Builtins.py_float Builtins.py_int Builtins.json_loads
    Builtins.aes_cbc_base64_decrypt "H0STCNI0".

Definition wait_next_orderbook0 :=
  wait_next_orderbook Builtins.py_float Builtins.py_int Builtins.json_loads
    Builtins.aes_cbc_base64_decrypt "H0STCNI0".

(** A first wait for 005930 on a fresh object, one frame arriving at
    time 100. *)
Definition first_wait :=
  wait_next_orderbook0 "005930" 0 5000 init_ws 0 [(100, orderbook_frame_005930)].

(** ** The fills a wait is to count, in the words of the specification

    The first fill, when it arrives within the total timeout, and then
    every next fill that arrives within the idle timeout of the moment
    its predecessor was taken. *)
Fixpoint within_idle (idle_timeout now : Z) (q : feed) : list ExecFill :=
  match q with
  | (t, f) :: q' =>
      if (0 <? idle_timeout) && (t <? now + idle_timeout)
      then f :: within_idle idle_timeout (Z.max now t) q'
      else []
  | [] => []
  end.

Definition first_arrives (total_timeout now : Z) (q : feed) : bool :=
  match q with
  | (t, _) :: _ => (0 <? total_timeout) && (t <? now + total_timeout)
  | [] => false
  end.

Definition drained (total_timeout idle_timeout now : Z) (q : feed) : list ExecFill :=
  match q with
  | (t, f) :: q' =>
      if first_arrives total_timeout now q
      then f :: within_idle idle_timeout (Z.max now t) q'
      else []
  | [] => []
  end.

Definition sum_qty (l : list ExecFill) : Z := foldr (fun f acc => qty f + acc) 0 l.
Definition sum_value (l : list ExecFill) : Z := foldr (fun f acc => qty f * price f + acc) 0 l.

Definition a_fill (q p : Z) : ExecFill :=
  {| order_no := "ORD1"; pdno := "005930"; qty := q; price := p; raw_fields := [] |}.

(** ** Reading a trace *)

(** The interactions a run adds to the trace of the world it starts
    from. *)
Definition new_events (w w' : World) : list event := drop (length (trace w)) (trace w').

(** The exception an interaction ended with, if it raised. *)
Definition raised_by (ev : event) : option exn :=
  match ev with
  | EApprovalKey (Raise e) | EConnect (Raise e) | EClose (Raise e)
  | ESubscribe _ _ _ (Raise e) | EUnsubscribe _ _ _ (Raise e)
  | ENextOrderbook _ _ (Raise e) | EPsblCash _ _ (Raise e)
  | EOrderCash _ _ _ _ (Raise e) | ETradeReach _ _ (Raise e)
  | ERanking (Raise e) => Some e
  | _ => None
  end.

Definition quiet (tr : list event) : Prop := Forall (fun ev => raised_by ev = None) tr.

(** The trace cut at its first order-book wait that raised: what comes
    before it, the exception, and what comes after it. *)
Fixpoint split_at_orderbook_raise (tr : list event)
  : option (list event * exn * list event) :=
  match tr with
  | [] => None
  | ENextOrderbook _ _ (Raise e) :: tr' => Some ([], e, tr')
  | ev :: tr' =>
      match split_at_orderbook_raise tr' with
      | Some (pre, e, post) => Some (ev :: pre, e, post)
      | None => None
      end
  end.

(** The positive results of the fill waits of a trace, summed: quantity
    and notional. *)
Fixpoint positive_fills (tr : list event) : Z * Z :=
  match tr with
  | [] => (0, 0)
  | EOrderFills _ (q, v) :: tr' =>
      let '(tq, tv) := positive_fills tr' in
      if 0 <? q then (q + tq, v + tv) else (tq, tv)
  | _ :: tr' => positive_fills tr'
  end.

(** What a loop of attempts leaves behind, from accumulated quantity and
    notional [(q0, v0)] in world [w]: new interactions only, the
    accumulators grown by the positive fills among them, and an
    exception, if any, raised by the last interaction or, for an
    [OverflowError], by the arithmetic on its answer. *)
Definition loop_post {A} (w : World) (q0 v0 : Z) (o : outcome A) (q1 v1 : Z) (w' : World)
  : Prop :=
  exists new,
    trace w' = trace w ++ new
    /\ cooldowns w' = cooldowns w
    /\ q1 = q0 + fst (positive_fills new)
    /\ v1 = v0 + snd (positive_fills new)
    /\ match o with
       | Done _ => quiet new
       | Raised e =>
           (exists pre ev, new = pre ++ [ev] /\ raised_by ev = Some e /\ quiet pre)
           \/ (e = OverflowError /\ quiet new)
       | OutOfFuel => False
       end.

(** The attempts of a run and what follows them before the
    unsubscription: the loop ended by itself, or an interaction raised
    and the traceback was printed, or the arithmetic on the buying power
    overflowed and the traceback was printed. *)
Definition run_shape (attempts tail : list event) : Prop :=
  (quiet attempts /\ tail = [])
  \/ (exists pre ev e, attempts = pre ++ [ev] /\ raised_by ev = Some e /\ quiet pre
                       /\ tail = [ELog (Log_traceback e)])
  \/ (quiet attempts /\ tail = [ELog (Log_traceback OverflowError)]).

(** "Total filled quantity and volume-weighted average price", for the
    summed fills [(quantity, notional)] of a buy phase; no fill gives
    [(0, 0.0)], and an average too large for a double is the error of
    its division. *)
Definition vwap (fills : Z * Z) : outcome (Z * Q) :=
  if fst fills =? 0 then Done (0, 0%Q)
  else
    match true_div (snd fills) (fst fills) with
    | Ok avg => Done (fst fills, avg)
    | Raise e => Raised e
    end.

(** ** Environments of the examples *)

Definition empty_world : World := {| trace := []; cooldowns := ∅ |}.

(** Scenario A of the buy loop: the clock stands at 0, the order book of
    005930 is at sequence 100, the next two snapshots ask 1000 then 995,
    the cash buys 10 shares both times, and the two orders fill
    (10, 1000) and (5, 995). *)
Definition scenario_A : Env :=
  {| env_approval_key := fun _ => Ok "KEY";
     env_connect := fun _ => Ok tt;
     env_close := fun _ => Ok tt;
     env_send := fun _ => Ok tt;
     env_now := fun _ => 0;
     env_orderbook_seq := fun _ => 100;
     env_next_orderbook := fun n =>
       match n with
       | O => Ok (101, 1000, 10, 999, 10)
       | _ => Ok (102, 995, 10, 994, 10)
       end;
     env_psbl_cash := fun _ => Ok 10205;
     env_order_cash := fun n => match n with O => Ok "ORD1" | _ => Ok "ORD2" end;
     env_order_fills := fun n => match n with O => (10, 10 * 1000) | _ => (5, 5 * 995) end;
     env_trade_reach := fun _ => Raise (TimeoutError "trade reach timeout (session ended)");
     env_ranking := fun _ => Ok (JObj []) |}.

(** As scenario A, but the second order-book wait times out. *)
Definition scenario_quote_timeout : Env :=
  {| env_approval_key := fun _ => Ok "KEY";
     env_connect := fun _ => Ok tt;
     env_close := fun _ => Ok tt;
     env_send := fun _ => Ok tt;
     env_now := fun _ => 0;
     env_orderbook_seq := fun _ => 100;
     env_next_orderbook := fun n =>
       match n with
       | O => Ok (101, 1000, 10, 999, 10)
       | _ => Raise (TimeoutError "orderbook timeout")
       end;
     env_psbl_cash := fun _ => Ok 10205;
     env_order_cash := fun _ => Ok "ORD1";
     env_order_fills := fun _ => (4, 4 * 1000);
     env_trade_reach := fun _ => Raise (TimeoutError "trade reach timeout (session ended)");
     env_ranking := fun _ => Ok (JObj []) |}.

(** A buy of up to three attempts in that environment, and what the run
    did before the wait that timed out. *)
Definition quote_timeout_run : outcome (Z * Q) * World :=
  ioc_buy_with_ws scenario_quote_timeout "005930" 1 3 default_cash_use_ratio empty_world.

Definition quote_timeout_prefix : list event :=
  match split_at_orderbook_raise (new_events empty_world (snd quote_timeout_run)) with
  | Some (pre, _, _) => pre
  | None => []
  end.

(** ** The hold phase *)

(** The world after further interactions. *)
Definition extend (w : World) (evs : list event) : World :=
  {| trace := trace w ++ evs; cooldowns := cooldowns w |}.

(** What [wait_for_1pct_then_sell] does before it calls the sell loop,
    for the target [target], the approval key [key], the answer [r] of
    the target wait and the answer [u] of the unsubscription. *)
Definition hold_phase_events (code : string) (target : Z) (avg_buy : Q) (key : string)
    (r : result Z) (u : result unit) : list event :=
  [EApprovalKey (Ok key);
   ESubscribe "H0STCNT0" code key (Ok tt);
   ELog (Log_target target avg_buy);
   ETradeReach code target r;
   ELog (match r with
         | Ok last_price => Log_reached_target last_price target
         | Raise e => if is_timeout e then Log_session_end_before_target
                      else Log_traceback e
         end);
   EUnsubscribe "H0STCNT0" code key u].

(** The target-hit flag for the answer of the target wait. *)
Definition target_hit_of (r : result Z) : bool :=
  match r with Ok _ => true | Raise _ => false end.

(** The result of the sell loop with the flag beside it. *)
Definition with_flag (flag : bool) (o : outcome (Z * Z)) : outcome (Z * Z * bool) :=
  match o with
  | Done (q, v) => Done (q, v, flag)
  | Raised e => Raised e
  | OutOfFuel => OutOfFuel
  end.

(** The target wait on the concrete builtins. *)
Definition wait_trade_reach0 :=
  wait_trade_reach Builtins.py_float Builtins.py_int Builtins.json_loads
    Builtins.aes_cbc_base64_decrypt "H0STCNI0".

(** A trade tick of 005930 at 1009. *)
Definition trade_frame_005930 : ws_message := Text "0|H0STCNT0|001|005930^093000^1009".

(** A wait for 1010 from time 0 with the deadline at 10 and polls of 3:
    one tick below the target arrives at time 4. *)
Definition deadline_wait :=
  wait_trade_reach0 10 "005930" 1010 10 3 init_ws 0 [(4, trade_frame_005930)].

(** The position scenario A leaves: 15 shares at the double nearest to
    14975 / 15. *)
Definition scenario_A_avg : Q := Binary64.literal (14975 # 15).

(** ** Ranking items *)

(** The code and the change percentage of a ranking item, as lines 13
    and 14 of [strategy.py] read them. *)
Definition code_field (item : list (string * json)) : json :=
  py_or [Json.assoc "stck_shrn_iscd" item; Json.assoc "mksc_shrn_iscd" item;
         Json.assoc "code" item] (JStr "").

Definition rate_field (item : list (string * json)) : json :=
  py_or [Json.assoc "prdy_ctrt" item; Json.assoc "prdy_ctrt_1" item;
         Json.assoc "fluc_rt" item] (Json.assoc "rate" item).

(** An item with a code and a change percentage that is no number, and
    one with no change percentage at all. *)
Definition unparseable_item : list (string * json) :=
  [("stck_shrn_iscd", JStr "005930"); ("prdy_ctrt", JStr "n/a")].

Definition rateless_item : list (string * json) :=
  [("stck_shrn_iscd", JStr "005930")].

(** A well-formed item whose change percentage is outside 20..28. *)
Definition calm_item : list (string * json) :=
  [("stck_shrn_iscd", JStr "000660"); ("prdy_ctrt", JStr "3.5")].

(** A ranking answer whose second item has an unparseable change
    percentage, in an environment whose clock stands at 0. *)
Definition bad_ranking : list (string * json) :=
  [("rt_cd", JStr "0");
   ("output", JArr [JObj calm_item; JObj unparseable_item; JObj calm_item])].

Definition scenario_bad_ranking : Env :=
  {| env_approval_key := fun _ => Ok "KEY";
     env_connect := fun _ => Ok tt;
     env_close := fun _ => Ok tt;
     env_send := fun _ => Ok tt;
     env_now := fun _ => 0;
     env_orderbook_seq := fun _ => 0;
     env_next_orderbook := fun _ => Raise (TimeoutError "orderbook timeout");
     env_psbl_cash := fun _ => Ok 0;
     env_order_cash := fun _ => Ok "ORD1";
     env_order_fills := fun _ => (0, 0);
     env_trade_reach := fun _ => Raise (TimeoutError "trade reach timeout (session ended)");
     env_ranking := fun _ => Ok (JObj bad_ranking) |}.

(** ** The receive task *)






(** ** Two cycles *)

Definition ranking_of (items : list (string * string)) : json :=
  JObj [("output",
         JArr (map (fun '(code, rate) =>
                      JObj [("stck_shrn_iscd", JStr code); ("prdy_ctrt", JStr rate)])
                   items))].

(** Cycle 1 buys 10 shares of A at 1000 and its sell loop fills nothing;
    cycle 2 buys 5 shares of B at 2000 and sells them at 2020; then the
    clock passes the end of the session, 1000. *)
Definition scenario_two_cycles : Env :=
  {| env_approval_key := fun _ => Ok "KEY";
     env_connect := fun _ => Ok tt;
     env_close := fun _ => Ok tt;
     env_send := fun _ => Ok tt;
     env_now := fun n => if (n <? 14)%nat then Z.of_nat n else 1000;
     env_orderbook_seq := fun n => match n with 0%nat | 2%nat => 0 | _ => 1 end;
     env_next_orderbook := fun n =>
       match n with
       | 0%nat => Ok (1, 1000, 10, 999, 10)
       | 3%nat => Ok (1, 2000, 5, 1999, 5)
       | 5%nat => Ok (2, 2021, 5, 2020, 5)
       | _ => Raise (TimeoutError "orderbook timeout")
       end;
     env_psbl_cash := fun _ => Ok 10205;
     env_order_cash := fun n =>
       match n with
       | 0%nat => Ok "BUY-A"
       | 1%nat => Ok "BUY-B"
       | _ => Ok "SELL-B"
       end;
     env_order_fills := fun n =>
       match n with
       | 0%nat => (10, 10 * 1000)
       | 1%nat => (5, 5 * 2000)
       | _ => (5, 5 * 2020)
       end;
     env_trade_reach := fun n => match n with 0%nat => Ok 1010 | _ => Ok 2020 end;
     env_ranking := fun n =>
       match n with
       | 0%nat => Ok (ranking_of [("A", "25.0")])
       | _ => Ok (ranking_of [("A", "25.0"); ("B", "22.0")])
       end |}.

Definition two_cycles_session : outcome unit * (session_locals * World) :=
  run_trading_session scenario_two_cycles Builtins.py_float Builtins.py_repr
    20 false "H0STCNI0" "HTS1" 1000 empty_world.

Definition is_sell_order (code : string) (ev : event) : bool :=
  match ev with
  | EOrderCash Sell c _ _ _ => String.eqb c code
  | _ => false
  end.

Definition is_force_liquidation (ev : event) : bool :=
  match ev with
  | ELog (Log_force_liquidation _ _) => true
  | _ => false
  end.

Definition log_lines (tr : list event) : list strategy_log :=
  omap (fun ev => match ev with ELog l => Some l | _ => None end) tr.

(** ** More frames *)

(** The tables after one order-book frame of 005930. *)
Definition snapshot_state : KISWebSocket := dispatch0 init_ws orderbook_frame_005930.

(** A frame of the private channel. *)
Definition private_frame : ws_message := Text "1|H0STCNI0|001|c2VjcmV0".

(** The last reading of the clock in a trace. *)
Definition last_now (tr : list event) : option Z :=
  foldl (fun acc ev => match ev with ENow t => Some t | _ => acc end) None tr.

(** An item at the upper end of the range, its code padded with blanks. *)
Definition boundary_item : list (string * json) :=
  [("stck_shrn_iscd", JStr " 005930 "); ("prdy_ctrt", JStr "28.0")].

(** The first scan of the two-cycle scenario. *)
Definition first_scan : outcome (option string) * (unit * World) :=
  find_candidate scenario_two_cycles Builtins.py_float Builtins.py_repr 5 1000 (tt, empty_world).

(** ** Watching the orders of a trace *)

(** How many interactions of kind [k] a trace holds. *)
Fixpoint count_kind (k : kind) (tr : list event) : nat :=
  match tr with
  | [] => 0
  | ev :: tr' => (if kind_eqb (kind_of ev) k then 1 else 0) + count_kind k tr'
  end.

(** A subscription; an unsubscription.  Both are [ws.send] calls, of
    kind [KSend]. *)
Definition is_subscribe (ev : event) : bool :=
  match ev with ESubscribe _ _ _ _ => true | _ => false end.

Definition is_unsubscribe (ev : event) : bool :=
  match ev with EUnsubscribe _ _ _ _ => true | _ => false end.

(** How many interactions of a trace satisfy [f]. *)
Fixpoint count_if (f : event -> bool) (tr : list event) : nat :=
  match tr with
  | [] => 0
  | ev :: tr' => (if f ev then 1 else 0) + count_if f tr'
  end.

(** Run a watcher over a trace: [None] as soon as it objects. *)
Fixpoint watch {S} (step : S -> event -> option S) (s : S) (tr : list event) : option S :=
  match tr with
  | [] => Some s
  | ev :: tr' =>
      match step s ev with
      | Some s' => watch step s' tr'
      | None => None
      end
  end.

(** A buy order for [q] shares at [p], placed when the clock was last
    read at [t] and the cash last inquired, for the price [p'], was
    [cash]: in time, at the inquired price, and affordable with the
    fraction [ratio] of the cash. *)
Definition buy_order_ok (session_end : Z) (ratio : Q) (t p' cash q p : Z) : bool :=
  (t <? session_end) && (p =? p') && (0 <? p) && (0 <? q)
  && match int_of_scaled cash ratio with
     | Ok scaled => q * p <=? scaled
     | Raise _ => false
     end.

(** The watcher of a buy loop remembers the last clock reading and the
    last cash inquiry, accepts a buy order of [code] that is
    [buy_order_ok] against them, and objects to every other order. *)
Definition watch_buy (code : string) (ratio : Q) (session_end : Z)
    (s : option Z * option (Z * Z)) (ev : event) : option (option Z * option (Z * Z)) :=
  match ev with
  | ENow t => Some (Some t, snd s)
  | EPsblCash _ p (Ok cash) => Some (fst s, Some (p, cash))
  | EOrderCash Buy c q p _ =>
      match s with
      | (Some t, Some (p', cash)) =>
          if String.eqb c code && buy_order_ok session_end ratio t p' cash q p
          then Some s else None
      | _ => None
      end
  | EOrderCash Sell _ _ _ _ => None
  | _ => Some s
  end.

(** The watcher of a sell loop for [qty] shares keeps the quantity sold
    so far, accepts a sell order of [code] for exactly what is left, at
    a positive price, and objects to every other order. *)
Definition watch_sell (code : string) (qty_to_sell : Z) (sold : Z) (ev : event) : option Z :=
  match ev with
  | EOrderFills _ (q, _) => Some (if 0 <? q then sold + q else sold)
  | EOrderCash Sell c q p _ =>
      if String.eqb c code && (q =? qty_to_sell - sold) && (0 <? q) && (0 <? p)
      then Some sold else None
  | EOrderCash Buy _ _ _ _ => None
  | _ => Some sold
  end.

(** ** The locals of a session *)

(** What the locals of a session satisfy: at most five trades are
    counted, and a recorded position is of a code that is not empty and
    of a positive quantity. *)
Definition session_inv (l : session_locals) : Prop :=
  0 <= done l <= 5
  /\ match open_position l with
     | Some (code, q, _) => code <> "" /\ 0 < q
     | None => True
     end.

(** ** Configurations *)

(** A process environment for the paper-trading server, with blanks and
    capitals that [load_config] removes. *)
Definition vts_environ : gmap string string :=
  <["KIS_ENV" := " VTS "]>
  (<["KIS_APP_KEY" := "key "]>
  (<["KIS_APP_SECRET" := "secret"]>
  (<["KIS_CANO" := "12345678"]>
  (<["KIS_HTS_ID" := " trader1"]> ∅)))).

(** A string has no blank at either end. *)
Definition stripped (s : string) : Prop := PyStr.strip s = s.

(** The variables [load_config] requires, each with the default
    [os.getenv] is given for it. *)
Definition required_variables : list (string * string) :=
  [("KIS_APP_KEY", ""); ("KIS_APP_SECRET", ""); ("KIS_CANO", "");
   ("KIS_ACNT_PRDT_CD", "01"); ("KIS_HTS_ID", "")].

(** ** The REST client *)

(** The fields of a [KISRest] object and its clock are as they were;
    only requests and sleeps were added. *)
Definition same_object (s s' : Rest.state) : Prop :=
  Rest._access_token s' = Rest._access_token s
  /\ Rest._token_expire_at s' = Rest._token_expire_at s
  /\ Rest._approval_key s' = Rest._approval_key s
  /\ Rest.clock_reads s' = Rest.clock_reads s.

(** ** What a computation adds to the trace *)







(** ** The doubles of the machine *)

(** The value of a primitive float, and the primitive float of an
    integer below [2 ^ 63] in magnitude: they let [Binary64] be compared
    with the binary64 arithmetic of the machine. *)
Definition of_prim (f : PrimFloat.float) : pyfloat :=
  match FloatOps.Prim2SF f with
  | SpecFloat.S754_zero _ => PFin 0
  | SpecFloat.S754_infinity negative => PInf negative
  | SpecFloat.S754_nan => PNaN
  | SpecFloat.S754_finite negative m e =>
      PFin (Qred (Binary64.scale (if negative then Z.neg m else Z.pos m) e))
  end.

Definition prim_of_Z (n : Z) : PrimFloat.float :=
  match n with
  | Z0 => PrimFloat.zero
  | Zpos _ => PrimFloat.of_uint63 (Uint63.of_Z n)
  | Zneg p => PrimFloat.opp (PrimFloat.of_uint63 (Uint63.of_Z (Zpos p)))
  end.
(* ===================================================================== *)
(** * Rounding to the nearest double                                      *)
(* ===================================================================== *)

Module Binary64Facts.
Import Binary64.

Lemma nearest_even_close n d : 0 < d -> 2 * Z.abs (nearest_even n d * d - n) <= d.
Proof.
  intros Hd. unfold nearest_even.
  pose proof (Z.div_mod n d ltac:(lia)) as Hdm.
  pose proof (Z.mod_pos_bound n d Hd) as Hr.
  destruct (Z.ltb_spec (2 * (n mod d)) d); [nia|].
  destruct (Z.ltb_spec d (2 * (n mod d))); [nia|].
  destruct (Z.even (n / d)); nia.
Qed.

Lemma pow2_split a b : 0 <= a -> 0 <= b -> 2 ^ (a + b) = 2 ^ a * 2 ^ b.
Proof. intros. now rewrite Z.pow_add_r. Qed.

Lemma pow2_pos a : 0 <= a -> 0 < 2 ^ a.
Proof. intros. now apply Z.pow_pos_nonneg. Qed.

Lemma above_pow2_nonneg n d k : 0 <= k -> above_pow2 n d k <-> d * 2 ^ k <= n.
Proof.
  intros. unfold above_pow2. replace (Z.max k 0) with k by lia.
  replace (Z.max (- k) 0) with 0 by lia. rewrite Z.pow_0_r. lia.
Qed.

Lemma above_pow2_neg n d k : k <= 0 -> above_pow2 n d k <-> d <= n * 2 ^ (- k).
Proof.
  intros. unfold above_pow2. replace (Z.max k 0) with 0 by lia.
  replace (Z.max (- k) 0) with (- k) by lia. rewrite Z.pow_0_r. lia.
Qed.

Lemma above_pow2_pred n d k : 0 <= n -> 0 < d -> above_pow2 n d k -> above_pow2 n d (k - 1).
Proof.
  intros Hn Hd H. destruct (Z_le_gt_dec k 0) as [Hk|Hk].
  - rewrite above_pow2_neg in H by lia. apply above_pow2_neg; [lia|].
    replace (- (k - 1)) with (1 + - k) by lia. rewrite pow2_split by lia.
    pose proof (pow2_pos (- k) ltac:(lia)). nia.
  - rewrite above_pow2_nonneg in H by lia. apply above_pow2_nonneg; [lia|].
    replace k with (1 + (k - 1)) in H by lia. rewrite pow2_split in H by lia.
    pose proof (pow2_pos (k - 1) ltac:(lia)). nia.
Qed.

Lemma log2_floor_bounds n d :
  0 < n -> 0 < d ->
  above_pow2 n d (log2_floor n d) /\ ~ above_pow2 n d (log2_floor n d + 1).
Proof.
  intros Hn Hd. unfold log2_floor.
  pose proof (Z.log2_spec n Hn) as [Hn1 Hn2].
  pose proof (Z.log2_spec d Hd) as [Hd1 Hd2].
  pose proof (Z.log2_nonneg n). pose proof (Z.log2_nonneg d).
  set (a := Z.log2 n) in *. set (b := Z.log2 d) in *.
  replace (Z.succ a) with (1 + a) in Hn2 by lia.
  replace (Z.succ b) with (1 + b) in Hd2 by lia.
  rewrite pow2_split in Hn2, Hd2 by lia. change (2 ^ 1) with 2 in *.
  pose proof (pow2_pos a ltac:(lia)). pose proof (pow2_pos b ltac:(lia)).
  assert (Hlow : above_pow2 n d (a - b - 1)).
  { destruct (Z_le_gt_dec (a - b - 1) 0) as [Hk|Hk].
    - apply above_pow2_neg; [lia|].
      replace (- (a - b - 1)) with (1 + (b - a)) by lia.
      destruct (Z_le_gt_dec 0 (b - a)).
      + rewrite pow2_split by lia. change (2 ^ 1) with 2.
        assert (2 ^ b = 2 ^ a * 2 ^ (b - a)) by (rewrite <- pow2_split by lia; f_equal; lia).
        pose proof (pow2_pos (b - a) ltac:(lia)). nia.
      + replace (1 + (b - a)) with 0 by lia. replace a with (1 + b) in * by lia.
        rewrite pow2_split in Hn1 by lia. change (2 ^ 1) with 2 in *. cbn. lia.
    - apply above_pow2_nonneg; [lia|].
      assert (2 ^ a = 2 * 2 ^ b * 2 ^ (a - b - 1)).
      { change 2 with (2 ^ 1) at 2. rewrite <- !pow2_split by lia. f_equal. lia. }
      pose proof (pow2_pos (a - b - 1) ltac:(lia)). nia. }
  assert (Hup : ~ above_pow2 n d (a - b + 1)).
  { destruct (Z_le_gt_dec (a - b + 1) 0) as [Hk|Hk].
    - rewrite above_pow2_neg by lia.
      assert (2 ^ b = 2 * 2 ^ a * 2 ^ (- (a - b + 1))).
      { change 2 with (2 ^ 1) at 2. rewrite <- !pow2_split by lia. f_equal. lia. }
      pose proof (pow2_pos (- (a - b + 1)) ltac:(lia)). nia.
    - rewrite above_pow2_nonneg by lia.
      destruct (Z_le_gt_dec 0 (a - b)).
      + replace (a - b + 1) with (1 + (a - b)) by lia. rewrite pow2_split by lia.
        change (2 ^ 1) with 2.
        assert (2 ^ a = 2 ^ b * 2 ^ (a - b)) by (rewrite <- pow2_split by lia; f_equal; lia).
        pose proof (pow2_pos (a - b) ltac:(lia)). nia.
      + replace (a - b + 1) with 0 by lia. rewrite Z.pow_0_r. 
        replace b with (1 + a) in * by lia. rewrite pow2_split in Hd1 by lia.
        change (2 ^ 1) with 2 in *. lia. }
  destruct (Z.leb_spec 0 (a - b)) as [Hk|Hk].
  - destruct (Z.leb_spec (d * 2 ^ (a - b)) n) as [Hc|Hc].
    + split; [now apply above_pow2_nonneg|exact Hup].
    + split; [exact Hlow|]. replace (a - b - 1 + 1) with (a - b) by lia.
      rewrite above_pow2_nonneg by lia. lia.
  - destruct (Z.leb_spec d (n * 2 ^ (- (a - b)))) as [Hc|Hc].
    + split; [apply above_pow2_neg; [lia|exact Hc]|exact Hup].
    + split; [exact Hlow|]. replace (a - b - 1 + 1) with (a - b) by lia.
      rewrite above_pow2_neg by lia. lia.
Qed.


Lemma Qabs_diff_le (a n rn : Z) (b d rd : positive) :
  Z.abs (a * Z.pos d - n * Z.pos b) * Z.pos rd <= rn * (Z.pos b * Z.pos d) ->
  (Qabs ((a # b) - (n # d)) <= rn # rd)%Q.
Proof.
  intros H. unfold Qle, Qabs, Qminus, Qplus, Qopp; cbn [Qnum Qden].
  rewrite Pos2Z.inj_mul.
  replace (a * Z.pos d + - n * Z.pos b) with (a * Z.pos d - n * Z.pos b) by lia.
  exact H.
Qed.

Lemma scale_nonneg m e : 0 <= e -> scale m e = inject_Z (m * 2 ^ e).
Proof. unfold scale. destruct (Z.leb_spec 0 e); [reflexivity|lia]. Qed.

Lemma scale_neg m e : e < 0 -> scale m e = m # Z.to_pos (2 ^ (- e)).
Proof. unfold scale. destruct (Z.leb_spec 0 e); [lia|reflexivity]. Qed.

Lemma to_pos_pow2 a : 0 <= a -> Z.pos (Z.to_pos (2 ^ a)) = 2 ^ a.
Proof. intros. apply Z2Pos.id. now apply Z.pow_pos_nonneg. Qed.

(** Half a unit in the last place bounds the distance to the nearest
    double. *)
Lemma mantissa_close (n : Z) (d : positive) :
  let x := n # d in
  let e := exponent x in
  (Qabs (scale (mantissa x e) e - x) <= scale 1 (e - 1))%Q.
Proof.
  intros x e. unfold mantissa. subst x. cbn [Qnum Qden].
  destruct (Z.leb_spec 0 e) as [He|He].
  - rewrite scale_nonneg by lia.
    pose proof (pow2_pos e He) as HP.
    pose proof (nearest_even_close n (Z.pos d * 2 ^ e) ltac:(lia)) as Hm.
    set (m := nearest_even n (Z.pos d * 2 ^ e)) in *.
    destruct (Z.eq_dec e 0) as [->|He0].
    + rewrite scale_neg by lia. change (2 ^ (- (0 - 1))) with 2. change (Z.to_pos 2) with 2%positive.
      unfold inject_Z. apply Qabs_diff_le. change (2 ^ 0) with 1 in *. lia.
    + rewrite (scale_nonneg 1) by lia. unfold inject_Z. apply Qabs_diff_le.
      replace e with (1 + (e - 1)) in Hm |- * by lia.
      replace (1 + (e - 1) - 1) with (e - 1) by lia.
      rewrite pow2_split in * by lia. change (2 ^ 1) with 2 in *.
      pose proof (pow2_pos (e - 1) ltac:(lia)). nia.
  - rewrite !scale_neg by lia.
    pose proof (pow2_pos (- e) ltac:(lia)) as HP.
    pose proof (nearest_even_close (n * 2 ^ (- e)) (Z.pos d) ltac:(lia)) as Hm.
    set (m := nearest_even (n * 2 ^ (- e)) (Z.pos d)) in *.
    apply Qabs_diff_le. rewrite !to_pos_pow2 by lia.
    replace (- (e - 1)) with (1 + - e) by lia. rewrite pow2_split by lia.
    change (2 ^ 1) with 2. nia.
Qed.


Lemma half_ulp_le (n : Z) (d : positive) :
  n <> 0 ->
  let x := n # d in
  (scale 1 (exponent x - 1) <= Qabs x * scale 1 (-53) + scale 1 (-1075))%Q.
Proof.
  intros Hn x. unfold exponent. subst x. cbn [Qnum Qden].
  destruct (log2_floor_bounds (Z.abs n) (Z.pos d) ltac:(lia) ltac:(lia)) as [Hk _].
  set (k := log2_floor (Z.abs n) (Z.pos d)) in *.
  assert (H0 : (0 <= Qabs (n # d) * scale 1 (-53))%Q).
  { apply Qmult_le_0_compat; [apply Qabs_nonneg|]. rewrite scale_neg by lia. discriminate. }
  assert (Ht : (0 <= scale 1 (-1075))%Q) by (rewrite scale_neg by lia; discriminate).
  destruct (Z_le_gt_dec (k - 52) (-1074)) as [Hs|Hs].
  - rewrite Z.max_r by lia. change (-1074 - 1) with (-1075).
    rewrite <- (Qplus_0_l (scale 1 (-1075))) at 1.
    apply Qplus_le_compat; [exact H0|apply Qle_refl].
  - rewrite Z.max_l by lia.
    rewrite <- (Qplus_0_r (scale 1 (k - 52 - 1))).
    apply Qplus_le_compat; [|exact Ht].
    rewrite (scale_neg 1 (-53)) by lia.
    unfold Qabs, Qmult, Qle; cbn [Qnum Qden].
    rewrite Pos2Z.inj_mul, to_pos_pow2 by lia. change (- -53) with 53.
    rewrite Z.mul_1_r.
    destruct (Z_le_gt_dec 53 k) as [Hk53|Hk53].
    + rewrite scale_nonneg by lia. cbn [inject_Z Qnum Qden]. rewrite Z.mul_1_l, Z.mul_1_r.
      rewrite above_pow2_nonneg in Hk by lia.
      replace k with (k - 52 - 1 + 53) in Hk by lia. rewrite pow2_split in Hk by lia.
      nia.
    + rewrite scale_neg by lia. cbn [Qnum Qden]. rewrite to_pos_pow2 by lia. rewrite Z.mul_1_l.
      destruct (Z_le_gt_dec 0 k) as [Hk0|Hk0].
      * rewrite above_pow2_nonneg in Hk by lia.
        replace 53 with (k + - (k - 52 - 1)) by lia. rewrite pow2_split by lia.
        pose proof (pow2_pos (- (k - 52 - 1)) ltac:(lia)). nia.
      * rewrite above_pow2_neg in Hk by lia.
        replace (- (k - 52 - 1)) with (- k + 53) by lia. rewrite pow2_split by lia.
        pose proof (pow2_pos 53 ltac:(lia)). nia.
Qed.

(** The double nearest to [x] is [x] up to a relative error of
    [2 ^ -53], or of half the least subnormal. *)
Lemma round_error (x y : Q) :
  round x = PFin y ->
  (Qabs (y - x) <= Qabs x * pow2 (-53) + pow2 (-1075))%Q.
Proof.
  unfold round, pow2. intros H.
  assert (Hx : (Qred x == x)%Q) by apply Qred_correct.
  rewrite <- Hx. clear Hx. destruct (Qred x) as [n d]. cbn [Qnum] in H.
  destruct (Z.eqb_spec n 0) as [->|Hn].
  - injection H as <-. rewrite scale_neg by lia. discriminate.
  - destruct (_ <=? _); [discriminate|]. injection H as <-.
    rewrite Qred_correct.
    eapply Qle_trans; [apply mantissa_close|]. now apply half_ulp_le.
Qed.


Lemma nearest_even_exact q d : 0 < d -> nearest_even (q * d) d = q.
Proof.
  intros Hd. unfold nearest_even.
  rewrite Z.div_mul, Z.mod_mul by lia. rewrite Z.mul_0_r.
  destruct (Z.ltb_spec 0 d); [reflexivity|lia].
Qed.

Lemma nearest_even_1 n : nearest_even n 1 = n.
Proof. replace n with (n * 1) at 1 by lia. apply nearest_even_exact. lia. Qed.

Lemma nearest_even_bound n d b : 0 < d -> Z.abs n <= b * d -> Z.abs (nearest_even n d) <= b.
Proof.
  intros Hd Hn. pose proof (nearest_even_close n d Hd). nia.
Qed.

Lemma above_pow2_mono n d k k' :
  0 <= n -> 0 < d -> k' <= k -> above_pow2 n d k -> above_pow2 n d k'.
Proof.
  intros Hn Hd Hk H.
  replace k' with (k - Z.of_nat (Z.to_nat (k - k'))) by lia.
  induction (Z.to_nat (k - k')) as [|j IH].
  - now replace (k - Z.of_nat 0) with k by lia.
  - replace (k - Z.of_nat (S j)) with (k - Z.of_nat j - 1) by lia.
    now apply above_pow2_pred.
Qed.

(** The rounded mantissa has at most 53 bits. *)
Lemma mantissa_bound (n : Z) (d : positive) :
  n <> 0 ->
  let x := n # d in
  Z.abs (mantissa x (exponent x)) <= 2 ^ 53.
Proof.
  intros Hn x.
  destruct (log2_floor_bounds (Z.abs n) (Z.pos d) ltac:(lia) ltac:(lia)) as [_ Hk].
  assert (He : ~ above_pow2 (Z.abs n) (Z.pos d) (exponent x + 53)).
  { intros H. apply Hk. revert H. apply above_pow2_mono; try lia.
    unfold exponent. subst x. cbn [Qnum Qden]. lia. }
  unfold mantissa. subst x. cbn [Qnum Qden] in *.
  set (e := exponent (n # d)) in *.
  destruct (Z.leb_spec 0 e) as [He0|He0].
  - rewrite above_pow2_nonneg in He by lia. rewrite pow2_split in He by lia.
    apply nearest_even_bound; [pose proof (pow2_pos e He0); lia|]. nia.
  - apply nearest_even_bound; [lia|].
    rewrite Z.abs_mul, (Z.abs_eq (2 ^ _)) by (apply Z.pow_nonneg; lia).
    destruct (Z_le_gt_dec (e + 53) 0) as [Hs|Hs].
    + rewrite above_pow2_neg in He by lia.
      replace (- e) with (- (e + 53) + 53) by lia. rewrite pow2_split by lia.
      pose proof (pow2_pos 53 ltac:(lia)). nia.
    + rewrite above_pow2_nonneg in He by lia.
      replace 53 with (e + 53 + - e) at 1 by lia. rewrite pow2_split by lia.
      pose proof (pow2_pos (- e) ltac:(lia)). nia.
Qed.

(** Below [2 ^ 1023] in magnitude, rounding gives a finite double. *)
Lemma round_finite (x : Q) :
  (Qabs x < inject_Z (2 ^ 1023))%Q -> exists y, round x = PFin y.
Proof.
  intros Hx. unfold round.
  rewrite <- (Qred_correct x) in Hx. destruct (Qred x) as [n d]. cbn [Qnum].
  destruct (Z.eqb_spec n 0) as [->|Hn]; [eauto|].
  pose proof (mantissa_bound n d Hn) as Hm. cbv zeta in Hm.
  set (e := exponent (n # d)) in *. set (m := mantissa (n # d) e) in *.
  destruct (Z.leb_spec (2 ^ 1024) (Z.abs m * 2 ^ Z.max e 0)) as [Hov|Hov]; [|eauto].
  exfalso.
  unfold Qlt, Qabs in Hx. cbn [Qnum Qden inject_Z] in Hx. rewrite Z.mul_1_r in Hx.
  destruct (log2_floor_bounds (Z.abs n) (Z.pos d) ltac:(lia) ltac:(lia)) as [Hk _].
  assert (He : e <= 970).
  { destruct (Z_le_gt_dec e 970) as [|Hgt]; [assumption|exfalso].
    assert (Hab : above_pow2 (Z.abs n) (Z.pos d) 1023).
    { revert Hk. apply above_pow2_mono; try lia. subst e. unfold exponent in Hgt.
      cbn [Qnum Qden] in Hgt. lia. }
    rewrite above_pow2_nonneg in Hab by lia. lia. }
  assert (2 ^ Z.max e 0 <= 2 ^ 970) by (apply Z.pow_le_mono_r; lia).
  assert (0 < 2 ^ Z.max e 0) by (apply pow2_pos; lia).
  assert (Z.abs m * 2 ^ Z.max e 0 <= 2 ^ 53 * 2 ^ 970) by nia.
  change (2 ^ 53 * 2 ^ 970) with (2 ^ 1023) in *.
  assert (2 ^ 1023 < 2 ^ 1024) by (apply Z.pow_lt_mono_r; lia).
  lia.
Qed.

Lemma Qred_inject_Z p : Qred (p # 1) = p # 1.
Proof.
  unfold Qred.
  pose proof (Z.ggcd_gcd p 1) as Hg. pose proof (Z.ggcd_correct_divisors p 1) as Hd.
  destruct (Z.ggcd p 1) as [g [a b]]. cbn [fst snd] in *.
  rewrite Z.gcd_1_r in Hg. subst g. destruct Hd as [Ha Hb].
  replace a with p by lia. replace b with 1 by lia. reflexivity.
Qed.

(** An integer of at most 53 bits is a double. *)
Lemma round_integer (x : Q) (p : Z) :
  Z.abs p <= 2 ^ 53 -> (x == inject_Z p)%Q -> round x = PFin (inject_Z p).
Proof.
  intros Hp Hx. unfold round.
  unfold inject_Z in *.
  rewrite (Qred_complete _ _ Hx), Qred_inject_Z. cbn [Qnum Qden].
  destruct (Z.eqb_spec p 0) as [->|Hn]; [reflexivity|].
  destruct (log2_floor_bounds (Z.abs p) 1 ltac:(lia) ltac:(lia)) as [Hlo Hhi].
  unfold exponent. cbn [Qnum Qden].
  set (k := log2_floor (Z.abs p) 1) in *.
  assert (Hk0 : 0 <= k).
  { destruct (Z_le_gt_dec 0 k); [assumption|exfalso]. apply Hhi.
    apply above_pow2_neg; [lia|]. pose proof (pow2_pos (- (k + 1)) ltac:(lia)). nia. }
  rewrite above_pow2_nonneg in Hlo, Hhi by lia.
  assert (Hk53 : k <= 53).
  { destruct (Z_le_gt_dec k 53); [assumption|exfalso].
    assert (2 ^ 54 <= 2 ^ k) by (apply Z.pow_le_mono_r; lia).
    assert (2 ^ 53 < 2 ^ 54) by (apply Z.pow_lt_mono_r; lia). lia. }
  replace (Z.max (k - 52) (-1074)) with (k - 52) by lia.
  assert (Hfit : forall m j, Z.abs m * 2 ^ j <= 2 ^ 105 -> (2 ^ 1024 <=? Z.abs m * 2 ^ j) = false).
  { intros m j H. apply Z.leb_gt.
    assert (2 ^ 105 < 2 ^ 1024) by (apply Z.pow_lt_mono_r; lia). lia. }
  unfold mantissa. cbn [Qnum Qden].
  destruct (Z.leb_spec 0 (k - 52)) as [He|He].
  - destruct (Z.eq_dec k 53) as [->|Hne].
    + (* |p| = 2^53 *)
      change (53 - 52) with 1. change (2 ^ 1) with 2. change (1 * 2) with 2.
      assert (Hp2 : p = p / 2 * 2).
      { change (2 ^ 53) with (2 ^ 52 * 2) in *. rewrite Z.mul_1_l in Hlo.
        assert (Z.abs p = 2 ^ 52 * 2) by lia.
        destruct (Z.abs_spec p) as [[_ Hq]|[_ Hq]].
        - rewrite <- Hq, H. now rewrite Z.div_mul by lia.
        - replace p with (- 2 ^ 52 * 2) by lia. now rewrite Z.div_mul by lia. }
      assert (Hm : nearest_even p 2 = p / 2).
      { rewrite Hp2 at 1. apply nearest_even_exact. lia. }
      rewrite !Hm.
      rewrite Hfit.
      2:{ change (Z.max 1 0) with 1. change (2 ^ 1) with 2.
          assert (2 ^ 53 < 2 ^ 105) by (apply Z.pow_lt_mono_r; lia). lia. }
      rewrite scale_nonneg by lia. change (2 ^ 1) with 2. rewrite <- Hp2. unfold inject_Z.
      now rewrite Qred_inject_Z.
    + replace (k - 52) with 0 by lia. rewrite Z.pow_0_r, Z.mul_1_l.
      rewrite !nearest_even_1.
      rewrite Hfit.
      2:{ change (Z.max 0 0) with 0. rewrite Z.pow_0_r.
          assert (2 ^ 53 < 2 ^ 105) by (apply Z.pow_lt_mono_r; lia). lia. }
      rewrite scale_nonneg by lia. rewrite Z.pow_0_r, Z.mul_1_r. unfold inject_Z.
      now rewrite Qred_inject_Z.
  - rewrite !nearest_even_1.
    pose proof (pow2_pos (- (k - 52)) ltac:(lia)) as HP.
    rewrite Hfit.
    2:{ rewrite Z.max_r by lia. rewrite Z.pow_0_r, Z.mul_1_r, Z.abs_mul.
        rewrite (Z.abs_eq (2 ^ _)) by lia.
        assert (2 ^ (- (k - 52)) <= 2 ^ 52) by (apply Z.pow_le_mono_r; lia).
        change (2 ^ 105) with (2 ^ 53 * 2 ^ 52). nia. }
    rewrite scale_neg by lia.
    f_equal. rewrite <- (Qred_inject_Z p). apply Qred_complete.
    unfold Qeq. cbn [Qnum Qden]. rewrite to_pos_pow2 by lia. lia.
Qed.

End Binary64Facts.

(** [Binary64.round] against the doubles of the machine: the literals
    [1.01] and [0.98], two averages, their products with [1.01], an
    integer of 54 bits and a product that overflows. *)
Example round_agrees_with_the_machine :
  let f := prim_of_Z in
  Binary64.round (101 # 100) = of_prim (PrimFloat.div (f 101) (f 100))
  /\ Binary64.round (98 # 100) = of_prim (PrimFloat.div (f 98) (f 100))
  /\ Binary64.round (inject_Z 14975 / inject_Z 15) = of_prim (PrimFloat.div (f 14975) (f 15))
  /\ Binary64.round (inject_Z 100000 / inject_Z 101)
     = of_prim (PrimFloat.div (f 100000) (f 101))
  /\ Binary64.round (Binary64.literal (100000 # 101) * Binary64.literal (101 # 100))
     = of_prim (PrimFloat.mul (PrimFloat.div (f 100000) (f 101))
                  (PrimFloat.div (f 101) (f 100)))
  /\ Binary64.round (Binary64.literal (100100 # 101) * Binary64.literal (101 # 100))
     = of_prim (PrimFloat.mul (PrimFloat.div (f 100100) (f 101))
                  (PrimFloat.div (f 101) (f 100)))
  /\ Binary64.round (inject_Z (2 ^ 53 + 1)) = of_prim (PrimFloat.add (f (2 ^ 53)) (f 1))
  /\ Binary64.round (inject_Z (2 ^ 62) * inject_Z (2 ^ 62) * inject_Z (2 ^ 62)
                     * inject_Z (2 ^ 62))
     = of_prim (PrimFloat.mul (PrimFloat.mul (f (2 ^ 62)) (f (2 ^ 62)))
                  (PrimFloat.mul (f (2 ^ 62)) (f (2 ^ 62)))).
Proof. vm_compute. repeat split. Qed.

(* ===================================================================== *)
(** * The private channel: which notifications become fills               *)
(* ===================================================================== *)

Lemma or_empty_id (v : string) : PyStr.or_ v "" = v.
Proof. destruct v; reflexivity. Qed.

Lemma _is_truthy_spec (v : string) : _is_truthy v = spec_truthy (PyStr.strip v).
Proof.
  unfold _is_truthy, spec_truthy, eq_nocase. rewrite or_empty_id.
  set (u := PyStr.upper (PyStr.strip v)). cbn [existsb].
  change (PyStr.upper "Y") with "Y". change (PyStr.upper "1") with "1".
  change (PyStr.upper "T") with "T". change (PyStr.upper "TRUE") with "TRUE".
  destruct (String.eqb_spec u "Y") as [->|HY]; [reflexivity|].
  destruct (String.eqb_spec u "1") as [->|H1]; [reflexivity|].
  destruct (String.eqb_spec u "T") as [->|HT]; [reflexivity|].
  destruct (String.eqb_spec u "TRUE") as [->|HTRUE]; [reflexivity|].
  cbn. apply bool_decide_eq_false. intros H.
  repeat (apply elem_of_cons in H as [H|H]; [contradiction|]).
  now apply elem_of_nil in H.
Qed.

Lemma app_singleton_neq {A} (l : list A) (x : A) : l ++ [x] <> l.
Proof.
  intros H. apply (f_equal (@length A)) in H. rewrite length_app in H. cbn in H. lia.
Qed.

Section ExecNotice.

Variable py_float : string -> option pyfloat.

(** C2, as amended.  For every decrypted private-channel text, the
    dispatcher changes the fill queues if and only if the reject flag
    (field 12), once its surrounding blanks are stripped, is not
    case-insensitively one of Y, 1, T, TRUE, and the quantity (field 9)
    and the price (field 10) that [_safe_int] reads are both positive.
    When that holds, exactly one [ExecFill], built from the fields, is
    appended to the queue of the order id of field 2 and every other
    queue is left alone; when it does not hold (in particular for a
    reject-flagged text with positive quantity and price) the state
    changes by one [EXEC_NONFILL] log line only. *)
Theorem exec_notice_enqueues_iff_real_fill (st : KISWebSocket) (plain : string) :
  let fields := PyStr.split "^" plain in
  let real := spec_real_fill py_float (fun v => spec_truthy (PyStr.strip v)) fields in
  let st' := exec_notice py_float st plain in
  (_fills_by_order st' <> _fills_by_order st <-> real = true)
  /\ (real = true ->
        _fills_by_order st' =
          <[field fields 2 "" :=
              _get_order_queue st (field fields 2 "") ++ [fill_of py_float fields]]>
            (_fills_by_order st))
  /\ (real = false ->
        exists l, st' = add_log st l
                  /\ match l with EXEC_NONFILL _ _ _ _ _ _ _ => True | _ => False end).
Proof.
  intros fields real st'.
  assert (Hreal : real =
    negb (_is_truthy (field fields 12 ""))
    && (0 <? _safe_int py_float (field fields 9 "0") 0)
    && (0 <? _safe_int py_float (field fields 10 "0") 0)).
  { unfold real, spec_real_fill. now rewrite _is_truthy_spec. }
  assert (Hst : st' =
    if real then
      add_log (put_nowait st (field fields 2 "") (fill_of py_float fields))
        (EXEC_FILL (field fields 2 "") (field fields 8 "")
           (_safe_int py_float (field fields 9 "0") 0)
           (_safe_int py_float (field fields 10 "0") 0)
           (field fields 12 "") (field fields 13 "") (field fields 14 ""))
    else
      add_log st
        (EXEC_NONFILL (field fields 2 "") (field fields 8 "")
           (_safe_int py_float (field fields 9 "0") 0)
           (_safe_int py_float (field fields 10 "0") 0)
           (field fields 12 "") (field fields 13 "") (field fields 14 ""))).
  { rewrite Hreal. reflexivity. }
  clearbody real st'. subst st'. destruct real; cbn.
  - split; [|split]; [| reflexivity | discriminate].
    split; [reflexivity|]. intros _ Heq.
    apply (f_equal (fun m => m !! field fields 2 "")) in Heq.
    rewrite lookup_insert_eq in Heq.
    unfold _get_order_queue in Heq.
    destruct (_fills_by_order st !! field fields 2 "") as [q|] eqn:Hq; cbn in Heq.
    + injection Heq as Heq. now apply app_singleton_neq in Heq.
    + discriminate.
  - split; [|split]; [| discriminate |].
    + split; [intros H; now contradiction H | discriminate].
    + intros _. eexists. split; [reflexivity | exact I].
Qed.

End ExecNotice.

Lemma exec_notice_enqueues_iff_real_fill_witness :
  spec_real_fill Builtins.py_float (fun v => spec_truthy (PyStr.strip v))
    (PyStr.split "^" accepted_notice) = true
  /\ _fills_by_order (exec_notice Builtins.py_float init_ws accepted_notice) =
       <[field (PyStr.split "^" accepted_notice) 2 "" :=
           _get_order_queue init_ws (field (PyStr.split "^" accepted_notice) 2 "")
           ++ [fill_of Builtins.py_float (PyStr.split "^" accepted_notice)]]>
         (_fills_by_order init_ws).
Proof.
  split; [reflexivity|].
  apply (proj1 (proj2 (exec_notice_enqueues_iff_real_fill
                         Builtins.py_float init_ws accepted_notice))).
  reflexivity.
Defined.

(** C2, as stated, fails: with the reject flag " Y" (a blank before the
    letter), which is not case-insensitively one of Y, 1, T, TRUE, and
    quantity 5 and price 1000, the stated condition holds, yet the
    dispatcher enqueues nothing and logs the text as a non-fill. *)
Lemma padded_reject_flag_is_not_enqueued :
  let fields := PyStr.split "^" padded_reject_notice in
  spec_real_fill Builtins.py_float spec_truthy fields = true
  /\ _fills_by_order (exec_notice Builtins.py_float init_ws padded_reject_notice)
     = _fills_by_order init_ws
  /\ log (exec_notice Builtins.py_float init_ws padded_reject_notice)
     = [EXEC_NONFILL "ORD1" "005930" 5 1000 " Y" "2" "1"].
Proof. vm_compute. auto. Qed.

(* ===================================================================== *)
(** * The order-book sequence and its waiters                             *)
(* ===================================================================== *)

Section WaitersFacts.

Variable py_float : string -> option pyfloat.
Variable py_int : string -> option Z.
Variable json_loads : string -> option json.
Variable aes_cbc_base64_decrypt : string -> string -> string -> option string.
Variable exec_tr_id : string.

Abbreviation handle := (dispatch py_float py_int json_loads aes_cbc_base64_decrypt exec_tr_id).

Lemma control_frame_orderbook st m st' :
  control_frame json_loads st m = Some st' ->
  _orderbook st' = _orderbook st /\ _orderbook_seq st' = _orderbook_seq st.
Proof.
  unfold control_frame. intros H.
  repeat (simplify_option_eq; try case_match); auto.
Qed.

Lemma exec_frame_orderbook st t d :
  let st' := exec_frame py_float aes_cbc_base64_decrypt st t d in
  _orderbook st' = _orderbook st /\ _orderbook_seq st' = _orderbook_seq st.
Proof.
  unfold exec_frame, exec_notice. cbn zeta.
  repeat case_match; auto.
Qed.

Lemma trade_frame_orderbook st d st' :
  trade_frame py_int st d = Some st' ->
  _orderbook st' = _orderbook st /\ _orderbook_seq st' = _orderbook_seq st.
Proof.
  unfold trade_frame. intros H. simplify_option_eq. auto.
Qed.

Lemma orderbook_frame_seq st d st' c :
  orderbook_frame py_int st d = Some st' ->
  (seq_of st' c = seq_of st c /\ _orderbook st' !! c = _orderbook st !! c)
  \/ (seq_of st' c = seq_of st c + 1 /\ is_Some (_orderbook st' !! c)).
Proof.
  unfold orderbook_frame, seq_of. intros H.
  destruct (PyStr.split "^" d !! 0%nat) as [code|]; [|discriminate]. cbn in H.
  repeat match type of H with
         | context [mbind _ ?o] => destruct o; cbn in H; [|discriminate]
         end.
  injection H as <-. cbn.
  destruct (decide (c = code)) as [->|Hne].
  - right. unfold _bump_seq. rewrite !lookup_insert_eq. cbn. split; [reflexivity|eauto].
  - left. unfold _bump_seq. rewrite !lookup_insert_ne by congruence. auto.
Qed.

Lemma dispatch_seq st msg c :
  (seq_of (handle st msg) c = seq_of st c
   /\ _orderbook (handle st msg) !! c = _orderbook st !! c)
  \/ (seq_of (handle st msg) c = seq_of st c + 1
      /\ is_Some (_orderbook (handle st msg) !! c)).
Proof.
  assert (Hsame : forall st', _orderbook st' = _orderbook st /\
                              _orderbook_seq st' = _orderbook_seq st ->
            seq_of st' c = seq_of st c /\ _orderbook st' !! c = _orderbook st !! c).
  { intros st' [H1 H2]. unfold seq_of. now rewrite H1, H2. }
  unfold dispatch, handle_message.
  destruct msg as [m|]; [|left; auto].
  destruct (PyStr.startswith "{" m).
  { destruct (control_frame json_loads st m) as [st'|] eqn:Hcf; cbn; [|left; auto].
    left. apply Hsame. eapply control_frame_orderbook; eauto. }
  destruct (negb (PyStr.contains "|" m)); [left; auto|].
  destruct (PyStr.split_max "|" 3 m) as [|dt [|tr [|third [|data [|]]]]]; try (left; auto; fail).
  destruct (String.eqb tr "H0STASP0").
  { destruct (orderbook_frame py_int st data) as [st'|] eqn:Hof; cbn; [|left; auto].
    eapply orderbook_frame_seq; eauto. }
  destruct (String.eqb tr "H0STCNT0").
  { destruct (trade_frame py_int st data) as [st'|] eqn:Htf; cbn; [|left; auto].
    left. apply Hsame. eapply trade_frame_orderbook; eauto. }
  destruct (String.eqb tr exec_tr_id && String.eqb dt "1"); [|left; auto].
  left. apply Hsame. apply exec_frame_orderbook.
Qed.

Lemma dispatch_all_seq_mono st msgs c :
  seq_of st c <= seq_of (foldl handle st msgs) c.
Proof.
  revert st. induction msgs as [|m msgs IH]; intros st; cbn; [lia|].
  etransitivity; [|apply IH].
  destruct (dispatch_seq st m c) as [[-> _]|[-> _]]; lia.
Qed.

Lemma orderbook_ready_spec st code last_seq seq a aq b bq :
  orderbook_ready st code last_seq = Some (seq, a, aq, b, bq) ->
  last_seq < seq /\ seq_of st code = seq /\ _orderbook st !! code = Some (a, aq, b, bq).
Proof.
  unfold orderbook_ready, seq_of.
  destruct (_orderbook st !! code) as [[[[a' aq'] b'] bq']|]; [|discriminate].
  destruct (Z.ltb_spec last_seq (default 0 (_orderbook_seq st !! code))); [|discriminate].
  intros [= <- <- <- <- <-]. auto.
Qed.

Lemma wait_suspended_ok code last_seq end_ tl : forall st now seq a aq b bq st' now' tl',
  wait_next_orderbook_suspended py_float py_int json_loads aes_cbc_base64_decrypt exec_tr_id
    code last_seq end_ st now tl = (Ok (seq, a, aq, b, bq), st', now', tl') ->
  last_seq < seq /\ seq_of st' code = seq /\ _orderbook st' !! code = Some (a, aq, b, bq).
Proof.
  induction tl as [|[t msg] tl IH]; intros st now seq a aq b bq st' now' tl' H; cbn in H.
  - discriminate.
  - destruct (t <? end_); [|discriminate].
    fold (dispatch py_float py_int json_loads aes_cbc_base64_decrypt exec_tr_id) in H.
    destruct (is_set (_orderbook_event (handle st msg)) code).
    + destruct (Z.max now t <? end_); [|discriminate].
      destruct (orderbook_ready (handle st msg) code last_seq) as [r|] eqn:Hr.
      * injection H as -> <- <- <-. eapply orderbook_ready_spec; eauto.
      * apply IH in H. exact H.
    + eapply IH; eauto.
Qed.

(** C1.  A call of [wait_next_orderbook] with last observed sequence
    [last_seq] that returns, returns a sequence strictly greater than
    [last_seq], and that sequence and the four snapshot fields are the
    ones the tables hold for the code in the state at the moment of
    return.  The dispatcher, on any frame, either leaves the sequence and
    the snapshot of a code as they are or raises the sequence by exactly
    one, so over any run of frames the sequence of a code never
    decreases and a value is assigned once. *)
Theorem wait_next_orderbook_newer_and_current :
  (forall code last_seq timeout st now tl seq a aq b bq st' now' tl',
      wait_next_orderbook py_float py_int json_loads aes_cbc_base64_decrypt exec_tr_id
        code last_seq timeout st now tl = (Ok (seq, a, aq, b, bq), st', now', tl') ->
      last_seq < seq /\ seq_of st' code = seq
      /\ _orderbook st' !! code = Some (a, aq, b, bq))
  /\ (forall st msg code,
        (seq_of (handle st msg) code = seq_of st code
         /\ _orderbook (handle st msg) !! code = _orderbook st !! code)
        \/ (seq_of (handle st msg) code = seq_of st code + 1
            /\ is_Some (_orderbook (handle st msg) !! code)))
  /\ (forall st msgs code, seq_of st code <= seq_of (foldl handle st msgs) code).
Proof.
  split; [|split; [apply dispatch_seq | apply dispatch_all_seq_mono]].
  intros code last_seq timeout st now tl seq a aq b bq st' now' tl' H.
  unfold wait_next_orderbook in H.
  destruct (now <? now + timeout); [|discriminate].
  match type of H with
  | context [orderbook_ready ?s code last_seq] =>
      destruct (orderbook_ready s code last_seq) as [r|] eqn:Hr
  end.
  - injection H as -> <- <- <-. eapply orderbook_ready_spec; eauto.
  - eapply wait_suspended_ok; eauto.
Qed.

End WaitersFacts.

Lemma wait_next_orderbook_newer_and_current_witness :
  0 < 1 /\ seq_of (snd (fst (fst first_wait))) "005930" = 1
  /\ _orderbook (snd (fst (fst first_wait))) !! "005930" = Some (1000, 7, 995, 9).
Proof.
  apply (proj1 (wait_next_orderbook_newer_and_current Builtins.py_float Builtins.py_int
                  Builtins.json_loads Builtins.aes_cbc_base64_decrypt "H0STCNI0")
           "005930" 0 5000 init_ws 0 [(100, orderbook_frame_005930)]
           1 1000 7 995 9 (snd (fst (fst first_wait))) (snd (fst first_wait)) (snd first_wait)).
  vm_compute. reflexivity.
Defined.

(* ===================================================================== *)
(** * The fills of one order                                              *)
(* ===================================================================== *)

Lemma drain_fills_spec idle q : forall fq fv now,
  let '(fq', fv', _, q') := drain_fills idle fq fv now q in
  fq' = fq + sum_qty (within_idle idle now q)
  /\ fv' = fv + sum_value (within_idle idle now q)
  /\ map snd q = within_idle idle now q ++ map snd q'.
Proof.
  induction q as [|[t f] q IH]; intros fq fv now; cbn.
  - repeat split; lia.
  - destruct ((0 <? idle) && (t <? now + idle)); cbn.
    + specialize (IH (fq + qty f) (fv + qty f * price f) (Z.max now t)).
      destruct (drain_fills idle (fq + qty f) (fv + qty f * price f) (Z.max now t) q)
        as [[[fq' fv'] now'] q'].
      destruct IH as (-> & -> & ->).
      repeat split; unfold sum_qty, sum_value; cbn; try lia; reflexivity.
    + repeat split; try lia; reflexivity.
Qed.

(** C3.  [wait_order_fills] always returns a pair (no outcome of it is an
    error).  The pair is (sum of qty, sum of qty x price) over the drained
    fills: the first fill of the queue when it arrives within the total
    timeout, and every following fill that arrives within the idle
    timeout of its predecessor; those fills, in order, are exactly what
    the wait removes from the queue, each once, and the rest stays
    queued.  When no first fill arrives within the total timeout the
    pair is (0, 0). *)
Theorem wait_order_fills_sums_the_drained_fills (total_timeout idle_timeout now : Z) (q : feed) :
  let '(filled_qty, filled_value, _, q') :=
    wait_order_fills total_timeout idle_timeout now q in
  let d := drained total_timeout idle_timeout now q in
  filled_qty = sum_qty d
  /\ filled_value = sum_value d
  /\ map snd q = d ++ map snd q'
  /\ (first_arrives total_timeout now q = false -> filled_qty = 0 /\ filled_value = 0).
Proof.
  unfold wait_order_fills, wait_for_get, drained.
  destruct q as [|[t f] q]; cbn.
  - repeat split; reflexivity.
  - destruct ((0 <? total_timeout) && (t <? now + total_timeout)); cbn.
    + pose proof (drain_fills_spec idle_timeout q (0 + qty f) (0 + qty f * price f)
                    (Z.max now t)) as H.
      destruct (drain_fills idle_timeout (0 + qty f) (0 + qty f * price f) (Z.max now t) q)
        as [[[fq' fv'] now'] q'].
      destruct H as (-> & -> & ->).
      repeat split; unfold sum_qty, sum_value; cbn; try lia; try reflexivity; discriminate.
    + repeat split; reflexivity.
Qed.

Lemma wait_order_fills_sums_the_drained_fills_witness :
  fst (fst (fst (wait_order_fills 3000 500 0 [(3000, a_fill 10 1000)]))) = 0
  /\ snd (fst (fst (wait_order_fills 3000 500 0 [(3000, a_fill 10 1000)]))) = 0.
Proof.
  pose proof (wait_order_fills_sums_the_drained_fills 3000 500 0 [(3000, a_fill 10 1000)])
    as H.
  destruct (wait_order_fills 3000 500 0 [(3000, a_fill 10 1000)]) as [[[fq fv] now'] q'].
  cbn [fst snd]. apply H. reflexivity.
Defined.

Example wait_order_fills_two_partial_fills :
  wait_order_fills 3000 500 0
    [(100, a_fill 10 1000); (400, a_fill 5 995); (2000, a_fill 1 990)]
  = (15, 14975, 900, [(2000, a_fill 1 990)]).
Proof. reflexivity. Qed.

(* ===================================================================== *)
(** * The IOC loops                                                       *)
(* ===================================================================== *)

Lemma positive_fills_app (a b : list event) :
  positive_fills (a ++ b) =
  (fst (positive_fills a) + fst (positive_fills b),
   snd (positive_fills a) + snd (positive_fills b)).
Proof.
  induction a as [|ev a IH]; cbn.
  - now destruct (positive_fills b).
  - destruct ev; try exact IH.
    destruct r as [q v]. rewrite IH.
    destruct (positive_fills a) as [qa va], (positive_fills b) as [qb vb]; cbn.
    destruct (0 <? q); cbn; f_equal; lia.
Qed.

Lemma positive_fills_nonneg (tr : list event) : 0 <= fst (positive_fills tr).
Proof.
  induction tr as [|ev tr IH]; cbn; [lia|].
  destruct ev; try exact IH.
  destruct r as [q v]. destruct (positive_fills tr) as [tq tv]; cbn in *.
  destruct (Z.ltb_spec 0 q); cbn; lia.
Qed.

Lemma quiet_app (a b : list event) : quiet a -> quiet b -> quiet (a ++ b).
Proof. unfold quiet. intros. now apply Forall_app. Qed.

Lemma loop_post_trans {A B} w q0 v0 (c : A) q1 v1 w1 (o : outcome B) q2 v2 w2 :
  loop_post w q0 v0 (Done c) q1 v1 w1 ->
  loop_post w1 q1 v1 o q2 v2 w2 ->
  loop_post w q0 v0 o q2 v2 w2.
Proof.
  intros (n1 & Ht1 & Hc1 & Hq1 & Hv1 & Hquiet) (n2 & Ht2 & Hc2 & Hq2 & Hv2 & Ho).
  exists (n1 ++ n2). rewrite positive_fills_app; cbn.
  repeat split; try congruence; try lia.
  - rewrite Ht2, Ht1. now rewrite app_assoc.
  - destruct o as [b|e|]; [now apply quiet_app| |exact Ho].
    destruct Ho as [(pre & ev & -> & Hev & Hpre)|[-> Hq]].
    + left. exists (n1 ++ pre), ev. rewrite app_assoc. auto using quiet_app.
    + right. auto using quiet_app.
Qed.

(** Closes the goals that symbolic execution of one attempt leaves. *)
Ltac close_attempt :=
  rewrite <- ?app_assoc; cbn [app];
  first [ eexists; split; [reflexivity|]
        | exists []; split; [now rewrite app_nil_r|] ];
  cbn [positive_fills fst snd];
  repeat match goal with
         | H : (?q <=? 0) = _ |- context [0 <? ?q] =>
             let H' := fresh in
             destruct (Z.ltb_spec 0 q) as [H'|H']; apply Z.leb_gt in H || apply Z.leb_le in H
         end;
  cbn [fst snd];
  repeat split; try lia;
  try (unfold quiet; repeat constructor; fail);
  match goal with
  | |- (exists pre ev, ?l = pre ++ [ev] /\ _) \/ _ =>
      first [ right; split; [reflexivity|unfold quiet; repeat constructor]; fail
            | left; exists (removelast l), (List.last l ESleep); cbn;
              repeat split; unfold quiet; repeat constructor ]
  end.

Lemma int_of_scaled_raises x r e : int_of_scaled x r = Raise e -> e = OverflowError.
Proof.
  unfold int_of_scaled, float_of_int.
  destruct (Binary64.round (inject_Z x)); try congruence.
  destruct (int_of_pyfloat _); congruence.
Qed.

Lemma true_div_raises a b e : b <> 0 -> true_div a b = Raise e -> e = OverflowError.
Proof.
  unfold true_div. intros Hb. destruct (Z.eqb_spec b 0); [contradiction|].
  destruct (Binary64.round _); congruence.
Qed.

Section LoopFacts.
Variable E : Env.

Lemma buy_attempt_post code se ma r i l w :
  let '(o, (l', w')) := buy_attempt E code se ma r i (l, w) in
  loop_post w (total_qty l) (total_value l) o (total_qty l') (total_value l') w'.
Proof.
  unfold buy_attempt, loop_post, bind, ret, lift, kst_now, next_orderbook, inquire_psbl_cash,
    order_cash, order_fills, log_, emit, ask, get_locals, set_locals, of_result.
  cbn.
  repeat (case_match; cbn); simplify_eq; cbn.
  all: repeat match goal with
              | H : int_of_scaled _ _ = Raise _ |- _ => apply int_of_scaled_raises in H; subst
              end.
  all: close_attempt.
Qed.

Lemma sell_attempt_post code ma i l w :
  let '(o, (l', w')) := sell_attempt E code ma i (l, w) in
  loop_post w (sold_qty l) (sold_value l) o (sold_qty l') (sold_value l') w'.
Proof.
  unfold sell_attempt, loop_post, bind, ret, kst_now, next_orderbook, inquire_psbl_cash,
    order_cash, order_fills, log_, emit, ask, get_locals, set_locals, of_result.
  cbn.
  repeat (case_match; cbn); simplify_eq; cbn.
  all: close_attempt.
Qed.

Lemma loop_post_retag {A B} w q0 v0 (o : outcome A) (o' : outcome B) q1 v1 w1 :
  match o, o' with
  | Done _, Done _ => True
  | Raised e, Raised e' => e = e'
  | OutOfFuel, OutOfFuel => True
  | _, _ => False
  end ->
  loop_post w q0 v0 o q1 v1 w1 -> loop_post w q0 v0 o' q1 v1 w1.
Proof.
  intros Ho (new & H1 & H2 & H3 & H4 & H5). exists new.
  repeat split; auto.
  destruct o, o'; try contradiction; subst; auto.
Qed.

Lemma loop_post_refl {A} w q v (a : A) : loop_post w q v (Done a) q v w.
Proof.
  exists []. rewrite app_nil_r. cbn. repeat split; try lia. constructor.
Qed.

Lemma buy_loop_post code se ma r n : forall i l w,
  let '(o, (l', w')) := for_range n i (buy_attempt E code se ma r) (l, w) in
  loop_post w (total_qty l) (total_value l) o (total_qty l') (total_value l') w'.
Proof.
  induction n as [|n IH]; intros i l w; cbn [for_range].
  - apply loop_post_refl.
  - unfold bind at 1.
    pose proof (buy_attempt_post code se ma r i l w) as H1.
    destruct (buy_attempt E code se ma r i (l, w)) as [[c|e|] [l1 w1]].
    + destruct c.
      * specialize (IH (i + 1) l1 w1).
        destruct (for_range n (i + 1) (buy_attempt E code se ma r) (l1, w1)) as [o2 [l2 w2]].
        eapply loop_post_trans; eauto.
      * cbn. eapply loop_post_retag; [|exact H1]. exact I.
    + eapply loop_post_retag; [|exact H1]. reflexivity.
    + eapply loop_post_retag; [|exact H1]. exact I.
Qed.

Lemma sell_loop_post code ma n : forall i l w,
  let '(o, (l', w')) := for_range n i (sell_attempt E code ma) (l, w) in
  loop_post w (sold_qty l) (sold_value l) o (sold_qty l') (sold_value l') w'.
Proof.
  induction n as [|n IH]; intros i l w; cbn [for_range].
  - apply loop_post_refl.
  - unfold bind at 1.
    pose proof (sell_attempt_post code ma i l w) as H1.
    destruct (sell_attempt E code ma i (l, w)) as [[c|e|] [l1 w1]].
    + destruct c.
      * specialize (IH (i + 1) l1 w1).
        destruct (for_range n (i + 1) (sell_attempt E code ma) (l1, w1)) as [o2 [l2 w2]].
        eapply loop_post_trans; eauto.
      * cbn. eapply loop_post_retag; [|exact H1]. exact I.
    + eapply loop_post_retag; [|exact H1]. reflexivity.
    + eapply loop_post_retag; [|exact H1]. exact I.
Qed.

(** The shape of a run of [ioc_buy_with_ws]. *)
Lemma ioc_buy_with_ws_run code se ma ratio w :
  let '(o, w') := ioc_buy_with_ws E code se ma ratio w in
  cooldowns w' = cooldowns w /\
  ((exists e, o = Raised e /\ trace w' = trace w ++ [EApprovalKey (Raise e)])
   \/ (exists key e, o = Raised e
         /\ trace w' = trace w ++ [EApprovalKey (Ok key);
                                   ESubscribe "H0STASP0" code key (Raise e)])
   \/ (exists key n attempts tail u,
         trace w' = trace w ++ [EApprovalKey (Ok key); ESubscribe "H0STASP0" code key (Ok tt);
                                EOrderbookSeq code n]
                            ++ attempts ++ tail ++ [EUnsubscribe "H0STASP0" code key u]
         /\ run_shape attempts tail
         /\ o = match u with
                | Ok _ => vwap (positive_fills attempts)
                | Raise e => Raised e
                end)).
Proof.
  unfold ioc_buy_with_ws, with_locals, get_approval_key, subscribe, orderbook_seq,
    unsubscribe, ask, of_result.
  unfold bind at 1. cbn.
  destruct (env_approval_key E (calls KApprovalKey w)) as [key|e]; cbn.
  2:{ split; [reflexivity|]. left. eauto. }
  unfold bind at 1. cbn.
  destruct (env_send E _) as [[]|e]; cbn.
  2:{ split; [reflexivity|]. right. left. exists key, e. rewrite <- app_assoc. auto. }
  unfold try_finally, try_except, any_exception, log_, emit.
  match goal with
  | |- context [for_range ?n ?i ?b (?l, ?w0)] =>
      pose proof (buy_loop_post code se ma ratio n i l w0) as HL;
      destruct (for_range n i b (l, w0)) as [o [l' w']]
  end.
  destruct HL as (new & Ht & Hc & Hq & Hv & Ho). cbn in Ht, Hc, Hq, Hv.
  assert (Hres : forall s : buy_locals * World,
             buy_result l' s = (vwap (positive_fills new), s)).
  { intros s. unfold buy_result, vwap, lift, bind, ret. rewrite Hq, Hv, !Z.add_0_l.
    pose proof (positive_fills_nonneg new).
    destruct (Z.leb_spec (positive_fills new).1 0), (Z.eqb_spec (positive_fills new).1 0);
      try lia; [reflexivity|].
    destruct (true_div _ _); reflexivity. }
  destruct o as [[]|e|]; [| |contradiction]; cbn.
  - destruct (env_send E (calls KSend w')) as [[]|e] eqn:Hu; cbn; rewrite ?Hres.
    all: destruct (vwap (positive_fills new)) as [[q avg]|e0|] eqn:Hvw; cbn.
    all: split; [exact Hc|]; right; right.
    all: eexists key, _, new, [], _.
    all: (split; [|split]; [rewrite Ht, <- !app_assoc; reflexivity | left; auto |]).
    all: cbn; now rewrite ?Hvw.
  - match goal with |- context [env_send E ?i] => destruct (env_send E i) as [[]|e'] eqn:Hu end.
    all: cbn; rewrite ?Hres.
    all: destruct (vwap (positive_fills new)) as [[q avg]|e0|] eqn:Hvw; cbn.
    all: (split; [exact Hc|]); right; right.
    all: eexists key, _, new, [ELog (Log_traceback e)], _.
    all: (split; [|split];
          [rewrite Ht, <- !app_assoc; reflexivity
          | destruct Ho as [(pre & ev & -> & Hev & Hpre)|[-> Hquiet]];
            [right; left; exists pre, ev, e; auto | right; right; auto] |]).
    all: cbn; now rewrite ?Hvw.
Qed.

(** The shape of a run of [ioc_sell_with_ws]. *)
Lemma ioc_sell_with_ws_run code qty_to_sell ma w :
  let '(o, w') := ioc_sell_with_ws E code qty_to_sell ma w in
  cooldowns w' = cooldowns w /\
  ((exists e, o = Raised e /\ trace w' = trace w ++ [EApprovalKey (Raise e)])
   \/ (exists key e, o = Raised e
         /\ trace w' = trace w ++ [EApprovalKey (Ok key);
                                   ESubscribe "H0STASP0" code key (Raise e)])
   \/ (exists key n attempts tail u,
         trace w' = trace w ++ [EApprovalKey (Ok key); ESubscribe "H0STASP0" code key (Ok tt);
                                EOrderbookSeq code n]
                            ++ attempts ++ tail ++ [EUnsubscribe "H0STASP0" code key u]
         /\ run_shape attempts tail
         /\ o = match u with
                | Ok _ => Done (positive_fills attempts)
                | Raise e => Raised e
                end)).
Proof.
  unfold ioc_sell_with_ws, with_locals, get_approval_key, subscribe, orderbook_seq,
    unsubscribe, ask, of_result.
  unfold bind at 1. cbn.
  destruct (env_approval_key E (calls KApprovalKey w)) as [key|e]; cbn.
  2:{ split; [reflexivity|]. left. eauto. }
  unfold bind at 1. cbn.
  destruct (env_send E _) as [[]|e]; cbn.
  2:{ split; [reflexivity|]. right. left. exists key, e. rewrite <- app_assoc. auto. }
  unfold try_finally, try_except, any_exception, log_, emit.
  match goal with
  | |- context [for_range ?n ?i ?b (?l, ?w0)] =>
      pose proof (sell_loop_post code ma n i l w0) as HL;
      destruct (for_range n i b (l, w0)) as [o [l' w']]
  end.
  destruct HL as (new & Ht & Hc & Hq & Hv & Ho). cbn in Ht, Hc, Hq, Hv.
  assert (Hres : (sold_qty l', sold_value l') = positive_fills new).
  { rewrite Hq, Hv, !Z.add_0_l. now destruct (positive_fills new). }
  destruct o as [[]|e|]; [| |contradiction]; cbn.
  - destruct (env_send E (calls KSend w')) as [[]|e] eqn:Hu; cbn.
    all: split; [exact Hc|]; right; right.
    all: eexists key, _, new, [], _.
    all: (split; [|split]; [rewrite Ht, <- !app_assoc; reflexivity | left; auto |]).
    all: cbn; now rewrite ?Hres.
  - match goal with |- context [env_send E ?i] => destruct (env_send E i) as [[]|e'] eqn:Hu end.
    all: cbn; (split; [exact Hc|]); right; right.
    all: eexists key, _, new, [ELog (Log_traceback e)], _.
    all: (split; [|split];
          [rewrite Ht, <- !app_assoc; reflexivity
          | destruct Ho as [(pre & ev & -> & Hev & Hpre)|[-> Hquiet]];
            [right; left; exists pre, ev, e; auto | right; right; auto] |]).
    all: cbn; now rewrite ?Hres.
Qed.

End LoopFacts.

Lemma new_events_app w w' new : trace w' = trace w ++ new -> new_events w w' = new.
Proof. unfold new_events. intros ->. apply drop_app_length. Qed.

Lemma split_quiet tr : quiet tr -> split_at_orderbook_raise tr = None.
Proof.
  induction 1 as [|ev tr Hev _ IH]; [reflexivity|].
  cbn. rewrite IH. destruct ev; try reflexivity.
  destruct r; [reflexivity|discriminate].
Qed.

Lemma split_app_none a b :
  split_at_orderbook_raise a = None ->
  split_at_orderbook_raise (a ++ b) =
    match split_at_orderbook_raise b with
    | Some (pre, e, post) => Some (a ++ pre, e, post)
    | None => None
    end.
Proof.
  induction a as [|ev a IH]; cbn.
  - intros _. now destruct (split_at_orderbook_raise b) as [[[? ?] ?]|].
  - destruct (split_at_orderbook_raise a) as [[[p e] q]|] eqn:Ha.
    + destruct ev; try discriminate. destruct r; discriminate.
    + intros H. specialize (IH eq_refl). rewrite IH.
      destruct (split_at_orderbook_raise b) as [[[p e] q]|];
        destruct ev; try reflexivity; destruct r; try reflexivity; discriminate.
Qed.

(** In the trace of a run of one of the two loops, an order-book wait
    that raised is the last attempt: only the traceback and the
    unsubscription follow it. *)
Lemma split_run code key n attempts tail u pre e post :
  run_shape attempts tail ->
  split_at_orderbook_raise
    ([EApprovalKey (Ok key); ESubscribe "H0STASP0" code key (Ok tt); EOrderbookSeq code n]
       ++ attempts ++ tail ++ [EUnsubscribe "H0STASP0" code key u]) = Some (pre, e, post) ->
  post = [ELog (Log_traceback e); EUnsubscribe "H0STASP0" code key u]
  /\ positive_fills attempts = positive_fills pre.
Proof.
  intros Hshape. rewrite (split_app_none [_; _; _]) by reflexivity.
  destruct Hshape as [[Hq ->]|[(pre' & ev & e' & -> & Hev & Hq & ->)|[Hq ->]]].
  - rewrite (split_app_none attempts) by now apply split_quiet. discriminate.
  - rewrite <- app_assoc. rewrite (split_app_none pre') by now apply split_quiet.
    destruct ev; try discriminate Hev; destruct r; try discriminate Hev; cbn.
    all: try discriminate.
    injection Hev as ->. intros [= <- <- <-]. split; [reflexivity|].
    rewrite app_nil_r. cbn [app positive_fills]. rewrite positive_fills_app. cbn.
    destruct (positive_fills pre'); cbn. f_equal; lia.
  - rewrite (split_app_none attempts) by now apply split_quiet. discriminate.
Qed.

Lemma positive_fills_run code key n attempts tail u :
  run_shape attempts tail ->
  positive_fills
    ([EApprovalKey (Ok key); ESubscribe "H0STASP0" code key (Ok tt); EOrderbookSeq code n]
       ++ attempts ++ tail ++ [EUnsubscribe "H0STASP0" code key u])
  = positive_fills attempts.
Proof.
  intros Hshape. cbn [app positive_fills]. rewrite positive_fills_app.
  destruct Hshape as [[_ ->]|[(pre' & ev & e' & _ & _ & _ & ->)|[_ ->]]]; cbn;
    destruct (positive_fills attempts); cbn; f_equal; lia.
Qed.

(** C7.  A run of [ioc_buy_with_ws] that returns, returns the pair
    (total filled quantity, total notional / total quantity) of the
    positive results of its fill waits when there is at least one, and
    (0, 0.0) when there is none; the total is never negative.  The
    division is the one of Python floats: the average is the double
    nearest to the quotient, so it is the quotient up to a relative
    error of 2^-53 (or half the least subnormal), and it is the quotient
    itself when that is an integer of at most 53 bits, as when every
    fill is at one price.  The run always ends: with that pair or with
    an error, which is the error of its own approval-key request,
    subscription or unsubscription or, for a quotient of 2^1023 or more,
    the overflow of the division.  In scenario A (asks 1000 then 995,
    ten shares affordable both times, fills (10, 1000) then (5, 995),
    two attempts) the run returns 15 shares at the double nearest to
    (10 x 1000 + 5 x 995) / 15, which is within 10^-12 of it. *)
Theorem ioc_buy_returns_quantity_and_vwap :
  (forall E code session_end max_attempts cash_use_ratio w,
     let r := ioc_buy_with_ws E code session_end max_attempts cash_use_ratio w in
     let fills := positive_fills (new_events w (snd r)) in
     let quotient := (inject_Z (snd fills) / inject_Z (fst fills))%Q in
     0 <= fst fills
     /\ (forall q avg, fst r = Done (q, avg) ->
           (0 < fst fills ->
              q = fst fills
              /\ Binary64.round quotient = PFin avg
              /\ (Qabs (avg - quotient)
                  <= Qabs quotient * Binary64.pow2 (-53) + Binary64.pow2 (-1075))%Q
              /\ (forall p, snd fills = p * fst fills -> Z.abs p <= 2 ^ 53 ->
                            avg = inject_Z p))
           /\ (fst fills = 0 -> q = 0 /\ avg = 0%Q))
     /\ (forall e, fst r = Raised e ->
           (exists ev, last (new_events w (snd r)) = Some ev /\ raised_by ev = Some e
                       /\ (kind_of ev = KApprovalKey \/ kind_of ev = KSend))
           \/ (e = OverflowError /\ 0 < fst fills
               /\ (inject_Z (2 ^ 1023) <= Qabs quotient)%Q))
     /\ fst r <> OutOfFuel)
  /\ (exists avg,
        fst (ioc_buy_with_ws scenario_A "005930" 1 2 default_cash_use_ratio empty_world)
        = Done (15, avg)
        /\ Binary64.round (inject_Z (10 * 1000 + 5 * 995) / inject_Z 15) = PFin avg
        /\ (Qabs (avg - inject_Z (10 * 1000 + 5 * 995) / inject_Z 15)
            <= 1 / inject_Z (10 ^ 12))%Q).
Proof.
  split; [|exists scenario_A_avg; repeat split; vm_compute; congruence].
  intros E code se ma ratio w r fills quotient.
  split; [apply positive_fills_nonneg|].
  pose proof (ioc_buy_with_ws_run E code se ma ratio w) as H.
  subst quotient fills r. destruct (ioc_buy_with_ws E code se ma ratio w) as [o w']. cbn [fst snd].
  destruct H as (_ & [(e & -> & Ht)|[(key & e & -> & Ht)|(key & n & att & tail & u & Ht & Hs & ->)]]).
  - rewrite (new_events_app _ _ _ Ht). split; [discriminate|]. split; [|discriminate].
    intros e' [= <-]. left. eexists. cbn. eauto.
  - rewrite (new_events_app _ _ _ Ht). split; [discriminate|]. split; [|discriminate].
    intros e' [= <-]. left. eexists. cbn. eauto.
  - rewrite (new_events_app _ _ _ Ht). rewrite (positive_fills_run _ _ _ _ _ _ Hs).
    pose proof (positive_fills_nonneg att) as Hnn.
    destruct u as [[]|e].
    2:{ split; [discriminate|]. split; [|discriminate].
        intros e' [= <-]. left. eexists. rewrite !app_assoc, last_snoc. cbn. eauto. }
    unfold vwap, true_div.
    destruct (Z.eqb_spec (positive_fills att).1 0) as [H0|H0].
    { split; [|split; discriminate]. intros q avg [= <- <-]. split; [lia|auto]. }
    destruct (Binary64.round (inject_Z (positive_fills att).2 / inject_Z (positive_fills att).1))
      as [y|neg|] eqn:Hr.
    + split; [|split; discriminate]. intros q avg [= <- <-]. split; [|lia].
      intros _. split; [reflexivity|]. split; [reflexivity|]. split.
      * now apply Binary64Facts.round_error.
      * intros p Hv Hp.
        assert (Hx : (inject_Z (positive_fills att).2 / inject_Z (positive_fills att).1
                      == inject_Z p)%Q).
        { rewrite Hv, inject_Z_mult. field. intros Hz.
          apply H0. unfold Qeq in Hz. cbn in Hz. lia. }
        pose proof (Binary64Facts.round_integer _ p Hp Hx) as Hi.
        rewrite Hr in Hi. now injection Hi.
    + split; [discriminate|]. split; [|discriminate]. intros e' [= <-]. right.
      split; [reflexivity|]. split; [lia|].
      apply Qnot_lt_le. intros Hlt.
      destruct (Binary64Facts.round_finite _ Hlt) as [y Hy]. congruence.
    + split; [discriminate|]. split; [|discriminate]. intros e' [= <-]. right.
      split; [reflexivity|]. split; [lia|].
      apply Qnot_lt_le. intros Hlt.
      destruct (Binary64Facts.round_finite _ Hlt) as [y Hy]. congruence.
Qed.

Lemma ioc_buy_returns_quantity_and_vwap_witness :
  15 = 15 /\ Binary64.round (inject_Z 14975 / inject_Z 15) = PFin scenario_A_avg.
Proof.
  pose proof (proj1 (proj1 (proj2 (proj1 ioc_buy_returns_quantity_and_vwap
                                scenario_A "005930" 1 2 default_cash_use_ratio empty_world))
                       15 scenario_A_avg ltac:(vm_compute; reflexivity))
                ltac:(vm_compute; reflexivity)) as (H1 & H2 & _).
  split; [exact H1|exact H2].
Defined.

(** C10.  In every run of [ioc_buy_with_ws] and of [ioc_sell_with_ws],
    when an order-book wait raises, what follows it in the trace is the
    traceback print and the unsubscription from the order-book topic and
    nothing else (no further wait, cash inquiry, order or fill wait), and,
    the unsubscription succeeding, the function returns what the fills
    before that wait had accumulated: quantity and average price for the
    buy (the quantity and the rounded quotient of [vwap], or the
    overflow of that division), quantity and notional for the sell. *)
Theorem orderbook_wait_failure_ends_the_loop (E : Env) (code : string) :
  (forall session_end max_attempts cash_use_ratio w pre e post,
     let r := ioc_buy_with_ws E code session_end max_attempts cash_use_ratio w in
     split_at_orderbook_raise (new_events w (snd r)) = Some (pre, e, post) ->
     exists key u,
       post = [ELog (Log_traceback e); EUnsubscribe "H0STASP0" code key u]
       /\ fst r = match u with
                  | Ok _ => vwap (positive_fills pre)
                  | Raise e' => Raised e'
                  end)
  /\ (forall qty_to_sell max_attempts w pre e post,
        let r := ioc_sell_with_ws E code qty_to_sell max_attempts w in
        split_at_orderbook_raise (new_events w (snd r)) = Some (pre, e, post) ->
        exists key u,
          post = [ELog (Log_traceback e); EUnsubscribe "H0STASP0" code key u]
          /\ fst r = match u with
                     | Ok _ => Done (positive_fills pre)
                     | Raise e' => Raised e'
                     end).
Proof.
  split.
  - intros se ma ratio w pre e post r. subst r.
    pose proof (ioc_buy_with_ws_run E code se ma ratio w) as H.
    destruct (ioc_buy_with_ws E code se ma ratio w) as [o w']. cbn [fst snd].
    destruct H as (_ & [(e0 & -> & Ht)|[(key & e0 & -> & Ht)|(key & n & att & tail & u & Ht & Hs & ->)]]);
      rewrite (new_events_app _ _ _ Ht); try discriminate.
    intros Hsplit. destruct (split_run _ _ _ _ _ _ _ _ _ Hs Hsplit) as [-> Hpf].
    exists key, u. split; [reflexivity|].
    now rewrite Hpf.
  - intros q ma w pre e post r. subst r.
    pose proof (ioc_sell_with_ws_run E code q ma w) as H.
    destruct (ioc_sell_with_ws E code q ma w) as [o w']. cbn [fst snd].
    destruct H as (_ & [(e0 & -> & Ht)|[(key & e0 & -> & Ht)|(key & n & att & tail & u & Ht & Hs & ->)]]);
      rewrite (new_events_app _ _ _ Ht); try discriminate.
    intros Hsplit. destruct (split_run _ _ _ _ _ _ _ _ _ Hs Hsplit) as [-> Hpf].
    exists key, u. split; [reflexivity|].
    now rewrite Hpf.
Qed.

Lemma orderbook_wait_failure_ends_the_loop_witness :
  exists key u,
    [ELog (Log_traceback (TimeoutError "orderbook timeout"));
     EUnsubscribe "H0STASP0" "005930" "KEY" (Ok tt)]
    = [ELog (Log_traceback (TimeoutError "orderbook timeout"));
       EUnsubscribe "H0STASP0" "005930" key u]
    /\ fst quote_timeout_run
       = match u with
         | Ok _ => vwap (positive_fills quote_timeout_prefix)
         | Raise e' => Raised e'
         end.
Proof.
  apply (proj1 (orderbook_wait_failure_ends_the_loop scenario_quote_timeout "005930")
           1 3 default_cash_use_ratio empty_world quote_timeout_prefix
           (TimeoutError "orderbook timeout")).
  vm_compute. reflexivity.
Defined.

Example quote_timeout_run_result :
  fst quote_timeout_run = Done (4, 1000%Q)
  /\ new_events empty_world (snd quote_timeout_run)
     = quote_timeout_prefix
       ++ [ENextOrderbook "005930" 101 (Raise (TimeoutError "orderbook timeout"));
           ELog (Log_traceback (TimeoutError "orderbook timeout"));
           EUnsubscribe "H0STASP0" "005930" "KEY" (Ok tt)].
Proof. vm_compute. auto. Qed.

(* ===================================================================== *)
(** * The target wait and the hold phase                                  *)
(* ===================================================================== *)

Lemma calls_record k e w :
  calls k (record e w) = (calls k w + if kind_eqb (kind_of e) k then 1 else 0)%nat.
Proof.
  unfold calls, record; cbn. rewrite filter_app, length_app. f_equal.
  destruct (kind_eqb (kind_of e) k) eqn:Hk.
  - rewrite filter_cons_True by exact Hk. reflexivity.
  - rewrite filter_cons_False by (rewrite Hk; discriminate). reflexivity.
Qed.

Lemma record_extend e w l : record e (extend w l) = extend w (l ++ [e]).
Proof. unfold record, extend. cbn. now rewrite app_assoc. Qed.

Lemma record_as_extend e w : record e w = extend w [e].
Proof. reflexivity. Qed.

Lemma extend_extend w a b : extend (extend w a) b = extend w (a ++ b).
Proof. unfold extend. cbn. now rewrite app_assoc. Qed.

Section HoldFacts.
Variable E : Env.

Lemma wait_for_1pct_then_sell_run code buy_qty avg_buy w key :
  env_approval_key E (calls KApprovalKey w) = Ok key ->
  env_send E (calls KSend w) = Ok tt ->
  let r := env_trade_reach E (calls KTradeReach w) in
  let u := env_send E (S (calls KSend w)) in
  wait_for_1pct_then_sell E code buy_qty avg_buy w =
    match target_price avg_buy with
    | Raise e =>
        (Raised e, extend w [EApprovalKey (Ok key); ESubscribe "H0STCNT0" code key (Ok tt)])
    | Ok target =>
        let w1 := extend w (hold_phase_events code target avg_buy key r u) in
        match u with
        | Raise e => (Raised e, w1)
        | Ok _ =>
            let '(sold, w2) := ioc_sell_with_ws E code buy_qty 30 w1 in
            (with_flag (target_hit_of r) sold, w2)
        end
    end.
Proof.
  intros Hkey Hsub r u.
  unfold wait_for_1pct_then_sell, with_locals, get_approval_key, subscribe, trade_reach,
    unsubscribe, ask, of_result, log_, emit, try_finally, try_except, set_locals, get_locals,
    call, bind, ret, lift.
  cbn -[record calls ioc_sell_with_ws target_price].
  rewrite Hkey. cbn -[record calls ioc_sell_with_ws target_price].
  rewrite !calls_record. cbn -[record calls ioc_sell_with_ws target_price]. rewrite ?Nat.add_0_r.
  rewrite Hsub.  cbn -[record calls ioc_sell_with_ws target_price].
  destruct (target_price avg_buy) as [target|e0]; cbn -[record calls ioc_sell_with_ws].
  2:{ now rewrite !record_as_extend, !extend_extend. }
  subst r. unfold hold_phase_events.
  rewrite !calls_record; cbn -[record calls ioc_sell_with_ws]; rewrite ?Nat.add_0_r.
  destruct (env_trade_reach E (calls KTradeReach w)) as [p|e]; [|destruct (is_timeout e) eqn:He].
  all: cbn -[record calls ioc_sell_with_ws]; rewrite ?He; cbn -[record calls ioc_sell_with_ws].
  all: rewrite !calls_record; cbn -[record calls ioc_sell_with_ws]; rewrite ?Nat.add_0_r, ?Nat.add_1_r.
  all: fold u; destruct u as [[]|e']; cbn -[record calls ioc_sell_with_ws].
  all: rewrite !record_as_extend, !extend_extend; cbn [app].
  all: try reflexivity.
  all: match goal with
       | |- context [ioc_sell_with_ws ?E ?c ?q ?m ?w] =>
           destruct (ioc_sell_with_ws E c q m w) as [[[sq sv]|e0|] w2]
       end; reflexivity.
Qed.
End HoldFacts.

Section TradeReachFacts.

Variable py_float : string -> option pyfloat.
Variable py_int : string -> option Z.
Variable json_loads : string -> option json.
Variable aes_cbc_base64_decrypt : string -> string -> string -> option string.
Variable exec_tr_id : string.

Lemma wait_trade_event_facts code deadline tl : forall st now b st' now' tl',
  wait_trade_event py_float py_int json_loads aes_cbc_base64_decrypt exec_tr_id
    code deadline st now tl = (b, st', now', tl') ->
  now <= now'
  /\ (length tl' <= length tl)%nat
  /\ (b = true -> (length tl' < length tl)%nat)
  /\ (b = false -> now' = Z.max now deadline).
Proof.
  induction tl as [|[t msg] tl IH]; intros st now b st' now' tl' H; cbn in H.
  - injection H as <- <- <- <-. cbn. repeat split; try lia; discriminate.
  - destruct (t <? deadline).
    + match type of H with
      | context [is_set ?d code] => destruct (is_set d code)
      end.
      * injection H as <- <- <- <-. cbn. repeat split; try lia; discriminate.
      * apply IH in H as (H1 & H2 & H3 & H4). cbn. repeat split; auto; try lia;
          intros Hb; specialize (H3 Hb); lia.
    + injection H as <- <- <- <-. cbn. repeat split; try lia; discriminate.
Qed.

Lemma wait_trade_reach_loop_result code target session_end poll_max_wait fuel :
  forall st now tl res st' now' tl',
  wait_trade_reach_loop py_float py_int json_loads aes_cbc_base64_decrypt exec_tr_id
    fuel code target session_end poll_max_wait st now tl = Some (res, st', now', tl') ->
  match res with
  | Raise e => e = TimeoutError "trade reach timeout (session ended)" /\ session_end <= now'
  | Ok p => now' < session_end /\ _trade_price st' !! code = Some p /\ target <= p
  end.
Proof.
  induction fuel as [|fuel IH]; intros st now tl res st' now' tl' H; cbn in H; [discriminate|].
  destruct (Z.ltb_spec now session_end) as [Hlt|Hge].
  - destruct (trade_reached st code target) as [p|] eqn:Hp.
    + injection H as <- <- <- <-. split; [exact Hlt|].
      unfold trade_reached in Hp.
      destruct (_trade_price st !! code) as [p'|]; [|discriminate].
      destruct (Z.leb_spec target p'); [|discriminate].
      injection Hp as <-. auto.
    + destruct (Z.leb_spec (session_end - now) 0); [lia|].
      match type of H with
      | context [if ?c then ?a else ?b] => destruct (if c then a else b) as [[[b0 st0] now0] tl0]
      end.
      eapply IH; eauto.
  - injection H as <- <- <- <-. split; [reflexivity|lia].
Qed.

Lemma wait_trade_reach_loop_total code target session_end poll_max_wait :
  0 < poll_max_wait ->
  forall fuel st now tl,
  (length tl + Z.to_nat (session_end - now) < fuel)%nat ->
  is_Some (wait_trade_reach_loop py_float py_int json_loads aes_cbc_base64_decrypt exec_tr_id
             fuel code target session_end poll_max_wait st now tl).
Proof.
  intros Hpoll. induction fuel as [|fuel IH]; intros st now tl Hfuel; [lia|]. cbn.
  destruct (Z.ltb_spec now session_end) as [Hlt|Hge]; [|eauto].
  destruct (trade_reached st code target) as [p|]; [eauto|].
  destruct (Z.leb_spec (session_end - now) 0); [lia|].
  destruct (Z.ltb_spec 0 (Z.min poll_max_wait (session_end - now))); [|lia].
  match goal with
  | |- context [wait_trade_event _ _ _ _ _ ?c ?d ?s ?n ?t] =>
      pose proof (wait_trade_event_facts c d t s n) as Hw;
      destruct (wait_trade_event py_float py_int json_loads aes_cbc_base64_decrypt
                  exec_tr_id c d s n t) as [[[b0 st0] now0] tl0]
  end.
  specialize (Hw _ _ _ _ eq_refl) as (H1 & H2 & H3 & H4).
  apply IH. destruct b0.
  - specialize (H3 eq_refl). lia.
  - specialize (H4 eq_refl). lia.
Qed.

Lemma wait_next_orderbook_suspended_raises code last_seq end_ tl : forall st now e st' now' tl',
  wait_next_orderbook_suspended py_float py_int json_loads aes_cbc_base64_decrypt exec_tr_id
    code last_seq end_ st now tl = (Raise e, st', now', tl') ->
  e = TimeoutError "orderbook timeout".
Proof.
  induction tl as [|[t msg] tl IH]; intros st now e st' now' tl' H; cbn in H.
  - now injection H as <- _ _ _.
  - destruct (t <? end_); [|now injection H as <- _ _ _].
    match type of H with
    | context [is_set ?d code] => destruct (is_set d code)
    end; [|eauto].
    destruct (_ <? end_); [|now injection H as <- _ _ _].
    match type of H with
    | context [orderbook_ready ?s code last_seq] =>
        destruct (orderbook_ready s code last_seq); [discriminate|eauto]
    end.
Qed.

Lemma wait_next_orderbook_raises code last_seq timeout st now tl e st' now' tl' :
  wait_next_orderbook py_float py_int json_loads aes_cbc_base64_decrypt exec_tr_id
    code last_seq timeout st now tl = (Raise e, st', now', tl') ->
  e = TimeoutError "orderbook timeout".
Proof.
  unfold wait_next_orderbook. intros H.
  destruct (now <? now + timeout); [|now injection H as <- _ _ _].
  match type of H with
  | context [orderbook_ready ?s code last_seq] =>
      destruct (orderbook_ready s code last_seq); [discriminate|]
  end.
  eapply wait_next_orderbook_suspended_raises; eauto.
Qed.

End TradeReachFacts.

Lemma literal_1_01_close :
  (Qabs (Binary64.literal (101 # 100)) * Binary64.pow2 (-53)
   + Qabs (Binary64.literal (101 # 100) - (101 # 100)) <= Binary64.pow2 (-52))%Q.
Proof. vm_compute. discriminate. Qed.

(** The double product [avg_buy * 1.01] against the exact one. *)
Lemma product_1_01_close (avg_buy product : Q) :
  Binary64.round (avg_buy * Binary64.literal (101 # 100)) = PFin product ->
  (Qabs (product - avg_buy * (101 # 100))
   <= Qabs avg_buy * Binary64.pow2 (-52) + Binary64.pow2 (-1075))%Q.
Proof.
  intros Hp. apply Binary64Facts.round_error in Hp.
  set (c := Binary64.literal (101 # 100)) in *.
  pose proof literal_1_01_close as Hc. fold c in Hc.
  pose proof (Qabs_nonneg avg_buy) as Ha.
  assert (Hsplit : (product - avg_buy * (101 # 100)
                    == (product - avg_buy * c) + avg_buy * (c - (101 # 100)))%Q) by ring.
  rewrite Hsplit.
  eapply Qle_trans; [apply Qabs_triangle|].
  rewrite (Qabs_Qmult avg_buy (c - (101 # 100))).
  rewrite (Qabs_Qmult avg_buy c) in Hp.
  set (A := Qabs avg_buy) in *. set (C := Qabs c) in *.
  set (D := Qabs (c - (101 # 100))) in *.
  set (P := Qabs (product - avg_buy * c)) in *.
  set (e53 := Binary64.pow2 (-53)) in *. set (e52 := Binary64.pow2 (-52)) in *.
  set (t := Binary64.pow2 (-1075)) in *.
  assert (Hm : (A * (C * e53 + D) <= A * e52)%Q).
  { rewrite !(Qmult_comm A). now apply Qmult_le_compat_r. }
  assert (Hr : (A * (C * e53 + D) == A * C * e53 + A * D)%Q) by ring.
  rewrite Hr in Hm. clear Hr Hc Hsplit.
  apply (Qplus_le_compat _ _ (A * D) (A * D)) in Hp; [|apply Qle_refl].
  eapply Qle_trans; [exact Hp|].
  assert (Hr : (A * C * e53 + t + A * D == (A * C * e53 + A * D) + t)%Q) by ring.
  rewrite Hr. apply Qplus_le_compat; [exact Hm|apply Qle_refl].
Qed.

(** C6.  For every position (code, quantity, average buy price) with an
    average below 2^1022, with the approval key, the subscription and
    the unsubscription answered, [wait_for_1pct_then_sell] waits for the
    target ceil(avg_buy x 1.01): the least integer not below the double
    product of [avg_buy] and the double [1.01], a product that is the
    exact avg_buy x 1.01 up to a relative error of 2^-52 (or half the
    least subnormal).  Whatever the answer of the target wait (a price,
    the deadline's timeout or any other error), it logs it, unsubscribes
    from the trade-tick topic H0STCNT0 and then runs [ioc_sell_with_ws]
    for the whole bought quantity with 30 attempts; the answer of the
    target wait reaches the result only as the target-hit flag placed
    beside what the sell loop returns. *)
Theorem hold_phase_unsubscribes_then_sells_everything
    (E : Env) (code : string) (buy_qty : Z) (avg_buy : Q) (w : World) (key : string) :
  env_approval_key E (calls KApprovalKey w) = Ok key ->
  env_send E (calls KSend w) = Ok tt ->
  env_send E (S (calls KSend w)) = Ok tt ->
  (Qabs avg_buy < inject_Z (2 ^ 1022))%Q ->
  exists target product,
    let r := env_trade_reach E (calls KTradeReach w) in
    let w1 := extend w (hold_phase_events code target avg_buy key r (Ok tt)) in
    target_price avg_buy = Ok target
    /\ Binary64.round (avg_buy * Binary64.literal (101 # 100)) = PFin product
    /\ (inject_Z target - 1 < product <= inject_Z target)%Q
    /\ (Qabs (product - avg_buy * (101 # 100))
        <= Qabs avg_buy * Binary64.pow2 (-52) + Binary64.pow2 (-1075))%Q
    /\ wait_for_1pct_then_sell E code buy_qty avg_buy w =
         (with_flag (target_hit_of r) (fst (ioc_sell_with_ws E code buy_qty 30 w1)),
          snd (ioc_sell_with_ws E code buy_qty 30 w1)).
Proof.
  intros Hkey Hsub Hunsub Havg.
  destruct (Binary64Facts.round_finite (avg_buy * Binary64.literal (101 # 100)))
    as [product Hp].
  { rewrite Qabs_Qmult.
    apply Qle_lt_trans with (Qabs avg_buy * 2)%Q.
    - rewrite !(Qmult_comm (Qabs avg_buy)).
      apply Qmult_le_compat_r; [vm_compute; discriminate|apply Qabs_nonneg].
    - change (inject_Z (2 ^ 1023)) with (inject_Z (2 ^ 1022 * 2)).
      rewrite inject_Z_mult. apply Qmult_lt_compat_r; [reflexivity|exact Havg]. }
  exists (Qceiling product), product. cbv zeta.
  assert (Ht : target_price avg_buy = Ok (Qceiling product)).
  { unfold target_price. now rewrite Hp. }
  split; [exact Ht|]. split; [exact Hp|]. split; [|split].
  - split; [|apply Qle_ceiling].
    pose proof (Qceiling_lt product) as H.
    unfold Z.sub in H. rewrite inject_Z_plus, inject_Z_opp in H. exact H.
  - now apply product_1_01_close.
  - rewrite (wait_for_1pct_then_sell_run E code buy_qty avg_buy w key Hkey Hsub).
    rewrite Ht, Hunsub. cbv zeta.
    now destruct (ioc_sell_with_ws E code buy_qty 30 _).
Qed.

Lemma hold_phase_unsubscribes_then_sells_everything_witness :
  exists target product,
    let r := env_trade_reach scenario_A (calls KTradeReach empty_world) in
    let w1 := extend empty_world
                (hold_phase_events "005930" target scenario_A_avg "KEY" r (Ok tt)) in
    target_price scenario_A_avg = Ok target
    /\ Binary64.round (scenario_A_avg * Binary64.literal (101 # 100)) = PFin product
    /\ (inject_Z target - 1 < product <= inject_Z target)%Q
    /\ (Qabs (product - scenario_A_avg * (101 # 100))
        <= Qabs scenario_A_avg * Binary64.pow2 (-52) + Binary64.pow2 (-1075))%Q
    /\ wait_for_1pct_then_sell scenario_A "005930" 15 scenario_A_avg empty_world =
         (with_flag (target_hit_of r) (fst (ioc_sell_with_ws scenario_A "005930" 15 30 w1)),
          snd (ioc_sell_with_ws scenario_A "005930" 15 30 w1)).
Proof.
  apply (hold_phase_unsubscribes_then_sells_everything
           scenario_A "005930" 15 scenario_A_avg empty_world "KEY" eq_refl eq_refl eq_refl).
  vm_compute. reflexivity.
Defined.

(** The target of the code against the exact ceiling: for 100 shares at
    990 and one at 1000 the average is the double nearest to
    100000 / 101, and the target is 1001 where the exact
    ceil(100000 / 101 x 1.01) is 1000; for the double nearest to
    100100 / 101 the target is 1001 where the exact ceiling of that
    double x 1.01 is 1002.  The target 1009 of scenario A is the exact
    one. *)
Example target_price_rounds :
  true_div (100 * 990 + 1 * 1000) 101 = Ok (Binary64.literal (100000 # 101))
  /\ target_price (Binary64.literal (100000 # 101)) = Ok 1001
  /\ Qceiling ((100000 # 101) * (101 # 100)) = 1000
  /\ target_price (Binary64.literal (100100 # 101)) = Ok 1001
  /\ Qceiling (Binary64.literal (100100 # 101) * (101 # 100)) = 1002
  /\ target_price scenario_A_avg = Ok 1009
  /\ Qceiling (scenario_A_avg * (101 # 100)) = 1009.
Proof. vm_compute. repeat split. Qed.

(** C5.  [wait_trade_reach] raises only when the session deadline is
    reached, with the error "trade reach timeout (session ended)": the
    time-outs of its polls never leave it.  When it returns a price, the
    deadline is not reached and the price is the last trade price of the
    code, at or above the target; with polls of positive length it always
    ends.  The error differs from the one an order-book wait times out
    with.  When the target wait answers [wait_for_1pct_then_sell] with a
    timeout, the function (whose target [target_price] has computed)
    logs the session end, unsubscribes and runs the sell loop for the
    whole quantity: the target wait is called once, not again. *)
Theorem trade_wait_fails_at_the_deadline_only :
  (forall py_float py_int json_loads aes_cbc_base64_decrypt exec_tr_id
          code target session_end poll_max_wait st now tl,
     (forall fuel res st' now' tl',
        wait_trade_reach py_float py_int json_loads aes_cbc_base64_decrypt exec_tr_id
          fuel code target session_end poll_max_wait st now tl = Some (res, st', now', tl') ->
        match res with
        | Raise e =>
            e = TimeoutError "trade reach timeout (session ended)" /\ session_end <= now'
        | Ok p => now' < session_end /\ _trade_price st' !! code = Some p /\ target <= p
        end)
     /\ (0 < poll_max_wait ->
         forall fuel, (length tl + Z.to_nat (session_end - now) < fuel)%nat ->
           is_Some (wait_trade_reach py_float py_int json_loads aes_cbc_base64_decrypt
                      exec_tr_id fuel code target session_end poll_max_wait st now tl))
     /\ (forall last_seq timeout e st' now' tl',
           wait_next_orderbook py_float py_int json_loads aes_cbc_base64_decrypt exec_tr_id
             code last_seq timeout st now tl = (Raise e, st', now', tl') ->
           e = TimeoutError "orderbook timeout"
           /\ e <> TimeoutError "trade reach timeout (session ended)"))
  /\ (forall E code buy_qty avg_buy target w key msg,
        env_approval_key E (calls KApprovalKey w) = Ok key ->
        env_send E (calls KSend w) = Ok tt ->
        env_trade_reach E (calls KTradeReach w) = Raise (TimeoutError msg) ->
        target_price avg_buy = Ok target ->
        let u := env_send E (S (calls KSend w)) in
        let w1 := extend w [EApprovalKey (Ok key);
                            ESubscribe "H0STCNT0" code key (Ok tt);
                            ELog (Log_target target avg_buy);
                            ETradeReach code target (Raise (TimeoutError msg));
                            ELog Log_session_end_before_target;
                            EUnsubscribe "H0STCNT0" code key u] in
        wait_for_1pct_then_sell E code buy_qty avg_buy w =
          match u with
          | Raise e => (Raised e, w1)
          | Ok _ =>
              let '(sold, w2) := ioc_sell_with_ws E code buy_qty 30 w1 in
              (with_flag false sold, w2)
          end).
Proof.
  split.
  - intros py_float py_int json_loads decrypt exec_tr_id code target session_end
      poll_max_wait st now tl.
    split; [|split].
    + intros fuel res st' now' tl'. unfold wait_trade_reach.
      apply wait_trade_reach_loop_result.
    + intros Hpoll fuel Hfuel. unfold wait_trade_reach.
      now apply wait_trade_reach_loop_total.
    + intros last_seq timeout e st' now' tl' H.
      apply wait_next_orderbook_raises in H. subst e. split; [reflexivity|discriminate].
  - intros E code buy_qty avg_buy target w key msg Hkey Hsub Hreach Htarget u w1.
    rewrite (wait_for_1pct_then_sell_run E code buy_qty avg_buy w key Hkey Hsub).
    rewrite Htarget. fold u. unfold hold_phase_events. rewrite Hreach. reflexivity.
Qed.

Lemma trade_wait_fails_at_the_deadline_only_witness :
  TimeoutError "trade reach timeout (session ended)"
    = TimeoutError "trade reach timeout (session ended)"
  /\ 10 <= 10.
Proof.
  apply (proj1 (proj1 trade_wait_fails_at_the_deadline_only
                  Builtins.py_float Builtins.py_int Builtins.json_loads
                  Builtins.aes_cbc_base64_decrypt "H0STCNI0"
                  "005930" 1010 10 3 init_ws 0 [(4, trade_frame_005930)])
           10%nat (Raise (TimeoutError "trade reach timeout (session ended)"))
           (set_trade_event
              (dispatch0 (set_trade_event init_ws {["005930" := false]}) trade_frame_005930)
              (<["005930" := false]> {["005930" := true]}))
           10 []).
  vm_compute. reflexivity.
Defined.

Example deadline_wait_result :
  option_map (fun r => (fst (fst (fst r)), snd (fst r))) deadline_wait
  = Some (Raise (TimeoutError "trade reach timeout (session ended)"), 10).
Proof. vm_compute. reflexivity. Qed.

(* ===================================================================== *)
(** * The candidate scan                                                  *)
(* ===================================================================== *)

Section ScanFacts.

Variable E : Env.
Variable py_float : string -> option pyfloat.
Variable py_repr : json -> string.

Lemma pick_code_unbound {L} (item : list (string * json)) (c : string) (l : L) (w : World) :
  code_field item = JStr c ->
  py_float (py_str py_repr (rate_field item)) = None ->
  pick_code_from_ranking_item py_float py_repr item (l, w)
  = (Raised (UnboundLocalError "rate_f"), (l, record (ELog Log_conversion_float_error) w)).
Proof.
  unfold code_field, rate_field, pick_code_from_ranking_item. intros -> ->. reflexivity.
Qed.

Lemma scan_items_app {L} now (pre post : list json) : forall (s : L * World),
  scan_items py_float py_repr now (pre ++ post) s =
    match scan_items py_float py_repr now pre s with
    | (Done None, s1) => scan_items py_float py_repr now post s1
    | r => r
    end.
Proof.
  induction pre as [|it pre IH]; intros s; [reflexivity|].
  cbn [app scan_items].
  destruct it; try apply IH.
  unfold bind, get_cooldown, log_, emit, ret.
  destruct (pick_code_from_ranking_item py_float py_repr fields s) as [[[c|]|e|] s1];
    try reflexivity; [|apply IH].
  destruct (negb (PyStr.truthy c)); [apply IH|].
  destruct (cooldowns s1.2 !! c) as [last|].
  - destruct (now - last <? cooldown_window); [apply IH|reflexivity].
  - reflexivity.
Qed.

Lemma find_candidate_scan_raises {L} fuel session_end (l : L) w res e s' :
  let t := env_now E (calls KNow w) in
  let now := env_now E (S (calls KNow w)) in
  let w1 := extend w [ENow t; ERanking (Ok (JObj res)); ELog (Log_print_res (JObj res));
                      ENow now] in
  t < session_end ->
  env_ranking E (calls KRanking w) = Ok (JObj res) ->
  scan_items py_float py_repr now
    (ranking_items res ["output"; "output1"; "Output"; "Output1"]) (l, w1) = (Raised e, s') ->
  find_candidate E py_float py_repr (S fuel) session_end (l, w) = (Raised e, s').
Proof.
  intros t now w1 Ht Hrank Hscan.
  unfold find_candidate. cbn [find_candidate_loop].
  unfold bind, kst_now, get_ranking_fluctuation, ask, log_, emit, of_result.
  cbn -[record calls scan_items ranking_items].
  fold t. destruct (Z.ltb_spec t session_end); [|lia].
  cbn [fst snd]. rewrite calls_record. cbn [kind_of kind_eqb]. rewrite Nat.add_0_r, Hrank.
  cbn -[record calls scan_items ranking_items].
  rewrite !calls_record. cbn [kind_of kind_eqb]. rewrite ?Nat.add_0_r, ?Nat.add_1_r. fold now.
  rewrite !record_as_extend, !extend_extend. cbn [app]. fold w1.
  rewrite Hscan. reflexivity.
Qed.

End ScanFacts.

(** C9.  For every ranking item whose code field is a string (or
    absent) and whose change percentage [float(str(rate))] rejects,
    [pick_code_from_ranking_item] logs the conversion error and then
    raises [UnboundLocalError] for [rate_f]; an item with none of the
    four percentage keys has the text "None" converted, so it is such an
    item whenever [float] rejects that text.  The error is not handled:
    [scan_items] raises it at the first such item that it reaches (the
    items before it skipped), the items after it are not looked at, and
    [find_candidate] raises it to its caller without sleeping or asking
    for the ranking again. *)
Theorem unparseable_rate_aborts_scanning
    (E : Env) (py_float : string -> option pyfloat) (py_repr : json -> string) :
  (forall L item c (l : L) w,
     code_field item = JStr c ->
     py_float (py_str py_repr (rate_field item)) = None ->
     pick_code_from_ranking_item py_float py_repr item (l, w)
     = (Raised (UnboundLocalError "rate_f"), (l, record (ELog Log_conversion_float_error) w)))
  /\ (forall item,
        Json.assoc "prdy_ctrt" item = JNull -> Json.assoc "prdy_ctrt_1" item = JNull ->
        Json.assoc "fluc_rt" item = JNull -> Json.assoc "rate" item = JNull ->
        py_str py_repr (rate_field item) = "None")
  /\ (forall L now pre item c rest (s s1 : L * World),
        scan_items py_float py_repr now pre s = (Done None, s1) ->
        code_field item = JStr c ->
        py_float (py_str py_repr (rate_field item)) = None ->
        scan_items py_float py_repr now (pre ++ JObj item :: rest) s
        = (Raised (UnboundLocalError "rate_f"),
           (fst s1, record (ELog Log_conversion_float_error) (snd s1))))
  /\ (forall L fuel session_end (l : L) w res pre item c rest s1,
        let t := env_now E (calls KNow w) in
        let now := env_now E (S (calls KNow w)) in
        let w1 := extend w [ENow t; ERanking (Ok (JObj res));
                            ELog (Log_print_res (JObj res)); ENow now] in
        t < session_end ->
        env_ranking E (calls KRanking w) = Ok (JObj res) ->
        ranking_items res ["output"; "output1"; "Output"; "Output1"]
          = pre ++ JObj item :: rest ->
        scan_items py_float py_repr now pre (l, w1) = (Done None, s1) ->
        code_field item = JStr c ->
        py_float (py_str py_repr (rate_field item)) = None ->
        find_candidate E py_float py_repr (S fuel) session_end (l, w)
        = (Raised (UnboundLocalError "rate_f"),
           (fst s1, record (ELog Log_conversion_float_error) (snd s1)))).
Proof.
  assert (Hscan : forall L now pre item c rest (s s1 : L * World),
             scan_items py_float py_repr now pre s = (Done None, s1) ->
             code_field item = JStr c ->
             py_float (py_str py_repr (rate_field item)) = None ->
             scan_items py_float py_repr now (pre ++ JObj item :: rest) s
             = (Raised (UnboundLocalError "rate_f"),
                (fst s1, record (ELog Log_conversion_float_error) (snd s1)))).
  { intros L now pre item c rest s [l1 w1] Hpre Hcode Hrate.
    rewrite scan_items_app, Hpre. cbn [scan_items]. unfold bind.
    now rewrite (pick_code_unbound py_float py_repr item c l1 w1 Hcode Hrate). }
  split; [|split; [|split]].
  - intros L item c l w. apply pick_code_unbound.
  - intros item H1 H2 H3 H4. unfold rate_field. now rewrite H1, H2, H3, H4.
  - exact Hscan.
  - intros L fuel session_end l w res pre item c rest s1 t now w1 Ht Hrank Hitems Hpre Hcode Hrate.
    apply (find_candidate_scan_raises E py_float py_repr fuel session_end l w res); [exact Ht|exact Hrank|].
    fold t now w1. rewrite Hitems. eapply Hscan; eauto.
Qed.

Lemma unparseable_rate_aborts_scanning_witness :
  find_candidate scenario_bad_ranking Builtins.py_float Builtins.py_repr 1 10 (tt, empty_world)
  = (Raised (UnboundLocalError "rate_f"),
     (tt, extend empty_world
            [ENow 0; ERanking (Ok (JObj bad_ranking)); ELog (Log_print_res (JObj bad_ranking));
             ENow 0; ELog Log_conversion_float_error])).
Proof.
  apply (proj2 (proj2 (proj2 (unparseable_rate_aborts_scanning
                                scenario_bad_ranking Builtins.py_float Builtins.py_repr)))
           unit 0%nat 10 tt empty_world bad_ranking [JObj calm_item] unparseable_item "005930"
           [JObj calm_item]
           (tt, extend empty_world
                  [ENow 0; ERanking (Ok (JObj bad_ranking));
                   ELog (Log_print_res (JObj bad_ranking)); ENow 0])).
  all: vm_compute; reflexivity.
Defined.

Example rateless_item_raises :
  pick_code_from_ranking_item Builtins.py_float Builtins.py_repr rateless_item (tt, empty_world)
  = (Raised (UnboundLocalError "rate_f"),
     (tt, extend empty_world [ELog Log_conversion_float_error])).
Proof. reflexivity. Qed.
(* ===================================================================== *)
(** * What the session adds to the trace                                  *)
(* ===================================================================== *)

Section Appends.

Context {S : Type} (tr : S -> list event) (P : event -> Prop).










End Appends.

Section AppendsWorld.

Context {L : Type} (E : Env) (P : event -> Prop).









End AppendsWorld.


Section SessionAppends.

Variable E : Env.
Variable py_float : string -> option pyfloat.
Variable py_repr : json -> string.










End SessionAppends.

(* ===================================================================== *)
(** * The receive task                                                    *)
(* ===================================================================== *)



Section SessionTask.

Variable E : Env.
Variable py_float : string -> option pyfloat.
Variable py_repr : json -> string.



End SessionTask.




(* ===================================================================== *)
(** * The session                                                         *)
(* ===================================================================== *)

(** C4, at the failing input.  Cycle 1 buys 10 shares of A and its sell
    phase fills nothing, so the position (A, 10, 1000.0) is kept; cycle 2
    buys 5 shares of B, which replaces the kept position, and sells them,
    which clears it.  The session then ends normally with no open
    position recorded: no sell order for A was ever placed and no forced
    liquidation was attempted. *)
Theorem kept_position_is_lost_to_the_next_cycle :
  let tr := trace (snd (snd two_cycles_session)) in
  fst two_cycles_session = Done tt
  /\ EOrderFills "BUY-A" (10, 10000) ∈ tr
  /\ ELog (Log_sell_failed "A" 10) ∈ tr
  /\ open_position (fst (snd two_cycles_session)) = None
  /\ existsb (is_sell_order "A") tr = false
  /\ existsb is_force_liquidation tr = false.
Proof.
  vm_compute trace. cbv zeta.
  repeat split; try (vm_compute; reflexivity).
  - apply list_elem_of_In. vm_compute. tauto.
  - apply list_elem_of_In. vm_compute. tauto.
Qed.
(* ===================================================================== *)
(** * More on the dispatcher and the waiters                              *)
(* ===================================================================== *)

Section DispatcherFacts.

Variable py_float : string -> option pyfloat.
Variable py_int : string -> option Z.
Variable json_loads : string -> option json.
Variable aes_cbc_base64_decrypt : string -> string -> string -> option string.
Variable exec_tr_id : string.

Abbreviation handle_ := (handle_message py_float py_int json_loads aes_cbc_base64_decrypt exec_tr_id).

Lemma wait_suspended_deadline code last_seq end_ tl : forall st now res st' now' tl',
  wait_next_orderbook_suspended py_float py_int json_loads aes_cbc_base64_decrypt exec_tr_id
    code last_seq end_ st now tl = (res, st', now', tl') ->
  now < end_ ->
  now <= now'
  /\ (exists used, tl = used ++ tl')
  /\ match res with
     | Ok _ => now' < end_
     | Raise _ => end_ <= now'
     end.
Proof.
  induction tl as [|[t msg] tl IH]; intros st now res st' now' tl' H Hnow; cbn in H.
  - injection H as <- <- <- <-. (split; [|split]); [lia|now exists []|lia].
  - destruct (Z.ltb_spec t end_) as [Ht|Ht].
    + match type of H with
      | context [is_set ?d code] => destruct (is_set d code)
      end.
      * destruct (Z.ltb_spec (Z.max now t) end_) as [Hm|Hm].
        -- match type of H with
           | context [orderbook_ready ?s code last_seq] =>
               destruct (orderbook_ready s code last_seq) as [r|]
           end.
           ++ injection H as <- <- <- <-. (split; [|split]); [lia|now exists [(t, msg)]|lia].
           ++ apply IH in H as (H1 & [used ->] & H3); [|lia].
              (split; [|split]); [lia|now exists ((t, msg) :: used)|exact H3].
        -- injection H as <- <- <- <-. (split; [|split]); [lia|now exists [(t, msg)]|lia].
      * apply IH in H as (H1 & [used ->] & H3); [|lia].
        (split; [|split]); [lia|now exists ((t, msg) :: used)|exact H3].
    + injection H as <- <- <- <-. (split; [|split]); [lia|now exists []|lia].
Qed.

(** [wait_next_orderbook] keeps its deadline: a snapshot is returned
    strictly before [now + timeout], the timeout is raised no earlier
    than that, time never runs backwards and the frames not yet handled
    are a suffix of the timeline. *)
Theorem wait_next_orderbook_keeps_its_deadline code last_seq timeout st now tl res st' now' tl' :
  wait_next_orderbook py_float py_int json_loads aes_cbc_base64_decrypt exec_tr_id
    code last_seq timeout st now tl = (res, st', now', tl') ->
  now <= now'
  /\ (exists used, tl = used ++ tl')
  /\ match res with
     | Ok _ => now' < now + timeout
     | Raise e => now + timeout <= now' /\ e = TimeoutError "orderbook timeout"
     end.
Proof.
  intros H. pose proof H as H0. unfold wait_next_orderbook in H.
  destruct (Z.ltb_spec now (now + timeout)) as [Hlt|Hge].
  - match type of H with
    | context [orderbook_ready ?s code last_seq] =>
        destruct (orderbook_ready s code last_seq) as [r|]
    end.
    + injection H as <- <- <- <-. (split; [|split]); [lia|now exists []|lia].
    + apply wait_suspended_deadline in H as (H1 & H2 & H3); [|lia].
      (split; [|split]); auto. destruct res as [r|e]; [exact H3|].
      split; [exact H3|]. eapply wait_next_orderbook_raises; eauto.
  - injection H as <- <- <- <-. (split; [|split]); [lia|now exists []|split; [lia|reflexivity]].
Qed.

(** With a timeout that is not positive, [wait_next_orderbook] raises at
    once, also when a snapshot newer than [last_seq] is there; no frame
    is handled. *)
Theorem wait_next_orderbook_without_time code last_seq timeout st now tl :
  timeout <= 0 ->
  exists st',
    wait_next_orderbook py_float py_int json_loads aes_cbc_base64_decrypt exec_tr_id
      code last_seq timeout st now tl
    = (Raise (TimeoutError "orderbook timeout"), st', now, tl)
    /\ _orderbook st' = _orderbook st /\ _orderbook_seq st' = _orderbook_seq st.
Proof.
  intros Ht. unfold wait_next_orderbook.
  destruct (Z.ltb_spec now (now + timeout)); [lia|].
  eexists. split; [reflexivity|]. destruct (_orderbook_event st !! code); auto.
Qed.

(** With time left and a snapshot newer than [last_seq] in the tables,
    [wait_next_orderbook] returns it at once: no frame is handled and
    the clock does not move. *)
Theorem wait_next_orderbook_returns_what_is_there code last_seq timeout st now tl a aq b bq :
  0 < timeout ->
  _orderbook st !! code = Some (a, aq, b, bq) ->
  last_seq < seq_of st code ->
  exists st',
    wait_next_orderbook py_float py_int json_loads aes_cbc_base64_decrypt exec_tr_id
      code last_seq timeout st now tl
    = (Ok (seq_of st code, a, aq, b, bq), st', now, tl).
Proof.
  intros Ht Hob Hseq. unfold wait_next_orderbook.
  destruct (Z.ltb_spec now (now + timeout)); [|lia].
  assert (Hready : forall s, _orderbook s = _orderbook st -> _orderbook_seq s = _orderbook_seq st ->
            orderbook_ready s code last_seq = Some (seq_of st code, a, aq, b, bq)).
  { intros s H1 H2. unfold orderbook_ready, seq_of in *. rewrite H1, H2, Hob.
    destruct (Z.ltb_spec last_seq (default 0 (_orderbook_seq st !! code))); [reflexivity|lia]. }
  destruct (_orderbook_event st !! code); rewrite Hready by reflexivity; eauto.
Qed.

Lemma control_frame_keeps st m st' :
  control_frame json_loads st m = Some st' ->
  _fills_by_order st' = _fills_by_order st
  /\ _trade_price st' = _trade_price st /\ _trade_seq st' = _trade_seq st
  /\ (exists l, log st' = log st ++ l /\ (length l <= 1)%nat).
Proof.
  unfold control_frame. intros H.
  repeat (simplify_option_eq; try case_match); cbn;
    (split; [|split; [|split]]); auto.
  all: try (exists []; rewrite app_nil_r; auto; fail).
  all: try (eexists [_]; split; [reflexivity|auto]; fail).
Qed.

Lemma orderbook_frame_keeps st d st' :
  orderbook_frame py_int st d = Some st' ->
  _fills_by_order st' = _fills_by_order st
  /\ _trade_price st' = _trade_price st /\ _trade_seq st' = _trade_seq st
  /\ log st' = log st /\ _aes_key st' = _aes_key st /\ _aes_iv st' = _aes_iv st.
Proof.
  unfold orderbook_frame. intros H.
  destruct (PyStr.split "^" d !! 0%nat) as [code|]; [|discriminate]. cbn in H.
  repeat match type of H with
         | context [mbind _ ?o] => destruct o; cbn in H; [|discriminate]
         end.
  injection H as <-. cbn. auto 10.
Qed.

Lemma trade_frame_keeps st d st' :
  trade_frame py_int st d = Some st' ->
  _fills_by_order st' = _fills_by_order st /\ log st' = log st
  /\ _aes_key st' = _aes_key st /\ _aes_iv st' = _aes_iv st.
Proof.
  unfold trade_frame. intros H. simplify_option_eq. auto.
Qed.

Lemma trade_frame_seq st d st' c :
  trade_frame py_int st d = Some st' ->
  (default 0 (_trade_seq st' !! c) = default 0 (_trade_seq st !! c)
   /\ _trade_price st' !! c = _trade_price st !! c)
  \/ (default 0 (_trade_seq st' !! c) = default 0 (_trade_seq st !! c) + 1
      /\ is_Some (_trade_price st' !! c) /\ is_set (_trade_event st') c = true).
Proof.
  unfold trade_frame. intros H.
  destruct (PyStr.split "^" d !! 0%nat) as [code|]; [|discriminate]. cbn in H.
  repeat match type of H with
         | context [mbind _ ?o] => destruct o; cbn in H; [|discriminate]
         end.
  injection H as <-. cbn.
  destruct (decide (c = code)) as [->|Hne].
  - right. unfold _bump_seq, is_set, set_event. rewrite !lookup_insert_eq. cbn. eauto.
  - left. unfold _bump_seq. rewrite !lookup_insert_ne by congruence. auto.
Qed.

Lemma exec_notice_appends st plain :
  let st' := exec_notice py_float st plain in
  (exists l, log st' = log st ++ [l])
  /\ (forall o, exists q, _get_order_queue st' o = _get_order_queue st o ++ q
                          /\ (length q <= 1)%nat)
  /\ _trade_price st' = _trade_price st /\ _trade_seq st' = _trade_seq st.
Proof.
  unfold exec_notice. cbn zeta.
  match goal with |- context [if ?c then _ else _] => destruct c end; cbn.
  - split; [eauto|]. split; [|auto]. intros o. unfold _get_order_queue at 1. cbn.
    match goal with |- context [<[?k := _]> _] => destruct (decide (o = k)) as [->|Hne] end.
    + rewrite lookup_insert_eq. cbn. eexists [_]. auto.
    + rewrite lookup_insert_ne by congruence. exists []. rewrite app_nil_r. auto.
  - split; [eauto|]. split; [|auto]. intros o. exists []. rewrite app_nil_r. auto.
Qed.

Lemma exec_frame_appends st t d :
  let st' := exec_frame py_float aes_cbc_base64_decrypt st t d in
  (exists l, log st' = log st ++ l /\ (length l <= 1)%nat)
  /\ (forall o, exists q, _get_order_queue st' o = _get_order_queue st o ++ q
                          /\ (length q <= 1)%nat)
  /\ _trade_price st' = _trade_price st /\ _trade_seq st' = _trade_seq st.
Proof.
  assert (Hsame : forall s l, (length l <= 1)%nat -> log s = log st ++ l ->
            _fills_by_order s = _fills_by_order st ->
            _trade_price s = _trade_price st -> _trade_seq s = _trade_seq st ->
            (exists l, log s = log st ++ l /\ (length l <= 1)%nat)
            /\ (forall o, exists q, _get_order_queue s o = _get_order_queue st o ++ q
                                    /\ (length q <= 1)%nat)
            /\ _trade_price s = _trade_price st /\ _trade_seq s = _trade_seq st).
  { intros s l Hl Hlog Hf Hp Hs. split; [eauto|]. split; [|auto]. intros o. exists [].
    unfold _get_order_queue. rewrite Hf, app_nil_r. auto. }
  pose proof (Hsame st [] ltac:(cbn; lia) ltac:(now rewrite app_nil_r)
                eq_refl eq_refl eq_refl) as Hst.
  pose proof (Hsame (add_log st EXEC_NOTIFY_failed) [EXEC_NOTIFY_failed] ltac:(cbn; lia)
                eq_refl eq_refl eq_refl eq_refl) as Hlog.
  unfold exec_frame. cbn zeta.
  repeat case_match; subst; try exact Hst; try exact Hlog.
  match goal with
  | |- context [exec_notice _ _ ?p] =>
      destruct (exec_notice_appends st p) as ([l Hl] & Hq & Ht)
  end.
  split; [exists [l]; auto|]. split; [exact Hq|exact Ht].
Qed.

(** The dispatcher only appends: whatever the frame, the log grows by at
    most one line and every order queue by at most one fill, at its end;
    nothing queued is dropped or reordered. *)
Theorem dispatcher_only_appends st msg :
  (exists l, log (handle_ st msg) = log st ++ l /\ (length l <= 1)%nat)
  /\ (forall o, exists q, _get_order_queue (handle_ st msg) o = _get_order_queue st o ++ q
                          /\ (length q <= 1)%nat).
Proof.
  assert (Hsame : forall s l, (length l <= 1)%nat -> log s = log st ++ l ->
            _fills_by_order s = _fills_by_order st ->
            (exists l, log s = log st ++ l /\ (length l <= 1)%nat)
            /\ (forall o, exists q, _get_order_queue s o = _get_order_queue st o ++ q
                                    /\ (length q <= 1)%nat)).
  { intros s l Hl Hlog Hf. split; [eauto|]. intros o. exists [].
    unfold _get_order_queue. rewrite Hf, app_nil_r. auto. }
  pose proof (Hsame st [] ltac:(cbn; lia) ltac:(now rewrite app_nil_r) eq_refl) as Hst.
  unfold handle_message.
  destruct msg as [m|]; [|exact Hst].
  destruct (PyStr.startswith "{" m).
  { destruct (control_frame json_loads st m) as [st'|] eqn:Hcf; cbn; [|exact Hst].
    apply control_frame_keeps in Hcf as (Hf & _ & _ & l & Hl & Hn). eapply Hsame; eauto. }
  destruct (negb (PyStr.contains "|" m)); [exact Hst|].
  destruct (PyStr.split_max "|" 3 m) as [|dt [|tr [|third [|data [|]]]]]; try exact Hst.
  destruct (String.eqb tr "H0STASP0").
  { destruct (orderbook_frame py_int st data) as [st'|] eqn:Hof; cbn; [|exact Hst].
    apply orderbook_frame_keeps in Hof as (Hf & _ & _ & Hl & _).
    apply (Hsame st' []); cbn; auto. now rewrite app_nil_r. }
  destruct (String.eqb tr "H0STCNT0").
  { destruct (trade_frame py_int st data) as [st'|] eqn:Htf; cbn; [|exact Hst].
    apply trade_frame_keeps in Htf as (Hf & Hl & _).
    apply (Hsame st' []); cbn; auto. now rewrite app_nil_r. }
  destruct (String.eqb tr exec_tr_id && String.eqb dt "1"); [|exact Hst].
  destruct (exec_frame_appends st tr data) as (H1 & H2 & _). auto.
Qed.

(** Whatever the frame, the trade sequence of a code either stays as it
    is, with the last price of the code, or rises by exactly one, and
    then the code has a last price and its trade event is set. *)
Theorem trade_sequence_steps_by_one st msg c :
  (default 0 (_trade_seq (handle_ st msg) !! c) = default 0 (_trade_seq st !! c)
   /\ _trade_price (handle_ st msg) !! c = _trade_price st !! c)
  \/ (default 0 (_trade_seq (handle_ st msg) !! c) = default 0 (_trade_seq st !! c) + 1
      /\ is_Some (_trade_price (handle_ st msg) !! c)
      /\ is_set (_trade_event (handle_ st msg)) c = true).
Proof.
  assert (Hsame : forall st', _trade_price st' = _trade_price st ->
                              _trade_seq st' = _trade_seq st ->
            default 0 (_trade_seq st' !! c) = default 0 (_trade_seq st !! c)
            /\ _trade_price st' !! c = _trade_price st !! c).
  { intros st' -> ->. auto. }
  unfold handle_message.
  destruct msg as [m|]; [|left; auto].
  destruct (PyStr.startswith "{" m).
  { destruct (control_frame json_loads st m) as [st'|] eqn:Hcf; cbn; [|left; auto].
    apply control_frame_keeps in Hcf as (_ & Hp & Hs & _). left. auto. }
  destruct (negb (PyStr.contains "|" m)); [left; auto|].
  destruct (PyStr.split_max "|" 3 m) as [|dt [|tr [|third [|data [|]]]]]; try (left; auto; fail).
  destruct (String.eqb tr "H0STASP0").
  { destruct (orderbook_frame py_int st data) as [st'|] eqn:Hof; cbn; [|left; auto].
    apply orderbook_frame_keeps in Hof as (_ & Hp & Hs & _). left. auto. }
  destruct (String.eqb tr "H0STCNT0").
  { destruct (trade_frame py_int st data) as [st'|] eqn:Htf; cbn; [|left; auto].
    eapply trade_frame_seq; eauto. }
  destruct (String.eqb tr exec_tr_id && String.eqb dt "1"); [|left; auto].
  destruct (exec_frame_appends st tr data) as (_ & _ & Hp & Hs). left. auto.
Qed.

Lemma handle_without_key st msg :
  match msg with Text m => PyStr.startswith "{" m = false | Binary => True end ->
  _aes_key st !! exec_tr_id = None \/ _aes_iv st !! exec_tr_id = None ->
  _fills_by_order (handle_ st msg) = _fills_by_order st
  /\ _aes_key (handle_ st msg) = _aes_key st /\ _aes_iv (handle_ st msg) = _aes_iv st.
Proof.
  intros Hmsg Hkey. unfold handle_message.
  destruct msg as [m|]; [|auto]. rewrite Hmsg.
  destruct (negb (PyStr.contains "|" m)); [auto|].
  destruct (PyStr.split_max "|" 3 m) as [|dt [|tr [|third [|data [|]]]]]; auto.
  destruct (String.eqb tr "H0STASP0").
  { destruct (orderbook_frame py_int st data) as [st'|] eqn:Hof; cbn; [|auto].
    apply orderbook_frame_keeps in Hof as (Hf & _ & _ & _ & Hk & Hi). auto. }
  destruct (String.eqb tr "H0STCNT0").
  { destruct (trade_frame py_int st data) as [st'|] eqn:Htf; cbn; [|auto].
    apply trade_frame_keeps in Htf as (Hf & _ & Hk & Hi). auto. }
  destruct (String.eqb_spec tr exec_tr_id) as [->|]; [|auto]. cbn.
  destruct (String.eqb dt "1"); [|auto].
  unfold exec_frame. destruct Hkey as [-> | ->]; [auto|].
  destruct (_aes_key st !! exec_tr_id); auto.
Qed.

(** Until a control frame delivers the key and the iv of the private
    channel, nothing is queued: frames that are not control frames leave
    every order queue, and the key tables, as they are. *)
Theorem no_fill_before_the_key st msgs :
  Forall (fun msg => match msg with
                     | Text m => PyStr.startswith "{" m = false
                     | Binary => True
                     end) msgs ->
  _aes_key st !! exec_tr_id = None \/ _aes_iv st !! exec_tr_id = None ->
  _fills_by_order (foldl handle_ st msgs) = _fills_by_order st.
Proof.
  intros Hmsgs. revert st. induction Hmsgs as [|msg msgs Hmsg _ IH]; intros st Hkey; cbn.
  - reflexivity.
  - destruct (handle_without_key st msg Hmsg Hkey) as (Hf & Hk & Hi).
    rewrite IH; [exact Hf|]. now rewrite Hk, Hi.
Qed.

End DispatcherFacts.
Lemma wait_next_orderbook_keeps_its_deadline_witness :
  0 <= snd (fst first_wait)
  /\ (exists used, [(100, orderbook_frame_005930)] = used ++ snd first_wait)
  /\ snd (fst first_wait) < 0 + 5000.
Proof.
  apply (wait_next_orderbook_keeps_its_deadline Builtins.py_float Builtins.py_int
           Builtins.json_loads Builtins.aes_cbc_base64_decrypt "H0STCNI0"
           "005930" 0 5000 init_ws 0 [(100, orderbook_frame_005930)]
           (Ok (1, 1000, 7, 995, 9)) (snd (fst (fst first_wait)))).
  vm_compute. reflexivity.
Defined.

Lemma wait_next_orderbook_without_time_witness :
  exists st',
    wait_next_orderbook0 "005930" 0 0 snapshot_state 50 []
    = (Raise (TimeoutError "orderbook timeout"), st', 50, [])
    /\ _orderbook st' = _orderbook snapshot_state
    /\ _orderbook_seq st' = _orderbook_seq snapshot_state.
Proof.
  apply (wait_next_orderbook_without_time Builtins.py_float Builtins.py_int
           Builtins.json_loads Builtins.aes_cbc_base64_decrypt "H0STCNI0"
           "005930" 0 0 snapshot_state 50 []).
  lia.
Defined.

Lemma wait_next_orderbook_returns_what_is_there_witness :
  exists st',
    wait_next_orderbook0 "005930" 0 5000 snapshot_state 50 [(60, private_frame)]
    = (Ok (seq_of snapshot_state "005930", 1000, 7, 995, 9), st', 50, [(60, private_frame)]).
Proof.
  apply (wait_next_orderbook_returns_what_is_there Builtins.py_float Builtins.py_int
           Builtins.json_loads Builtins.aes_cbc_base64_decrypt "H0STCNI0"
           "005930" 0 5000 snapshot_state 50 [(60, private_frame)] 1000 7 995 9).
  - lia.
  - vm_compute. reflexivity.
  - vm_compute. reflexivity.
Defined.

Lemma no_fill_before_the_key_witness :
  _fills_by_order (foldl dispatch0 init_ws [private_frame; Binary; orderbook_frame_005930])
  = _fills_by_order init_ws.
Proof.
  apply (no_fill_before_the_key Builtins.py_float Builtins.py_int
           Builtins.json_loads Builtins.aes_cbc_base64_decrypt "H0STCNI0"
           init_ws [private_frame; Binary; orderbook_frame_005930]).
  - repeat constructor.
  - left. reflexivity.
Defined.
(* ===================================================================== *)
(** * More on the candidate scan                                          *)
(* ===================================================================== *)

Section CandidateFacts.

Variable E : Env.
Variable py_float : string -> option pyfloat.
Variable py_repr : json -> string.

Lemma pick_code_done {L} item r (s s' : L * World) :
  pick_code_from_ranking_item py_float py_repr item s = (Done r, s') ->
  s' = s
  /\ match r with
     | Some c => PyStr.truthy c = true
     | None => True
     end.
Proof.
  unfold pick_code_from_ranking_item. intros H.
  destruct (py_or _ (JStr "")) as [| | |c| |]; try discriminate.
  destruct (py_float _) as [f|]; cbn -[pyfloat_le] in H; [|discriminate].
  destruct (pyfloat_le (PFin 20) f && pyfloat_le f (PFin 28) && PyStr.truthy (PyStr.strip c))
    eqn:Hc; injection H as <- <-; [|auto].
  apply andb_true_iff in Hc as [_ Hc]. auto.
Qed.

(** A rate that parses to the rational [q] picks the item exactly when
    20 <= q <= 28, both ends included, and the stripped code is not
    empty; what is picked is the stripped code, and nothing is logged. *)
Theorem pick_code_takes_rates_from_20_to_28 {L} item c q (s : L * World) :
  code_field item = JStr c ->
  py_float (py_str py_repr (rate_field item)) = Some (PFin q) ->
  exists r,
    pick_code_from_ranking_item py_float py_repr item s = (Done r, s)
    /\ (r = Some (PyStr.strip c) \/ r = None)
    /\ (r = Some (PyStr.strip c) <-> (20 <= q /\ q <= 28)%Q /\ PyStr.strip c <> "").
Proof.
  unfold code_field, rate_field, pick_code_from_ranking_item. intros -> ->. cbn.
  destruct (Qle_bool 20 q) eqn:H20; destruct (Qle_bool q 28) eqn:H28; cbn.
  1: destruct (PyStr.strip c) as [|a c'] eqn:Hc; cbn.
  all: eexists; split; [reflexivity|]; split; [auto|].
  all: rewrite <- ?Qle_bool_iff; try rewrite H20; try rewrite H28.
  all: split; [intros; try discriminate| intros [[? ?] ?]; try discriminate; try congruence].
  split; [auto|discriminate].
Qed.

(** A rate that parses to a NaN or an infinity picks nothing. *)
Theorem pick_code_skips_nan_and_infinities {L} item c f (s : L * World) :
  code_field item = JStr c ->
  py_float (py_str py_repr (rate_field item)) = Some f ->
  (forall q, f <> PFin q) ->
  pick_code_from_ranking_item py_float py_repr item s = (Done None, s).
Proof.
  unfold code_field, rate_field, pick_code_from_ranking_item. intros -> -> Hf. cbn.
  destruct f as [q|[]|]; try reflexivity. now destruct (Hf q).
Qed.

Lemma scan_items_done {L} now items : forall r (s s' : L * World),
  scan_items py_float py_repr now items s = (Done r, s') ->
  match r with
  | Some c =>
      s' = (fst s, record (ELog (Log_candidate_picked c)) (snd s))
      /\ PyStr.truthy c = true
      /\ (forall last, cooldowns (snd s) !! c = Some last -> cooldown_window <= now - last)
  | None => s' = s
  end.
Proof.
  induction items as [|it items IH]; intros r s s' H; cbn in H.
  - injection H as <- <-. reflexivity.
  - destruct it; try (apply IH; exact H).
    unfold bind in H.
    destruct (pick_code_from_ranking_item py_float py_repr fields s) as [[[c|]|e|] s1] eqn:Hp;
      try discriminate.
    + apply pick_code_done in Hp as [-> Hc]. rewrite Hc in H. cbn in H.
      unfold get_cooldown, log_, emit, ret in H. cbn in H.
      destruct (cooldowns s.2 !! c) as [last|] eqn:Hlast.
      * destruct (Z.ltb_spec (now - last) cooldown_window); [apply IH; exact H|].
        injection H as <- <-. repeat split; auto.
        intros last' Hl. rewrite Hlast in Hl. injection Hl as <-. lia.
      * injection H as <- <-. repeat split; auto.
        intros last' Hl. rewrite Hlast in Hl. discriminate.
    + apply pick_code_done in Hp as [-> _]. apply IH; exact H.
Qed.

Lemma last_now_record e w :
  last_now (trace (record e w)) = match e with ENow t => Some t | _ => last_now (trace w) end.
Proof. unfold last_now, record. cbn. rewrite foldl_app. cbn. now destruct e. Qed.

Lemma find_candidate_loop_done {L} fuel session_end : forall try_cnt r (l l' : L) w w',
  find_candidate_loop E py_float py_repr fuel session_end try_cnt (l, w) = (Done r, (l', w')) ->
  l' = l /\ cooldowns w' = cooldowns w
  /\ match r with
     | Some c =>
         c <> ""
         /\ exists now, last_now (trace w') = Some now
              /\ forall last, cooldowns w !! c = Some last -> cooldown_window <= now - last
     | None => exists t, last (trace w') = Some (ENow t) /\ session_end <= t
     end.
Proof.
  induction fuel as [|fuel IH]; intros try_cnt r l l' w w' H; [discriminate|].
  cbn [find_candidate_loop] in H.
  unfold bind, kst_now, get_ranking_fluctuation, ask, of_result, sleep, log_, emit, ret, raise
    in H.
  cbn -[record calls scan_items ranking_items find_candidate_loop] in H.
  destruct (Z.ltb_spec (env_now E (calls KNow w)) session_end) as [Ht|Ht].
  2:{ injection H as <- <- <-. repeat split; auto.
      eexists. split; [apply last_snoc|exact Ht]. }
  destruct (env_ranking E _) as [res|e]; [|discriminate].
  destruct (try_cnt <? 10); cbn -[record calls scan_items ranking_items find_candidate_loop] in H.
  all: destruct res as [| | | | |d]; try discriminate.
  all: match type of H with
       | context [scan_items _ _ ?n ?i ?s] =>
           destruct (scan_items py_float py_repr n i s) as [[[c|]|e|] [l1 w1]] eqn:Hs;
             try discriminate;
             apply scan_items_done in Hs
       end.
  all: cbn [fst snd] in Hs.
  1,3: destruct Hs as ([= -> ->] & Hc & Hcool); injection H as <- <- <-;
       (split; [reflexivity|]); (split; [reflexivity|]);
       (split; [now destruct c|]);
       eexists; (split; [rewrite !last_now_record; reflexivity|]); exact Hcool.
  all: injection Hs as -> ->.
  all: apply IH in H as (-> & Hcd & Hr); (split; [reflexivity|]); (split; [exact Hcd|]).
  all: destruct r as [c|]; [|exact Hr].
  all: destruct Hr as (Hc & now & Hnow & Hcool); (split; [exact Hc|]);
       exists now; (split; [exact Hnow|]); exact Hcool.
Qed.

(** What [find_candidate] returns.  A code it returns is not empty and is
    not in cool-down: its entry in the cool-down table, if it has one, is
    at least 20 minutes older than the last reading of the clock.  It
    returns no code only when the last thing it did was to read the
    clock at or after the end of the session.  The cool-down table is
    not changed. *)
Theorem find_candidate_respects_the_cooldown {L} fuel session_end r (l l' : L) w w' :
  find_candidate E py_float py_repr fuel session_end (l, w) = (Done r, (l', w')) ->
  l' = l /\ cooldowns w' = cooldowns w
  /\ match r with
     | Some c =>
         c <> ""
         /\ exists now, last_now (trace w') = Some now
              /\ forall last, cooldowns w !! c = Some last -> cooldown_window <= now - last
     | None => exists t, last (trace w') = Some (ENow t) /\ session_end <= t
     end.
Proof. apply find_candidate_loop_done. Qed.

End CandidateFacts.
Lemma pick_code_takes_rates_from_20_to_28_witness :
  exists r,
    pick_code_from_ranking_item Builtins.py_float Builtins.py_repr boundary_item (tt, empty_world)
    = (Done r, (tt, empty_world))
    /\ (r = Some (PyStr.strip " 005930 ") \/ r = None)
    /\ (r = Some (PyStr.strip " 005930 ")
        <-> (20 <= 28 # 1 /\ 28 # 1 <= 28)%Q /\ PyStr.strip " 005930 " <> "").
Proof.
  apply (pick_code_takes_rates_from_20_to_28 Builtins.py_float Builtins.py_repr
           boundary_item " 005930 " (28 # 1) (tt, empty_world)); reflexivity.
Defined.

Lemma pick_code_skips_nan_and_infinities_witness :
  pick_code_from_ranking_item (fun _ => Some PNaN) Builtins.py_repr boundary_item
    (tt, empty_world)
  = (Done None, (tt, empty_world)).
Proof.
  apply (pick_code_skips_nan_and_infinities (fun _ => Some PNaN) Builtins.py_repr
           boundary_item " 005930 " PNaN (tt, empty_world)); [reflexivity|reflexivity|].
  intros q. discriminate.
Defined.

Lemma find_candidate_respects_the_cooldown_witness :
  tt = tt /\ cooldowns (snd (snd first_scan)) = cooldowns empty_world
  /\ "A" <> ""
  /\ exists now, last_now (trace (snd (snd first_scan))) = Some now
       /\ forall last, cooldowns empty_world !! "A" = Some last -> cooldown_window <= now - last.
Proof.
  apply (find_candidate_respects_the_cooldown scenario_two_cycles Builtins.py_float
           Builtins.py_repr 5 1000 (Some "A") tt tt empty_world (snd (snd first_scan))).
  vm_compute. reflexivity.
Defined.
(* ===================================================================== *)
(** * More on the IOC loops                                               *)
(* ===================================================================== *)

(** ** Invariants of a loop of attempts

    [I k l new] relates the number [k] of attempts made, the locals [l]
    and the interactions [new] of the loop so far. *)
Section LoopInvariant.

Context {L : Type}.
Variable body : Z -> M (L * World) ctl.
Variable I : nat -> L -> list event -> Prop.

Hypothesis step : forall k i l w new0,
  I k l new0 ->
  exists new, trace (snd (snd (body i (l, w)))) = trace w ++ new
              /\ I (S k) (fst (snd (body i (l, w)))) (new0 ++ new).

Hypothesis ends : forall i s, fst (body i s) <> OutOfFuel.

Lemma for_range_step n i (s : L * World) :
  for_range (S n) i body s =
    match body i s with
    | (Done Next, s') => for_range n (i + 1) body s'
    | (Done Break, s') => (Done tt, s')
    | (Raised e, s') => (Raised e, s')
    | (OutOfFuel, s') => (OutOfFuel, s')
    end.
Proof.
  cbn [for_range]. unfold bind. destruct (body i s) as [[[]|e|] s']; reflexivity.
Qed.

Lemma for_range_invariant n : forall k i l w new0,
  I k l new0 ->
  exists new m,
    trace (snd (snd (for_range n i body (l, w)))) = trace w ++ new
    /\ (m <= k + n)%nat
    /\ I m (fst (snd (for_range n i body (l, w)))) (new0 ++ new)
    /\ fst (for_range n i body (l, w)) <> OutOfFuel.
Proof.
  induction n as [|n IH]; intros k i l w new0 HI.
  - exists [], k. cbn. rewrite !app_nil_r. repeat split; [lia|exact HI|discriminate].
  - rewrite for_range_step.
    destruct (step k i l w new0 HI) as (new1 & Ht1 & HI1).
    pose proof (ends i (l, w)) as Hends.
    destruct (body i (l, w)) as [[c|e|] [l1 w1]]; cbn [fst snd] in *.
    + destruct c.
      * destruct (IH (S k) (i + 1) l1 w1 (new0 ++ new1) HI1)
          as (new2 & m & Ht2 & Hm & HI2 & Hout).
        exists (new1 ++ new2), m. cbn. rewrite Ht2, Ht1, !app_assoc.
        split; [reflexivity|]. split; [lia|]. split; [exact HI2|exact Hout].
      * exists new1, (S k). cbn. repeat split; [exact Ht1|lia|exact HI1|discriminate].
    + exists new1, (S k). cbn. repeat split; [exact Ht1|lia|exact HI1|discriminate].
    + now contradiction Hends.
Qed.

End LoopInvariant.

Section RunInvariant.

Variable E : Env.

Lemma buy_attempt_ends code se ma ratio i s :
  fst (buy_attempt E code se ma ratio i s) <> OutOfFuel.
Proof.
  destruct s as [l w]. pose proof (buy_attempt_post E code se ma ratio i l w) as H.
  destruct (buy_attempt E code se ma ratio i (l, w)) as [[c|e|] [l' w']]; try discriminate.
  now destruct H as (? & _ & _ & _ & _ & ?).
Qed.

Lemma sell_attempt_ends code ma i s :
  fst (sell_attempt E code ma i s) <> OutOfFuel.
Proof.
  destruct s as [l w]. pose proof (sell_attempt_post E code ma i l w) as H.
  destruct (sell_attempt E code ma i (l, w)) as [[c|e|] [l' w']]; try discriminate.
  now destruct H as (? & _ & _ & _ & _ & ?).
Qed.

(** An invariant of the attempts of [ioc_buy_with_ws] holds of the
    attempts of every run. *)
Lemma ioc_buy_with_ws_invariant (I : nat -> buy_locals -> list event -> Prop)
    code se ma ratio w :
  (forall seq, I 0%nat {| total_qty := 0; total_value := 0; buy_last_seq := seq |} []) ->
  (forall k i l w new0, I k l new0 ->
     exists new,
       trace (snd (snd (buy_attempt E code se ma ratio i (l, w)))) = trace w ++ new
       /\ I (S k) (fst (snd (buy_attempt E code se ma ratio i (l, w)))) (new0 ++ new)) ->
  let new := new_events w (snd (ioc_buy_with_ws E code se ma ratio w)) in
  (exists r, new = [EApprovalKey r])
  \/ (exists key r, new = [EApprovalKey (Ok key); ESubscribe "H0STASP0" code key r])
  \/ (exists key n attempts tail u m l,
        new = [EApprovalKey (Ok key); ESubscribe "H0STASP0" code key (Ok tt);
               EOrderbookSeq code n]
              ++ attempts ++ tail ++ [EUnsubscribe "H0STASP0" code key u]
        /\ (m <= Z.to_nat ma)%nat /\ I m l attempts
        /\ (tail = [] \/ exists e, tail = [ELog (Log_traceback e)])).
Proof.
  intros Hinit Hstep new. subst new.
  unfold ioc_buy_with_ws, with_locals, get_approval_key, subscribe, orderbook_seq,
    unsubscribe, ask, of_result, bind, get_locals, set_locals, ret,
    try_finally, try_except, any_exception, log_, emit.
  cbn.
  destruct (env_approval_key E (calls KApprovalKey w)) as [key|e]; cbn.
  2:{ left. eexists. unfold new_events. cbn. now rewrite drop_app_length. }
  destruct (env_send E _) as [[]|e]; cbn.
  2:{ right. left. exists key. eexists. unfold new_events. cbn.
      now rewrite <- app_assoc, drop_app_length. }
  match goal with
  | |- context [for_range ?n ?i ?b (?l, ?w0)] =>
      destruct (for_range_invariant b I Hstep (buy_attempt_ends code se ma ratio)
                  n 0%nat i l w0 [] (Hinit _))
        as (att & m & Ht & Hm & HI & Hout);
      destruct (for_range n i b (l, w0)) as [o [l' w']]
  end.
  cbn in Ht, HI, Hm, Hout. right. right.
  destruct o as [[]|e|]; cbn.
  - destruct (env_send E (calls KSend w')) as [[]|e] eqn:Hu; cbn.
    all: try (unfold buy_result, lift, bind, ret; destruct (total_qty l' <=? 0); cbn;
              try (destruct (true_div _ _); cbn)).
    all: eexists key, _, att, [], _, m, l'.
    all: (split; [|split; [|split]]); [|exact Hm|exact HI|left; reflexivity].
    all: unfold new_events; cbn; rewrite Ht, <- !app_assoc, drop_app_length; reflexivity.
  - match goal with |- context [env_send E ?i] => destruct (env_send E i) as [[]|e'] eqn:Hu end.
    all: cbn.
    all: try (unfold buy_result, lift, bind, ret; destruct (total_qty l' <=? 0); cbn;
              try (destruct (true_div _ _); cbn)).
    all: eexists key, _, att, [ELog (Log_traceback e)], _, m, l'.
    all: (split; [|split; [|split]]); [|exact Hm|exact HI|right; eauto].
    all: unfold new_events; cbn; rewrite Ht, <- !app_assoc, drop_app_length; reflexivity.
  - now contradiction Hout.
Qed.


(** An invariant of the attempts of [ioc_sell_with_ws] holds of the
    attempts of every run. *)
Lemma ioc_sell_with_ws_invariant (I : nat -> sell_locals -> list event -> Prop)
    code qty_to_sell ma w :
  (forall seq, I 0%nat {| remain := qty_to_sell; sold_qty := 0; sold_value := 0;
                          sell_last_seq := seq |} []) ->
  (forall k i l w new0, I k l new0 ->
     exists new,
       trace (snd (snd (sell_attempt E code ma i (l, w)))) = trace w ++ new
       /\ I (S k) (fst (snd (sell_attempt E code ma i (l, w)))) (new0 ++ new)) ->
  let new := new_events w (snd (ioc_sell_with_ws E code qty_to_sell ma w)) in
  (exists r, new = [EApprovalKey r])
  \/ (exists key r, new = [EApprovalKey (Ok key); ESubscribe "H0STASP0" code key r])
  \/ (exists key n attempts tail u m l,
        new = [EApprovalKey (Ok key); ESubscribe "H0STASP0" code key (Ok tt);
               EOrderbookSeq code n]
              ++ attempts ++ tail ++ [EUnsubscribe "H0STASP0" code key u]
        /\ (m <= Z.to_nat ma)%nat /\ I m l attempts
        /\ (tail = [] \/ exists e, tail = [ELog (Log_traceback e)])).
Proof.
  intros Hinit Hstep new. subst new.
  unfold ioc_sell_with_ws, with_locals, get_approval_key, subscribe, orderbook_seq,
    unsubscribe, ask, of_result, bind, get_locals, set_locals, ret,
    try_finally, try_except, any_exception, log_, emit.
  cbn.
  destruct (env_approval_key E (calls KApprovalKey w)) as [key|e]; cbn.
  2:{ left. eexists. unfold new_events. cbn. now rewrite drop_app_length. }
  destruct (env_send E _) as [[]|e]; cbn.
  2:{ right. left. exists key. eexists. unfold new_events. cbn.
      now rewrite <- app_assoc, drop_app_length. }
  match goal with
  | |- context [for_range ?n ?i ?b (?l, ?w0)] =>
      destruct (for_range_invariant b I Hstep (sell_attempt_ends code ma)
                  n 0%nat i l w0 [] (Hinit _))
        as (att & m & Ht & Hm & HI & Hout);
      destruct (for_range n i b (l, w0)) as [o [l' w']]
  end.
  cbn in Ht, HI, Hm, Hout. right. right.
  destruct o as [[]|e|]; cbn.
  - destruct (env_send E (calls KSend w')) as [[]|e] eqn:Hu; cbn.
    all: eexists key, _, att, [], _, m, l'.
    all: (split; [|split; [|split]]); [|exact Hm|exact HI|left; reflexivity].
    all: unfold new_events; cbn; rewrite Ht, <- !app_assoc, drop_app_length; reflexivity.
  - match goal with |- context [env_send E ?i] => destruct (env_send E i) as [[]|e'] eqn:Hu end.
    all: cbn; eexists key, _, att, [ELog (Log_traceback e)], _, m, l'.
    all: (split; [|split; [|split]]); [|exact Hm|exact HI|right; eauto].
    all: unfold new_events; cbn; rewrite Ht, <- !app_assoc, drop_app_length; reflexivity.
  - now contradiction Hout.
Qed.

End RunInvariant.

Lemma count_kind_app k a b : count_kind k (a ++ b) = (count_kind k a + count_kind k b)%nat.
Proof. induction a as [|ev a IH]; cbn; [reflexivity|]. rewrite IH. lia. Qed.

Lemma count_if_app f a b : count_if f (a ++ b) = (count_if f a + count_if f b)%nat.
Proof. induction a as [|ev a IH]; cbn; [reflexivity|]. rewrite IH. lia. Qed.

(** Subscriptions and unsubscriptions are among the [ws.send] calls. *)
Lemma count_sends tr :
  (count_if is_subscribe tr + count_if is_unsubscribe tr = count_kind KSend tr)%nat.
Proof.
  induction tr as [|ev tr IH]; [reflexivity|].
  cbn [count_if count_kind]. rewrite <- IH. destruct ev; cbn; lia.
Qed.

Lemma watch_app {S} (step : S -> event -> option S) a b : forall s,
  watch step s (a ++ b) = watch step s a ≫= fun s' => watch step s' b.
Proof.
  induction a as [|ev a IH]; intros s; cbn; [reflexivity|].
  destruct (step s ev); [apply IH|reflexivity].
Qed.

Lemma buy_order_ok_intro session_end ratio t p cash scaled :
  int_of_scaled cash ratio = Ok scaled ->
  t < session_end -> 0 < p -> 0 < scaled / p ->
  buy_order_ok session_end ratio t p cash (scaled / p) p = true.
Proof.
  intros Hs Ht Hp Hq. unfold buy_order_ok. rewrite Hs.
  pose proof (Z.mul_div_le scaled p Hp).
  rewrite Z.eqb_refl.
  destruct (Z.ltb_spec t session_end); [|lia].
  destruct (Z.ltb_spec 0 p); [|lia].
  destruct (Z.ltb_spec 0 (scaled / p)); [|lia].
  destruct (Z.leb_spec (scaled / p * p) scaled); [reflexivity|lia].
Qed.

Section OrderFacts.

Variable E : Env.

(** Symbolic execution of one attempt, down to its new interactions. *)
Ltac run_attempt :=
  unfold buy_attempt, sell_attempt, bind, ret, lift, kst_now, next_orderbook,
    inquire_psbl_cash, order_cash, order_fills, log_, emit, ask, get_locals, set_locals,
    of_result;
  cbn;
  repeat (case_match; cbn); simplify_eq; cbn;
  rewrite <- ?app_assoc; cbn [app];
  first [ eexists; split; [reflexivity|] | exists []; split; [now rewrite app_nil_r|] ].

Lemma buy_attempt_counts code se ma ratio k i l w new0 :
  (count_kind KNextOrderbook new0 <= k /\ count_kind KOrderCash new0 <= k)%nat ->
  exists new,
    trace (snd (snd (buy_attempt E code se ma ratio i (l, w)))) = trace w ++ new
    /\ (count_kind KNextOrderbook (new0 ++ new) <= S k
        /\ count_kind KOrderCash (new0 ++ new) <= S k)%nat.
Proof.
  intros [H1 H2]. run_attempt.
  all: rewrite !count_kind_app; cbn; lia.
Qed.

Lemma sell_attempt_counts code ma k i l w new0 :
  (count_kind KNextOrderbook new0 <= k /\ count_kind KOrderCash new0 <= k)%nat ->
  exists new,
    trace (snd (snd (sell_attempt E code ma i (l, w)))) = trace w ++ new
    /\ (count_kind KNextOrderbook (new0 ++ new) <= S k
        /\ count_kind KOrderCash (new0 ++ new) <= S k)%nat.
Proof.
  intros [H1 H2]. run_attempt.
  all: rewrite !count_kind_app; cbn; lia.
Qed.

(** Both loops are bounded by [max_attempts]: however the environment
    answers, a run of [ioc_buy_with_ws] or of [ioc_sell_with_ws] waits
    for at most [max_attempts] order books and places at most
    [max_attempts] orders (none at all when [max_attempts] is not
    positive), and it sends at most one subscription and at most one
    unsubscription, which are all its [ws.send] calls. *)
Theorem ioc_loops_make_at_most_max_attempts code session_end qty_to_sell max_attempts
    cash_use_ratio w :
  let bought := new_events w (snd (ioc_buy_with_ws E code session_end max_attempts
                                     cash_use_ratio w)) in
  let sold := new_events w (snd (ioc_sell_with_ws E code qty_to_sell max_attempts w)) in
  (count_kind KNextOrderbook bought <= Z.to_nat max_attempts
   /\ count_kind KOrderCash bought <= Z.to_nat max_attempts
   /\ count_if is_subscribe bought <= 1
   /\ count_if is_unsubscribe bought <= 1
   /\ count_kind KSend bought = count_if is_subscribe bought + count_if is_unsubscribe bought)%nat
  /\ (count_kind KNextOrderbook sold <= Z.to_nat max_attempts
      /\ count_kind KOrderCash sold <= Z.to_nat max_attempts
      /\ count_if is_subscribe sold <= 1
      /\ count_if is_unsubscribe sold <= 1
      /\ count_kind KSend sold = count_if is_subscribe sold + count_if is_unsubscribe sold)%nat.
Proof.
  set (I := fun (k : nat) (new : list event) =>
              (count_kind KNextOrderbook new <= k /\ count_kind KOrderCash new <= k
               /\ count_kind KSend new = 0)%nat).
  assert (Hquiet : forall tr, count_kind KSend tr = 0%nat ->
                     count_if is_subscribe tr = 0%nat /\ count_if is_unsubscribe tr = 0%nat).
  { intros tr H. pose proof (count_sends tr). lia. }
  split.
  - destruct (ioc_buy_with_ws_invariant E (fun k _ new => I k new)
                code session_end max_attempts cash_use_ratio w)
      as [[r ->]|[(key & r & ->)|(key & n & att & tail & u & m & l & -> & Hm & HI & Htail)]].
    + intros seq. unfold I. cbn. lia.
    + intros k i l w0 new0 (H1 & H2 & H3). unfold I. run_attempt.
      all: rewrite !count_kind_app; cbn; lia.
    + cbn. lia.
    + cbn. lia.
    + destruct HI as (H1 & H2 & H3). destruct (Hquiet att H3) as [H4 H5].
      destruct Htail as [->|[e ->]]; cbn; rewrite !count_kind_app, !count_if_app; cbn; lia.
  - destruct (ioc_sell_with_ws_invariant E (fun k _ new => I k new)
                code qty_to_sell max_attempts w)
      as [[r ->]|[(key & r & ->)|(key & n & att & tail & u & m & l & -> & Hm & HI & Htail)]].
    + intros seq. unfold I. cbn. lia.
    + intros k i l w0 new0 (H1 & H2 & H3). unfold I. run_attempt.
      all: rewrite !count_kind_app; cbn; lia.
    + cbn. lia.
    + cbn. lia.
    + destruct HI as (H1 & H2 & H3). destruct (Hquiet att H3) as [H4 H5].
      destruct Htail as [->|[e ->]]; cbn; rewrite !count_kind_app, !count_if_app; cbn; lia.
Qed.

(** Once its subscription to the order-book topic has succeeded, every
    run of [ioc_buy_with_ws] and of [ioc_sell_with_ws] ends by
    unsubscribing from that topic for the same code with the same key:
    however an attempt ends, the unsubscription is the last thing the
    run does. *)
Theorem ioc_loops_always_unsubscribe code session_end qty_to_sell max_attempts cash_use_ratio
    w key :
  env_approval_key E (calls KApprovalKey w) = Ok key ->
  env_send E (calls KSend w) = Ok tt ->
  (exists u,
     last (trace (snd (ioc_buy_with_ws E code session_end max_attempts cash_use_ratio w)))
     = Some (EUnsubscribe "H0STASP0" code key u))
  /\ (exists u,
        last (trace (snd (ioc_sell_with_ws E code qty_to_sell max_attempts w)))
        = Some (EUnsubscribe "H0STASP0" code key u)).
Proof.
  intros Hkey Hsub.
  assert (Hsub' : env_send E (calls KSend (record (EApprovalKey (Ok key)) w)) = Ok tt).
  { rewrite calls_record. cbn. now rewrite Nat.add_0_r. }
  split.
  - unfold ioc_buy_with_ws, with_locals, get_approval_key, subscribe, orderbook_seq,
      unsubscribe, ask, of_result, bind, get_locals, set_locals, ret,
      try_finally, try_except, any_exception, log_, emit.
    cbn -[record calls]. rewrite Hkey. cbn -[record calls]. rewrite Hsub'. cbn -[record calls].
    match goal with
    | |- context [for_range ?n ?i ?b ?s] =>
        pose proof (buy_loop_post E code session_end max_attempts cash_use_ratio n i
                      (fst s) (snd s)) as HL;
        cbn [fst snd] in HL;
        destruct (for_range n i b s) as [o [l' w']]
    end.
    destruct HL as (new & _ & _ & _ & _ & Ho).
    destruct o as [[]|e|]; [| |contradiction]; cbn -[record calls].
    all: match goal with |- context [env_send E ?i] => destruct (env_send E i) as [[]|e'] end.
    all: cbn.
    all: try (unfold buy_result, lift, bind, ret; destruct (total_qty l' <=? 0); cbn;
              try (destruct (true_div _ _); cbn)).
    all: eexists; apply last_snoc.
  - unfold ioc_sell_with_ws, with_locals, get_approval_key, subscribe, orderbook_seq,
      unsubscribe, ask, of_result, bind, get_locals, set_locals, ret,
      try_finally, try_except, any_exception, log_, emit.
    cbn -[record calls]. rewrite Hkey. cbn -[record calls]. rewrite Hsub'. cbn -[record calls].
    match goal with
    | |- context [for_range ?n ?i ?b ?s] =>
        pose proof (sell_loop_post E code max_attempts n i (fst s) (snd s)) as HL;
        cbn [fst snd] in HL;
        destruct (for_range n i b s) as [o [l' w']]
    end.
    destruct HL as (new & _ & _ & _ & _ & Ho).
    destruct o as [[]|e|]; [| |contradiction]; cbn -[record calls].
    all: match goal with |- context [env_send E ?i] => destruct (env_send E i) as [[]|e'] end.
    all: cbn; eexists; apply last_snoc.
Qed.

Lemma buy_attempt_watched code se ma ratio i l w new0 :
  (forall s, is_Some (watch (watch_buy code ratio se) s new0)) ->
  exists new,
    trace (snd (snd (buy_attempt E code se ma ratio i (l, w)))) = trace w ++ new
    /\ forall s, is_Some (watch (watch_buy code ratio se) s (new0 ++ new)).
Proof.
  intros HI. run_attempt.
  all: intros s; rewrite watch_app; destruct (HI s) as [[t0 c0] ->].
  all: cbn -[buy_order_ok String.eqb]; eauto.
  all: rewrite String.eqb_refl; erewrite buy_order_ok_intro by (eassumption || lia).
  all: cbn; eauto.
Qed.

Lemma sell_attempt_watched code qty_to_sell ma i l w new0 :
  watch (watch_sell code qty_to_sell) 0 new0 = Some (sold_qty l)
  /\ remain l = qty_to_sell - sold_qty l ->
  exists new,
    trace (snd (snd (sell_attempt E code ma i (l, w)))) = trace w ++ new
    /\ (watch (watch_sell code qty_to_sell) 0 (new0 ++ new)
        = Some (sold_qty (fst (snd (sell_attempt E code ma i (l, w)))))
        /\ remain (fst (snd (sell_attempt E code ma i (l, w))))
           = qty_to_sell - sold_qty (fst (snd (sell_attempt E code ma i (l, w))))).
Proof.
  intros [HI Hrem]. run_attempt.
  all: rewrite watch_app, HI; cbn -[String.eqb]; rewrite ?String.eqb_refl.
  all: repeat match goal with
              | H : (?x <=? 0) = false |- _ => apply Z.leb_gt in H
              | H : (?x <=? 0) = true |- _ => apply Z.leb_le in H
              end.
  all: rewrite <- ?Hrem, ?Z.eqb_refl.
  all: repeat match goal with
              | |- context [0 <? ?x] => destruct (Z.ltb_spec 0 x); try lia
              end.
  all: cbn; split; auto; lia.
Qed.

(** Every order of a run of [ioc_buy_with_ws] is a buy order for the
    code, placed after a reading of the clock before [session_end], at
    the ask price for which the cash was just inquired, for a positive
    quantity at a positive price whose cost does not exceed
    [int(cash * cash_use_ratio)].  The loop never sells. *)
Theorem ioc_buy_orders_are_affordable code session_end max_attempts cash_use_ratio w :
  is_Some (watch (watch_buy code cash_use_ratio session_end) (None, None)
             (new_events w (snd (ioc_buy_with_ws E code session_end max_attempts
                                   cash_use_ratio w)))).
Proof.
  destruct (ioc_buy_with_ws_invariant E
              (fun _ _ new => forall s, is_Some (watch (watch_buy code cash_use_ratio
                                                          session_end) s new))
              code session_end max_attempts cash_use_ratio w)
    as [[r ->]|[(key & r & ->)|(key & n & att & tail & u & m & l & -> & _ & HI & Htail)]].
  - intros seq s. cbn. eauto.
  - intros k i l w0 new0 HI. now apply buy_attempt_watched.
  - cbn. eauto.
  - cbn. eauto.
  - cbn [app watch watch_buy]. rewrite watch_app.
    destruct (HI (None, None)) as [s ->]. cbn [mbind option_bind].
    destruct Htail as [->|[e ->]]; cbn; eauto.
Qed.

(** Every order of a run of [ioc_sell_with_ws] is a sell order for the
    code, at a positive price, for exactly the quantity still held: the
    quantity to sell less the positive fills of the orders before it,
    which is positive.  The loop never buys. *)
Theorem ioc_sell_orders_are_for_what_is_left code qty_to_sell max_attempts w :
  is_Some (watch (watch_sell code qty_to_sell) 0
             (new_events w (snd (ioc_sell_with_ws E code qty_to_sell max_attempts w)))).
Proof.
  destruct (ioc_sell_with_ws_invariant E
              (fun _ l new => watch (watch_sell code qty_to_sell) 0 new = Some (sold_qty l)
                              /\ remain l = qty_to_sell - sold_qty l)
              code qty_to_sell max_attempts w)
    as [[r ->]|[(key & r & ->)|(key & n & att & tail & u & m & l & -> & _ & HI & Htail)]].
  - intros seq. cbn. split; [reflexivity|lia].
  - intros k i l w0 new0 HI. now apply sell_attempt_watched.
  - cbn. eauto.
  - cbn. eauto.
  - cbn [app watch watch_sell]. rewrite watch_app.
    destruct HI as [-> _]. cbn [mbind option_bind].
    destruct Htail as [->|[e ->]]; cbn; eauto.
Qed.

End OrderFacts.

Lemma ioc_loops_always_unsubscribe_witness :
  (exists u,
     last (trace (snd (ioc_buy_with_ws scenario_A "005930" 1 2 default_cash_use_ratio empty_world)))
     = Some (EUnsubscribe "H0STASP0" "005930" "KEY" u))
  /\ (exists u,
        last (trace (snd (ioc_sell_with_ws scenario_A "005930" 15 30 empty_world)))
        = Some (EUnsubscribe "H0STASP0" "005930" "KEY" u)).
Proof.
  apply (ioc_loops_always_unsubscribe scenario_A "005930" 1 15 2 default_cash_use_ratio empty_world "KEY");
    reflexivity.
Defined.

(** The watchers do object: to an order with no cash inquiry before it,
    to an order that costs more than the scaled cash, and to a sell
    order for more than what is left. *)
Example watchers_object :
  watch (watch_buy "A" default_cash_use_ratio 100) (None, None)
    [ENow 0; EOrderCash Buy "A" 10 1000 (Ok "x")] = None
  /\ watch (watch_buy "A" default_cash_use_ratio 100) (None, None)
       [ENow 0; EPsblCash "A" 1000 (Ok 10000); EOrderCash Buy "A" 10 1000 (Ok "x")] = None
  /\ watch (watch_buy "A" default_cash_use_ratio 100) (None, None)
       [ENow 0; EPsblCash "A" 1000 (Ok 10205); EOrderCash Buy "A" 10 1000 (Ok "x")]
     = Some (Some 0, Some (1000, 10205))
  /\ watch (watch_sell "A" 10) 0
       [EOrderCash Sell "A" 10 1000 (Ok "x"); EOrderFills "x" (4, 4000);
        EOrderCash Sell "A" 10 1000 (Ok "y")] = None
  /\ watch (watch_sell "A" 10) 0
       [EOrderCash Sell "A" 10 1000 (Ok "x"); EOrderFills "x" (4, 4000);
        EOrderCash Sell "A" 6 1000 (Ok "y")] = Some 4.
Proof. repeat split; reflexivity. Qed.
(* ===================================================================== *)
(** * More on the session                                                 *)
(* ===================================================================== *)

(** When the product of the average and [1.01] is too large for a
    double, [math.ceil] raises: [wait_for_1pct_then_sell] ends with that
    [OverflowError] right after its subscription to the trade ticks,
    which it leaves in place: it has not waited, unsubscribed or sold. *)
Theorem hold_phase_overflow_keeps_the_subscription
    (E : Env) (code : string) (buy_qty : Z) (avg_buy : Q) (w : World) (key : string)
    (negative : bool) :
  env_approval_key E (calls KApprovalKey w) = Ok key ->
  env_send E (calls KSend w) = Ok tt ->
  Binary64.round (avg_buy * Binary64.literal (101 # 100)) = PInf negative ->
  (inject_Z (2 ^ 1022) <= Qabs avg_buy)%Q
  /\ wait_for_1pct_then_sell E code buy_qty avg_buy w
     = (Raised OverflowError,
        extend w [EApprovalKey (Ok key); ESubscribe "H0STCNT0" code key (Ok tt)]).
Proof.
  intros Hkey Hsub Hinf. split.
  - apply Qnot_lt_le. intros Hlt.
    destruct (Binary64Facts.round_finite (avg_buy * Binary64.literal (101 # 100)))
      as [product Hp]; [|congruence].
    rewrite Qabs_Qmult.
    apply Qle_lt_trans with (Qabs avg_buy * 2)%Q.
    + rewrite !(Qmult_comm (Qabs avg_buy)).
      apply Qmult_le_compat_r; [vm_compute; discriminate|apply Qabs_nonneg].
    + change (inject_Z (2 ^ 1023)) with (inject_Z (2 ^ 1022 * 2)).
      rewrite inject_Z_mult. apply Qmult_lt_compat_r; [reflexivity|exact Hlt].
  - rewrite (wait_for_1pct_then_sell_run E code buy_qty avg_buy w key Hkey Hsub).
    unfold target_price. now rewrite Hinf.
Qed.

Lemma hold_phase_overflow_keeps_the_subscription_witness :
  (inject_Z (2 ^ 1022) <= Qabs (inject_Z ((2 ^ 53 - 1) * 2 ^ 971)))%Q
  /\ wait_for_1pct_then_sell scenario_A "005930" 15 (inject_Z ((2 ^ 53 - 1) * 2 ^ 971)) empty_world
     = (Raised OverflowError,
        extend empty_world
          [EApprovalKey (Ok "KEY"); ESubscribe "H0STCNT0" "005930" "KEY" (Ok tt)]).
Proof.
  apply (hold_phase_overflow_keeps_the_subscription
           scenario_A "005930" 15 (inject_Z ((2 ^ 53 - 1) * 2 ^ 971)) empty_world "KEY" false
           eq_refl eq_refl).
  vm_compute. reflexivity.
Defined.

Section SessionFacts.

Variable E : Env.
Variable py_float : string -> option pyfloat.
Variable py_repr : json -> string.

(** [run_trading_session] closes the connection exactly when [connect]
    has succeeded.  When [connect] fails (at the approval key, at the
    connection or at the subscription to the private channel, the socket
    then being open already) the error leaves the session and [close] is
    not awaited.  When [connect] succeeds, whatever the body of the
    session does, the last interaction is [close], an error of [close]
    replaces the outcome of the body, and otherwise the outcome is the
    one of the body. *)
Theorem session_closes_iff_connected fuel exec_tr_id hts_id session_end w :
  let r := run_trading_session E py_float py_repr fuel false exec_tr_id hts_id session_end w in
  let l0 := {| open_position := None; done := 0 |} in
  match env_approval_key E (calls KApprovalKey w) with
  | Raise e => r = (Raised e, (l0, extend w [EApprovalKey (Raise e)]))
  | Ok key =>
      match env_connect E (calls KConnect w) with
      | Raise e => r = (Raised e, (l0, extend w [EApprovalKey (Ok key); EConnect (Raise e)]))
      | Ok _ =>
          match env_send E (calls KSend w) with
          | Raise e =>
              r = (Raised e, (l0, extend w [EApprovalKey (Ok key); EConnect (Ok tt);
                                            ESubscribe exec_tr_id hts_id key (Raise e)]))
          | Ok _ =>
              let w0 := extend w [EApprovalKey (Ok key); EConnect (Ok tt);
                                  ESubscribe exec_tr_id hts_id key (Ok tt);
                                  ERecvTaskCreated] in
              let b := session_body E py_float py_repr fuel session_end (l0, w0) in
              fst b = OutOfFuel /\ r = b
              \/ exists c,
                   last (trace (snd (snd r))) = Some (EClose c)
                   /\ snd r = (fst (snd b), record (EClose c) (snd (snd b)))
                   /\ fst r = match c with
                              | Raise e => Raised e
                              | Ok _ => fst b
                              end
          end
      end
  end.
Proof.
  intros r l0. subst r.
  unfold run_trading_session, ws_connect, ws_close, try_finally, get_approval_key, subscribe,
    ask, of_result, emit, bind.
  cbn -[record calls session_body].
  destruct (env_approval_key E (calls KApprovalKey w)) as [key|e]; [|reflexivity].
  cbn -[record calls session_body]. rewrite ?calls_record. cbn -[record calls session_body].
  rewrite ?Nat.add_0_r.
  destruct (env_connect E (calls KConnect w)) as [[]|e];
    [|now rewrite !record_as_extend, !extend_extend].
  cbn -[record calls session_body]. rewrite ?calls_record. cbn -[record calls session_body].
  rewrite ?Nat.add_0_r.
  destruct (env_send E (calls KSend w)) as [[]|e];
    [|now rewrite !record_as_extend, !extend_extend].
  cbn -[record calls session_body].
  rewrite !record_as_extend, !extend_extend. cbn [app].
  destruct (session_body _ _ _ _ _ _) as [[[]|e|] [l' w']]; cbn -[record calls].
  3:{ left. auto. }
  all: right; destruct (env_close E (calls KClose w')) as [[]|e']; cbn.
  all: eexists; split; [apply last_snoc|split; reflexivity].
Qed.

Lemma pick_code_locals {L} item (l : L) w :
  fst (snd (pick_code_from_ranking_item py_float py_repr item (l, w))) = l.
Proof.
  unfold pick_code_from_ranking_item.
  destruct (py_or _ (JStr "")); try reflexivity.
  unfold bind, log_, emit, ret, raise.
  destruct (py_float _) as [f|]; cbn; [|reflexivity].
  match goal with |- context [if ?c then _ else _] => now destruct c end.
Qed.

Lemma scan_items_locals {L} now items : forall (l : L) w,
  fst (snd (scan_items py_float py_repr now items (l, w))) = l.
Proof.
  induction items as [|it items IH]; intros l w; cbn; [reflexivity|].
  destruct it; try apply IH.
  unfold bind.
  pose proof (pick_code_locals fields l w) as Hp.
  destruct (pick_code_from_ranking_item py_float py_repr fields (l, w)) as [[[c|]|e|] [l1 w1]];
    cbn in Hp; subst l1; try reflexivity; [|apply IH].
  destruct (negb (PyStr.truthy c)); [apply IH|].
  unfold get_cooldown, log_, emit, ret. cbn.
  destruct (cooldowns w1 !! c) as [last|]; [|reflexivity].
  destruct (now - last <? cooldown_window); [apply IH|reflexivity].
Qed.

Lemma find_candidate_loop_locals {L} fuel session_end : forall try_cnt (l : L) w,
  fst (snd (find_candidate_loop E py_float py_repr fuel session_end try_cnt (l, w))) = l.
Proof.
  induction fuel as [|fuel IH]; intros try_cnt l w; [reflexivity|].
  cbn [find_candidate_loop].
  unfold bind, kst_now, get_ranking_fluctuation, ask, of_result, sleep, log_, emit, ret, raise.
  cbn -[record calls scan_items ranking_items find_candidate_loop].
  destruct (_ <? session_end); [|reflexivity].
  destruct (env_ranking E _) as [res|e]; [|reflexivity].
  destruct (try_cnt <? 10); cbn -[record calls scan_items ranking_items find_candidate_loop].
  all: destruct res as [| | | | |d]; try reflexivity.
  all: match goal with
       | |- context [scan_items _ _ ?n ?i (?l0, ?w0)] =>
           pose proof (scan_items_locals n i l0 w0) as Hs;
           destruct (scan_items py_float py_repr n i (l0, w0)) as [[[c|]|e|] [l1 w1]];
           cbn in Hs; subst l1; try reflexivity
       end.
  all: apply IH.
Qed.

Lemma session_loop_inv fuel session_end : forall l w,
  session_inv l ->
  session_inv (fst (snd (session_loop E py_float py_repr fuel session_end (l, w)))).
Proof.
  induction fuel as [|fuel IH]; intros l w Hinv; [exact Hinv|].
  cbn [session_loop].
  unfold bind at 1. unfold get_locals at 1. cbn [fst snd].
  destruct (Z.ltb_spec (done l) 5) as [Hd|Hd]; [|exact Hinv].
  unfold bind at 1. unfold kst_now at 1, ask at 1. cbn [fst snd].
  destruct (_ <? session_end); [|exact Hinv].
  unfold bind at 1. unfold find_candidate.
  match goal with
  | |- context [find_candidate_loop _ _ _ ?f ?se ?t (?l0, ?w0)] =>
      pose proof (find_candidate_loop_locals f se t l0 w0) as Hf;
      destruct (find_candidate_loop E py_float py_repr f se t (l0, w0)) as [[[code|]|e|] [l1 w1]];
      cbn in Hf; subst l1; try exact Hinv
  end.
  destruct (PyStr.truthy code) eqn:Hcode; cbn [negb]; [|exact Hinv].
  unfold bind at 1. unfold call at 1. cbn [fst snd].
  destruct (ioc_buy_with_ws E code session_end 20 default_cash_use_ratio w1)
    as [[[buy_qty avg_buy]|e|] w2];
    try exact Hinv.
  unfold bind at 1. unfold kst_now at 1, ask at 1. cbn [fst snd].
  unfold bind at 1. unfold set_cooldown at 1. cbn [fst snd].
  destruct (Z.leb_spec buy_qty 0) as [Hb|Hb].
  { unfold bind at 1. unfold log_, emit. cbn [fst snd]. apply IH. exact Hinv. }
  unfold bind at 1. unfold set_open_position at 1, set_locals at 1. cbn [fst snd].
  unfold bind at 1. unfold call at 1. cbn [fst snd].
  assert (Hpos : session_inv {| open_position := Some (code, buy_qty, avg_buy);
                                done := done l |}).
  { split; [apply Hinv|]. cbn. split; [now destruct code|lia]. }
  match goal with
  | |- context [wait_for_1pct_then_sell E code buy_qty avg_buy ?w0] =>
      destruct (wait_for_1pct_then_sell E code buy_qty avg_buy w0)
        as [[[[sold_qty sold_value] target_hit]|e|] w3]; try exact Hpos
  end.
  unfold bind at 1. unfold kst_now at 1, ask at 1. cbn [fst snd].
  unfold bind at 1. unfold set_cooldown at 1. cbn [fst snd].
  unfold bind at 1.
  destruct (Z.leb_spec sold_qty 0) as [Hs|Hs].
  - unfold bind at 1. unfold log_, emit, set_open_position, set_locals. cbn [fst snd].
    apply IH. exact Hpos.
  - unfold bind at 1. unfold lift at 1.
    destruct (true_div sold_value sold_qty) as [avg_sell|e0]; [|exact Hpos].
    unfold bind at 1. unfold pnl_pct.
    destruct (Qeq_bool avg_buy 0); [exact Hpos|].
    unfold ret at 1. unfold bind at 1. unfold log_ at 1, emit at 1. cbn [fst snd].
    unfold bind at 1. unfold set_open_position at 1, set_locals at 1. cbn [fst snd].
    unfold bind at 1. unfold set_locals at 1. cbn [fst snd].
    unfold bind at 1. unfold get_locals at 1. cbn [fst snd].
    unfold log_ at 1, emit at 1. cbn [fst snd].
    apply IH. split; cbn; [|exact I]. destruct Hinv as [Hdone _]. lia.
Qed.

Lemma force_liquidate_locals session_end l w :
  fst (snd (force_liquidate E session_end (l, w))) = l.
Proof.
  unfold force_liquidate, bind, get_locals, kst_now, ask, log_, emit, call, ret, pnl_pct, raise,
    lift.
  cbn [fst snd].
  destruct (open_position l) as [[[code q] avg_buy]|]; [|reflexivity].
  destruct (session_end <=? _); [|reflexivity]. cbn [fst snd].
  destruct (ioc_sell_with_ws E code q 30 _) as [[[sold_qty sold_value]|e|] w']; try reflexivity.
  cbn [fst snd]. destruct (0 <? sold_qty); [|reflexivity].
  destruct (true_div sold_value sold_qty); [|reflexivity].
  destruct (Qeq_bool avg_buy 0); reflexivity.
Qed.

(** Whatever the environment answers and however the session ends, its
    locals end with at most five trades counted and with a recorded
    position, if any, of a non-empty code and a positive quantity. *)
Theorem session_counts_at_most_five_trades fuel weekend exec_tr_id hts_id session_end w :
  session_inv (fst (snd (run_trading_session E py_float py_repr fuel weekend
                           exec_tr_id hts_id session_end w))).
Proof.
  assert (H0 : session_inv {| open_position := None; done := 0 |}).
  { split; cbn; [lia|exact I]. }
  unfold run_trading_session. destruct weekend; [exact H0|].
  unfold ws_connect, ws_close, try_finally, get_approval_key, subscribe, ask, of_result, emit,
    bind.
  cbn -[record calls session_body].
  destruct (env_approval_key E _) as [key|e]; [|exact H0]. cbn -[record calls session_body].
  destruct (env_connect E _) as [[]|e]; [|exact H0]. cbn -[record calls session_body].
  destruct (env_send E _) as [[]|e]; [|exact H0]. cbn -[record calls session_body].
  match goal with
  | |- context [session_body _ _ _ ?f ?se (?l0, ?w0)] =>
      assert (Hb : session_inv (fst (snd (session_body E py_float py_repr f se (l0, w0)))));
      [|destruct (session_body E py_float py_repr f se (l0, w0)) as [[[]|e|] [l' w']]]
  end.
  { unfold session_body, bind.
    match goal with
    | |- context [session_loop _ _ _ ?f ?se (?l0, ?w0)] =>
        pose proof (session_loop_inv f se l0 w0 H0) as Hl;
        destruct (session_loop E py_float py_repr f se (l0, w0)) as [[[]|e|] [l1 w1]]
    end; try exact Hl.
    cbn in Hl. now rewrite force_liquidate_locals. }
  all: cbn in Hb; cbn -[record calls]; try exact Hb.
  all: destruct (env_close E _) as [[]|e']; exact Hb.
Qed.

End SessionFacts.
(* ===================================================================== *)
(** * The clock: time_utils.py and the schedule of main.py                *)
(* ===================================================================== *)

Module TimeFacts.

Import TimeUtils.

Lemma day_value : usec_per_day = 86400000000.
Proof. reflexivity. Qed.

Lemma split_day t :
  t = midnight t + time_of_day t /\ 0 <= time_of_day t < usec_per_day.
Proof.
  unfold midnight, time_of_day. rewrite day_value.
  pose proof (Z.div_mod t 86400000000 ltac:(lia)).
  pose proof (Z.mod_pos_bound t 86400000000 ltac:(lia)). lia.
Qed.

Lemma hm_bounds h m :
  0 <= h < 24 -> 0 <= m < 60 -> 0 <= hm h m < usec_per_day.
Proof. unfold hm, usec_per_day, usec. lia. Qed.

Lemma replace_hm_spec t h m r :
  replace_hm t h m = Some r <->
  (0 <= h < 24 /\ 0 <= m < 60) /\ r = midnight t + hm h m.
Proof.
  unfold replace_hm.
  destruct (Z.leb_spec 0 h), (Z.ltb_spec h 24), (Z.leb_spec 0 m), (Z.ltb_spec m 60); cbn;
    (split; [intros Heq; try discriminate; injection Heq as <-; auto
            | intros [[? ?] ->]; try lia; reflexivity]).
Qed.

Lemma time_of_day_shift q x :
  0 <= x < usec_per_day -> time_of_day (q * usec_per_day + x) = x.
Proof.
  intros Hx. unfold time_of_day.
  rewrite Z.add_comm, Z.mod_add by (rewrite day_value; lia).
  now apply Z.mod_small.
Qed.

Lemma time_of_day_after_midnight t x :
  0 <= x < usec_per_day -> time_of_day (midnight t + x) = x.
Proof. intros Hx. unfold midnight. now apply time_of_day_shift. Qed.

Lemma later_occurrence t x r :
  0 <= x < usec_per_day -> midnight t + x < r -> time_of_day r = x ->
  midnight t + usec_per_day + x <= r.
Proof.
  intros Hx Hlt Hr.
  destruct (split_day r) as [Er _]. rewrite Hr in Er.
  unfold midnight in *. rewrite day_value in *.
  set (a := t / 86400000000) in *. set (b := r / 86400000000) in *.
  assert (a < b) by nia. nia.
Qed.

(** [next_kst_datetime] gives the next occurrence of hh:mm: it answers
    exactly when the hour is within 0..23 and the minute within 0..59,
    and then with an instant strictly after [base] and at most one day
    after it, whose time of day is hh:mm:00, and which is the first such
    instant after [base]. *)
Theorem next_kst_datetime_is_the_next_occurrence hour minute base now :
  (is_Some (next_kst_datetime hour minute (Some base) now)
   <-> 0 <= hour < 24 /\ 0 <= minute < 60)
  /\ forall r, next_kst_datetime hour minute (Some base) now = Some r ->
       base < r <= base + usec_per_day
       /\ time_of_day r = hm hour minute
       /\ forall r', base < r' -> time_of_day r' = hm hour minute -> r <= r'.
Proof.
  unfold next_kst_datetime, replace_hm. cbn [default].
  destruct (Z.leb_spec 0 hour), (Z.ltb_spec hour 24), (Z.leb_spec 0 minute),
    (Z.ltb_spec minute 60); cbn.
  all: split; [split; [intros [r Hr]; try discriminate; lia | intros; try lia; eauto]
              | intros r Hr; try discriminate].
  assert (Hh : 0 <= hour < 24) by lia. assert (Hm : 0 <= minute < 60) by lia.
    pose proof (hm_bounds hour minute Hh Hm) as Hx.
    destruct (split_day base) as [Eb Hb].
    destruct (Z.leb_spec (midnight base + hm hour minute) base) as [Hle|Hgt];
      injection Hr as <-.
  - split; [lia|]. split.
    + replace (midnight base + hm hour minute + usec_per_day)
          with (midnight base + usec_per_day + hm hour minute) by lia.
        unfold midnight.
        replace (base / usec_per_day * usec_per_day + usec_per_day + hm hour minute)
          with ((base / usec_per_day + 1) * usec_per_day + hm hour minute) by lia.
        now apply time_of_day_shift.
    + intros r' Hr' Ht.
      pose proof (later_occurrence base (hm hour minute) r' Hx ltac:(lia) Ht). lia.
  - split; [lia|]. split; [now apply time_of_day_after_midnight|].
      intros r' Hr' Ht.
      destruct (split_day r') as [Er _]. rewrite Ht in Er.
      unfold midnight in *. rewrite day_value in *.
      set (a := base / 86400000000) in *. set (b := r' / 86400000000) in *.
      assert (a <= b) by nia. nia.
Qed.

Lemma sleep_until_result fuel lag : forall n dt now t sleeps,
  sleep_until fuel lag n dt now = Some (t, sleeps) ->
  dt <= t
  /\ Forall (fun d => 0 < d <= 60 * usec) sleeps
  /\ ((forall k, 0 <= lag k) -> now <= t)
  /\ ((forall k, lag k = 0) -> t = Z.max now dt /\ foldr Z.add 0 sleeps = Z.max 0 (dt - now)).
Proof.
  induction fuel as [|fuel IH]; intros n dt now t sleeps H; [discriminate|].
  cbn [sleep_until] in H.
  destruct (Z.leb_spec (dt - now) 0) as [Hs|Hs].
  - injection H as <- <-. split; [lia|]. split; [constructor|]. split; [lia|].
    intros _. cbn. lia.
  - destruct (sleep_until fuel lag (S n) dt _) as [[t' sl]|] eqn:Hrec; [|discriminate].
    cbn in H. injection H as <- <-.
    apply IH in Hrec as (H1 & H2 & H3 & H4).
    split; [exact H1|]. split; [|split].
    + constructor; [|exact H2]. unfold usec. lia.
    + intros Hlag. specialize (H3 Hlag). specialize (Hlag n). lia.
    + intros Hlag. destruct (H4 Hlag) as [-> Hsum]. rewrite (Hlag n) in *.
      cbn [foldr]. rewrite Hsum. unfold usec. lia.
Qed.

Lemma sleep_until_total lag :
  (forall k, 0 <= lag k) ->
  forall fuel n dt now,
  (0 < fuel)%nat -> dt - now <= (Z.of_nat fuel - 1) * (60 * usec) ->
  is_Some (sleep_until fuel lag n dt now).
Proof.
  intros Hlag. induction fuel as [|fuel IH]; intros n dt now Hf Hd; [lia|].
  cbn [sleep_until].
  destruct (Z.leb_spec (dt - now) 0) as [Hs|Hs]; [eauto|].
  specialize (Hlag n) as Hn.
  destruct (IH (S n) dt (now + Z.min (dt - now) (60 * usec) + lag n)) as [[t sl] ->].
  - unfold usec in *. lia.
  - unfold usec in *. lia.
  - cbn. eauto.
Qed.

(** [sleep_until] returns only at or after [dt], after sleeps of at
    most 60 seconds each; when no sleep is cut short it returns, and
    within one turn more than the whole minutes to wait; when the sleeps
    last exactly what is asked, it returns at [dt] itself (or at once
    when [dt] is past) and the sleeps add up to the time to wait. *)
Theorem sleep_until_wakes_at_or_after_dt lag n dt now :
  (forall fuel t sleeps,
     sleep_until fuel lag n dt now = Some (t, sleeps) ->
     dt <= t
     /\ Forall (fun d => 0 < d <= 60 * usec) sleeps
     /\ ((forall k, lag k = 0) ->
         t = Z.max now dt /\ foldr Z.add 0 sleeps = Z.max 0 (dt - now)))
  /\ ((forall k, 0 <= lag k) ->
      forall fuel, Z.max 0 (dt - now) / (60 * usec) + 2 <= Z.of_nat fuel ->
        is_Some (sleep_until fuel lag n dt now)).
Proof.
  split.
  - intros fuel t sleeps H. apply sleep_until_result in H as (H1 & H2 & _ & H4). auto.
  - intros Hlag fuel Hfuel.
    change (60 * usec) with 60000000 in Hfuel.
    pose proof (Z.div_pos (Z.max 0 (dt - now)) 60000000 ltac:(lia) ltac:(lia)).
    pose proof (Z.div_mod (Z.max 0 (dt - now)) 60000000 ltac:(lia)).
    pose proof (Z.mod_pos_bound (Z.max 0 (dt - now)) 60000000 ltac:(lia)).
    apply sleep_until_total; [exact Hlag|lia|].
    change (60 * usec) with 60000000. nia.
Qed.

(** When [daily_scheduler] refreshes the tokens: at once when the clock
    reads a time of day from 08:30 to before 09:30, and otherwise at the
    next 08:30:00, which is later than the reading and at most a day
    away.  So a scheduler started at, say, 10:00 sleeps until 08:30 of
    the next day before it does anything. *)
Theorem refresh_is_now_or_the_next_0830 now :
  exists r,
    Scheduler.refresh_at now = Some r
    /\ now <= r <= now + usec_per_day
    /\ (r = now <-> hm 8 30 <= time_of_day now < hm 9 30)
    /\ (r <> now -> time_of_day r = hm 8 30).
Proof.
  unfold Scheduler.refresh_at, next_kst_datetime, replace_hm. cbn.
  destruct (split_day now) as [En Hn].
  pose proof (hm_bounds 8 30 ltac:(lia) ltac:(lia)) as H830.
  change (hm 1 0) with 3600000000. change (hm 8 30) with 30600000000 in *.
  change (hm 9 30) with 34200000000. rewrite day_value in *.
  destruct (Z.leb_spec (midnight now + 30600000000) now) as [H1|H1];
    [destruct (Z.ltb_spec now (midnight now + 30600000000 + 3600000000)) as [H2|H2]|]; cbn.
  - exists now. repeat split; try lia; intros Hne; now contradiction Hne.
  - eexists. split; [reflexivity|]. split; [lia|]. split; [lia|]. intros _.
    unfold midnight. rewrite day_value.
    replace (now / 86400000000 * 86400000000 + 30600000000 + 86400000000)
      with ((now / 86400000000 + 1) * usec_per_day + 30600000000) by (rewrite day_value; lia).
    apply time_of_day_shift. rewrite day_value. lia.
  - destruct (Z.leb_spec (midnight now + 30600000000) now); [lia|].
    eexists. split; [reflexivity|]. split; [lia|]. split; [lia|]. intros _.
    apply time_of_day_after_midnight. rewrite day_value. lia.
Qed.

(** The session [daily_scheduler] runs for a clock reading [now]: none
    when the time of day is 15:00 or later; otherwise from the later of
    [now] and 09:20 of that day until 15:00 of that day, so that a
    session never starts before 09:20 or at or after 15:00 and always
    ends after it starts. *)
Theorem session_window_is_within_the_trading_day now :
  exists o,
    Scheduler.session_window now = Some o
    /\ match o with
       | Some (session_start, session_end) =>
           now <= session_start < session_end
           /\ session_start = Z.max now (midnight now + hm 9 20)
           /\ session_end = midnight now + hm 15 0
           /\ hm 9 20 <= time_of_day session_start < hm 15 0
       | None => hm 15 0 <= time_of_day now
       end.
Proof.
  unfold Scheduler.session_window, replace_hm. cbn.
  destruct (split_day now) as [En Hn].
  change (hm 9 20) with 33600000000. change (hm 15 0) with 54000000000.
  rewrite day_value in *.
  destruct (Z.ltb_spec (midnight now + 33600000000) now) as [H1|H1];
    match goal with
    | |- context [if ?a <=? ?b then _ else _] => destruct (Z.leb_spec a b) as [H2|H2]
    end.
  all: eexists; split; [reflexivity|]; cbn; try lia.
  all: repeat split; try lia.
  all: rewrite time_of_day_after_midnight by (rewrite day_value; lia); lia.
Qed.

End TimeFacts.

Lemma next_kst_datetime_is_the_next_occurrence_witness :
  TimeUtils.hm 10 0 < TimeUtils.usec_per_day + TimeUtils.hm 8 30
                    <= TimeUtils.hm 10 0 + TimeUtils.usec_per_day
  /\ TimeUtils.time_of_day (TimeUtils.usec_per_day + TimeUtils.hm 8 30) = TimeUtils.hm 8 30
  /\ forall r', TimeUtils.hm 10 0 < r' -> TimeUtils.time_of_day r' = TimeUtils.hm 8 30 ->
                TimeUtils.usec_per_day + TimeUtils.hm 8 30 <= r'.
Proof.
  apply (proj2 (TimeFacts.next_kst_datetime_is_the_next_occurrence 8 30 (TimeUtils.hm 10 0) 0)).
  reflexivity.
Defined.

Lemma sleep_until_wakes_at_or_after_dt_witness :
  150 * TimeUtils.usec <= 150 * TimeUtils.usec
  /\ Forall (fun d => 0 < d <= 60 * TimeUtils.usec)
       [60 * TimeUtils.usec; 60 * TimeUtils.usec; 30 * TimeUtils.usec]
  /\ ((forall k : nat, (fun _ : nat => 0) k = 0) ->
      150 * TimeUtils.usec = Z.max 0 (150 * TimeUtils.usec)
      /\ foldr Z.add 0 [60 * TimeUtils.usec; 60 * TimeUtils.usec; 30 * TimeUtils.usec]
         = Z.max 0 (150 * TimeUtils.usec - 0)).
Proof.
  apply (proj1 (TimeFacts.sleep_until_wakes_at_or_after_dt (fun _ => 0) 0
                  (150 * TimeUtils.usec) 0) 5%nat).
  reflexivity.
Defined.
(* ===================================================================== *)
(** * The configuration                                                   *)
(* ===================================================================== *)

Module ConfigFacts.

Lemma lstrip_clean s :
  match PyStr.lstrip s with
  | String c _ => PyStr.is_space c = false
  | EmptyString => True
  end.
Proof.
  induction s as [|c s IH]; cbn; [exact I|].
  destruct (PyStr.is_space c) eqn:Hc; [exact IH|exact Hc].
Qed.

Lemma lstrip_of_clean c s : PyStr.is_space c = false -> PyStr.lstrip (String c s) = String c s.
Proof. intros H. cbn. now rewrite H. Qed.

Lemma rstrip_of_clean c s :
  PyStr.is_space c = false ->
  exists r, PyStr.rstrip (String c s) = String c r.
Proof.
  intros H. cbn. destruct (PyStr.rstrip s); [rewrite H|]; eauto.
Qed.

Lemma rstrip_idem s : PyStr.rstrip (PyStr.rstrip s) = PyStr.rstrip s.
Proof.
  induction s as [|c s IH]; [reflexivity|]. cbn.
  destruct (PyStr.rstrip s) as [|c' r] eqn:Hr.
  - destruct (PyStr.is_space c) eqn:Hc; [reflexivity|]. cbn. now rewrite Hc.
  - cbn [PyStr.rstrip]. cbn [PyStr.rstrip] in IH. rewrite IH. reflexivity.
Qed.

Lemma strip_idem s : PyStr.strip (PyStr.strip s) = PyStr.strip s.
Proof.
  unfold PyStr.strip.
  pose proof (lstrip_clean s) as Hclean.
  destruct (PyStr.lstrip s) as [|c t]; [reflexivity|].
  destruct (rstrip_of_clean c t Hclean) as [r Hr]. rewrite Hr.
  rewrite lstrip_of_clean by exact Hclean. rewrite <- Hr. apply rstrip_idem.
Qed.

Lemma truthy_ne s : PyStr.truthy s = true <-> s <> "".
Proof. destruct s; cbn; split; intros H; try discriminate; auto; now contradiction H. Qed.

(** A configuration that [load_config] returns is valid: its
    environment is prod or vts, its five required fields and its customer
    type are non-empty, none of them has a blank at either end, and its
    private channel is H0STCNI9 for vts and H0STCNI0 for prod. *)
Theorem load_config_returns_a_valid_config environ cfg :
  Config.load_config environ = inr cfg ->
  (Config.env cfg = "prod" \/ Config.env cfg = "vts")
  /\ Forall (fun f => f <> "" /\ stripped f)
       [Config.app_key cfg; Config.app_secret cfg; Config.cano cfg;
        Config.acnt_prdt_cd cfg; Config.hts_id cfg; Config.custtype cfg]
  /\ (Config.exec_tr_id cfg = "H0STCNI9" <-> Config.env cfg = "vts")
  /\ (Config.exec_tr_id cfg = "H0STCNI0" <-> Config.env cfg = "prod").
Proof.
  unfold Config.load_config. cbn [Config.missing_of Config.app_key Config.app_secret
    Config.cano Config.acnt_prdt_cd Config.hts_id].
  set (e := Config.lower _).
  set (k1 := PyStr.strip (Config.getenv environ "KIS_APP_KEY" "")).
  set (k2 := PyStr.strip (Config.getenv environ "KIS_APP_SECRET" "")).
  set (k3 := PyStr.strip (Config.getenv environ "KIS_CANO" "")).
  set (k4 := PyStr.strip (Config.getenv environ "KIS_ACNT_PRDT_CD" "01")).
  set (k5 := PyStr.strip (Config.getenv environ "KIS_HTS_ID" "")).
  set (k6 := PyStr.strip (Config.getenv environ "KIS_CUSTTYPE" "P")).
  destruct (PyStr.truthy k1) eqn:H1; [|discriminate].
  destruct (PyStr.truthy k2) eqn:H2; [|discriminate].
  destruct (PyStr.truthy k3) eqn:H3; [|discriminate].
  destruct (PyStr.truthy k4) eqn:H4; [|discriminate].
  destruct (PyStr.truthy k5) eqn:H5; [|discriminate].
  destruct (bool_decide (e ∈ ["prod"; "vts"])) eqn:He; [|discriminate].
  intros [= <-]. cbn.
  apply bool_decide_eq_true in He.
  assert (He' : e = "prod" \/ e = "vts").
  { apply elem_of_cons in He as [He|He]; [auto|].
    apply elem_of_cons in He as [He|He]; [auto|]. now apply elem_of_nil in He. }
  split; [exact He'|]. split.
  - repeat (apply Forall_cons; split; [split|]); try apply Forall_nil.
    all: try (now apply truthy_ne); try apply strip_idem; try exact I.
    + unfold PyStr.or_. destruct (PyStr.truthy k6) eqn:H6; [now apply truthy_ne|discriminate].
    + unfold PyStr.or_, stripped. destruct (PyStr.truthy k6) eqn:H6; [apply strip_idem|reflexivity].
  - unfold Config.exec_tr_id. cbn.
    destruct He' as [-> | ->]; cbn; split; split; intros; try discriminate; reflexivity.
Qed.

(** [load_config] returns a configuration exactly when every required
    variable, read with its default, is not blank and [KIS_ENV], read
    with the default prod, is prod or vts once stripped and lower-cased;
    a blank required variable is reported before a bad [KIS_ENV]. *)
Theorem load_config_accepts_iff environ :
  (is_Some (match Config.load_config environ with inr cfg => Some cfg | inl _ => None end)
   <-> Forall (fun kd => PyStr.strip (Config.getenv environ (fst kd) (snd kd)) <> "")
         required_variables
       /\ Config.lower (PyStr.strip (Config.getenv environ "KIS_ENV" "prod"))
          ∈ ["prod"; "vts"])
  /\ (Config.load_config environ = inl Config.BadEnv ->
      Forall (fun kd => PyStr.strip (Config.getenv environ (fst kd) (snd kd)) <> "")
        required_variables)
  /\ (forall names, Config.load_config environ = inl (Config.Missing names) ->
        names <> []
        /\ forall k, k ∈ names <->
             exists d, (k, d) ∈ required_variables
                       /\ PyStr.strip (Config.getenv environ k d) = "").
Proof.
  unfold Config.load_config, required_variables.
  cbn [Config.missing_of Config.app_key Config.app_secret
    Config.cano Config.acnt_prdt_cd Config.hts_id fst snd].
  set (e := Config.lower _).
  set (k1 := PyStr.strip (Config.getenv environ "KIS_APP_KEY" "")).
  set (k2 := PyStr.strip (Config.getenv environ "KIS_APP_SECRET" "")).
  set (k3 := PyStr.strip (Config.getenv environ "KIS_CANO" "")).
  set (k4 := PyStr.strip (Config.getenv environ "KIS_ACNT_PRDT_CD" "01")).
  set (k5 := PyStr.strip (Config.getenv environ "KIS_HTS_ID" "")).
  rewrite !Forall_cons, Forall_nil. cbn [fst snd]. fold k1 k2 k3 k4 k5.
  assert (Hin : forall k,
            (exists d, (k, d) ∈ [("KIS_APP_KEY", ""); ("KIS_APP_SECRET", ""); ("KIS_CANO", "");
                                 ("KIS_ACNT_PRDT_CD", "01"); ("KIS_HTS_ID", "")]
                       /\ PyStr.strip (Config.getenv environ k d) = "")
            <-> (k = "KIS_APP_KEY" /\ k1 = "") \/ (k = "KIS_APP_SECRET" /\ k2 = "")
                \/ (k = "KIS_CANO" /\ k3 = "") \/ (k = "KIS_ACNT_PRDT_CD" /\ k4 = "")
                \/ (k = "KIS_HTS_ID" /\ k5 = "")).
  { intros k. split.
    - intros (d & Hd & Hs).
      repeat (apply elem_of_cons in Hd as [[= -> ->]|Hd]; [tauto|]).
      now apply elem_of_nil in Hd.
    - intros [[-> H]|[[-> H]|[[-> H]|[[-> H]|[-> H]]]]]; eexists; (split; [|exact H]);
        apply list_elem_of_In; cbn; tauto. }
  destruct k1 as [|a1 k1'], k2 as [|a2 k2'], k3 as [|a3 k3'], k4 as [|a4 k4'],
    k5 as [|a5 k5']; cbn [PyStr.truthy].
  all: try (split; [split; [intros [? [=]] | intros [(?&?&?&?&?&_) _]; congruence]
                   |split; [discriminate|]];
            intros names [= <-]; (split; [discriminate|]); intros k; rewrite Hin;
            rewrite ?elem_of_cons, elem_of_nil;
            split; [intros H; repeat destruct H as [H|H]; try contradiction; subst; tauto
                   | intros H; repeat destruct H as [H|H]; destruct H as [-> H];
                     try discriminate; tauto]; fail).
  destruct (bool_decide (e ∈ ["prod"; "vts"])) eqn:He.
  - apply bool_decide_eq_true in He.
    split; [split; [intros _; repeat split; try discriminate; exact He | eauto]|].
    split; discriminate.
  - apply bool_decide_eq_false in He.
    split; [split; [intros [? [=]] | intros [_ H]; contradiction]|].
    split; [intros _; repeat split; discriminate | discriminate].
Qed.

End ConfigFacts.

Lemma load_config_returns_a_valid_config_witness :
  ("vts" = "prod" \/ "vts" = "vts")
  /\ Forall (fun f => f <> "" /\ stripped f) ["key"; "secret"; "12345678"; "01"; "trader1"; "P"]
  /\ ("H0STCNI9" = "H0STCNI9" <-> "vts" = "vts")
  /\ ("H0STCNI9" = "H0STCNI0" <-> "vts" = "prod").
Proof.
  apply (ConfigFacts.load_config_returns_a_valid_config vts_environ
           {| Config.env := "vts"; Config.app_key := "key"; Config.app_secret := "secret";
              Config.cano := "12345678"; Config.acnt_prdt_cd := "01";
              Config.hts_id := "trader1"; Config.custtype := "P" |}).
  vm_compute. reflexivity.
Defined.

Lemma load_config_accepts_iff_witness :
  Forall (fun kd => PyStr.strip (Config.getenv vts_environ (fst kd) (snd kd)) <> "")
    required_variables
  /\ Config.lower (PyStr.strip (Config.getenv vts_environ "KIS_ENV" "prod")) ∈ ["prod"; "vts"].
Proof.
  apply (proj1 (proj1 (ConfigFacts.load_config_accepts_iff vts_environ))).
  vm_compute. eauto.
Defined.

Example load_config_reports_what_is_missing :
  Config.load_config (<["KIS_ENV" := "paper"]> (delete "KIS_CANO" vts_environ))
  = inl (Config.Missing ["KIS_CANO"])
  /\ Config.load_config (<["KIS_ENV" := "paper"]> vts_environ) = inl Config.BadEnv
  /\ Config.load_config (<["KIS_ACNT_PRDT_CD" := "  "]> vts_environ)
     = inl (Config.Missing ["KIS_ACNT_PRDT_CD"]).
Proof. vm_compute. auto. Qed.
(* ===================================================================== *)
(** * The REST client                                                     *)
(* ===================================================================== *)

Module RestFacts.

Import Rest.

Section RequestFacts.

Variable X : context.

Lemma _request_loop_spec req n : forall last_err s,
  let r := _request_loop X n req last_err s in
  let k := length (sent s) in
  same_object s (snd r)
  /\ match fst r with
     | inr j =>
         exists m, (m < n)%nat
           /\ sent (snd r) = sent s ++ replicate (S m) req
           /\ slept (snd r) = (slept s + m)%nat
           /\ decode X (http X (k + m)) = inr j
           /\ forall i, (i < m)%nat -> exists e, decode X (http X (k + i)) = inl e
     | inl e =>
         sent (snd r) = sent s ++ replicate n req
         /\ slept (snd r) = (slept s + n)%nat
         /\ (forall i, (i < n)%nat -> exists e', decode X (http X (k + i)) = inl e')
         /\ e = RequestFailed (req_method req) (req_path req)
                  match n with
                  | O => last_err
                  | S n' => match decode X (http X (k + n')) with
                            | inl e' => Some e'
                            | inr _ => None
                            end
                  end
     end.
Proof.
  induction n as [|n IH]; intros last_err s; cbn zeta.
  - cbn. split; [repeat split|]. rewrite app_nil_r, Nat.add_0_r.
    repeat split. intros i Hi. lia.
  - cbn [_request_loop]. unfold bind, send, sleep, ret. cbn [fst snd].
    destruct (decode X (http X (length (sent s)))) as [e|j] eqn:Hd; cbn [fst snd].
    + match goal with
      | |- context [_request_loop X n req ?le ?s1] =>
          specialize (IH le s1); cbn zeta in IH;
          destruct (_request_loop X n req le s1) as [r s'] eqn:Hr
      end.
      cbn [fst snd sent slept] in *. rewrite length_app in IH. cbn [length] in IH.
      destruct IH as [Hobj IH]. split; [exact Hobj|].
      destruct r as [e'|j].
      * destruct IH as (Hs & Hsl & Hall & ->). rewrite Hs, Hsl, <- app_assoc.
        split; [reflexivity|]. split; [lia|]. split.
        -- intros i Hi. destruct i as [|i].
           ++ rewrite Nat.add_0_r. eauto.
           ++ replace (length (sent s) + S i)%nat with (length (sent s) + 1 + i)%nat by lia.
              apply Hall. lia.
        -- f_equal. destruct n as [|n'].
           ++ now rewrite Nat.add_0_r, Hd.
           ++ now replace (length (sent s) + S n')%nat
                with (length (sent s) + 1 + n')%nat by lia.
      * destruct IH as (m & Hm & Hs & Hsl & Hdm & Hall). exists (S m).
        rewrite Hs, Hsl, <- app_assoc.
        split; [lia|]. split; [reflexivity|]. split; [lia|]. split.
        -- now replace (length (sent s) + S m)%nat with (length (sent s) + 1 + m)%nat by lia.
        -- intros i Hi. destruct i as [|i].
           ++ rewrite Nat.add_0_r. eauto.
           ++ replace (length (sent s) + S i)%nat with (length (sent s) + 1 + i)%nat by lia.
              apply Hall. lia.
    + split; [repeat split|]. exists 0%nat. cbn [replicate fst snd sent slept].
      split; [lia|]. split; [reflexivity|]. split; [lia|].
      split; [now rewrite Nat.add_0_r|]. intros i Hi. lia.
Qed.

(** [_request] asks the server at most [retry + 1] times, until one
    answer is good (a status below 400 whose body is empty or decodes):
    it returns what the first good answer decodes to, having slept once
    after each bad answer before it; when the [retry + 1] answers are
    all bad it raises with the error of the last one, having slept
    [retry + 1] times; with a negative [retry] it raises without asking.
    The tokens of the object are not touched. *)
Theorem _request_returns_the_first_good_answer req retry s :
  let r := _request X req retry s in
  let n := Z.to_nat (retry + 1) in
  let k := length (sent s) in
  same_object s (snd r)
  /\ match fst r with
     | inr j =>
         exists m, (m < n)%nat
           /\ sent (snd r) = sent s ++ replicate (S m) req
           /\ slept (snd r) = (slept s + m)%nat
           /\ decode X (http X (k + m)) = inr j
           /\ forall i, (i < m)%nat -> exists e, decode X (http X (k + i)) = inl e
     | inl e =>
         sent (snd r) = sent s ++ replicate n req
         /\ slept (snd r) = (slept s + n)%nat
         /\ (forall i, (i < n)%nat -> exists e', decode X (http X (k + i)) = inl e')
         /\ e = RequestFailed (req_method req) (req_path req)
                  match n with
                  | O => None
                  | S n' => match decode X (http X (k + n')) with
                            | inl e' => Some e'
                            | inr _ => None
                            end
                  end
     end.
Proof. apply _request_loop_spec. Qed.

End RequestFacts.

End RestFacts.
